(** * TalkHeal water tracker: intake log and analytics engine

    A shallow embedding of [core/water_tracker.py].  The Python module keeps
    its log in one JSON document on disk and recomputes every statistic from
    that document; here the document store is an explicit value that is
    passed to, and returned from, each operation, and the system clock
    ([datetime.date.today()]) is an explicit argument.

    Conventions of the embedding:
    - a Python [dict] is an association list in insertion order (the order
      is visible through [items()] and [max]/[min] tie-breaking), with the
      dictionary operations written out;
    - amounts are integers of millilitres ([Z]); a Python [float] is a
      binary64 value kept as the rational it denotes ([Float64]), with
      round-to-nearest-even written out, in the goal percentage and the
      monthly average; the average over a window, the weekly summary and
      the all-time statistics take their averages over exact rationals
      ([Q]), which is what the code computes wherever the quotient and its
      rounding are exact in binary64;
    - a raised exception is the [Raise] case of [result]. *)

From Stdlib Require Import ZArith QArith Qround Qabs Qpower Lqa List String Ascii Lia Bool.
From Stdlib Require Import DecimalString DecimalZ DecimalPos FinFun Permutation Sorted.
Import ListNotations.

Open Scope string_scope.
Open Scope Z_scope.

(** ** Exceptions and results *)

Inductive exn : Type :=
| KeyError
| ValueError
| TypeError
| OverflowError
| ZeroDivisionError
| FileNotFoundError
| JSONDecodeError
| IllegalMonthError
| CsvError.

Inductive result (A : Type) : Type :=
| Ok (a : A)
| Raise (e : exn).
Arguments Ok {A} a.
Arguments Raise {A} e.

Definition bind {A B : Type} (r : result A) (k : A -> result B) : result B :=
  match r with
  | Ok a => k a
  | Raise e => Raise e
  end.

Notation "'let*' x ':=' r 'in' k" := (bind r (fun x => k))
  (at level 10, x name, r at level 100, k at level 200).

Fixpoint mapM {A B : Type} (f : A -> result B) (l : list A) : result (list B) :=
  match l with
  | [] => Ok []
  | a :: l' =>
      let* b := f a in
      let* bs := mapM f l' in
      Ok (b :: bs)
  end.

(** ** Python strings and integer formatting *)

Module PyStr.

(** [str(z)] for a Python [int]. *)
Definition str (z : Z) : string := NilZero.string_of_int (Z.to_int z).

(** [f"{z:02d}"]: zero padded to width two; only one-digit non-negative
    numbers are shorter than the width. *)
Definition format_02d (z : Z) : string :=
  if (0 <=? z) && (z <? 10) then "0" ++ str z else str z.

Definition digit (z : Z) : ascii := ascii_of_N (48 + Z.to_N z).

(** ["%04d" % z] and ["%02d" % z] on the ranges the [date] type allows. *)
Definition fmt4 (z : Z) : string :=
  String (digit (z / 1000 mod 10)) (String (digit (z / 100 mod 10))
    (String (digit (z / 10 mod 10)) (String (digit (z mod 10)) EmptyString))).

Definition fmt2 (z : Z) : string :=
  String (digit (z / 10 mod 10)) (String (digit (z mod 10)) EmptyString).

(** Python compares strings by code point; [String.leb] is that order. *)
Definition le (a b : string) : bool := String.leb a b.
Definition lt (a b : string) : bool := String.ltb a b.

Fixpoint insert_sorted (k : string) (l : list string) : list string :=
  match l with
  | [] => [k]
  | x :: l' => if le k x then k :: l else x :: insert_sorted k l'
  end.

(** [sorted(keys)]. *)
Fixpoint sorted (l : list string) : list string :=
  match l with
  | [] => []
  | x :: l' => insert_sorted x (sorted l')
  end.

(** [min(keys)] and [max(keys)]: the first smallest, the first largest;
    [ValueError] on an empty sequence. *)
Fixpoint min_from (best : string) (l : list string) : string :=
  match l with
  | [] => best
  | x :: l' => min_from (if lt x best then x else best) l'
  end.

Fixpoint max_from (best : string) (l : list string) : string :=
  match l with
  | [] => best
  | x :: l' => max_from (if lt best x then x else best) l'
  end.

Definition min (l : list string) : result string :=
  match l with
  | [] => Raise ValueError
  | x :: l' => Ok (min_from x l')
  end.

Definition max (l : list string) : result string :=
  match l with
  | [] => Raise ValueError
  | x :: l' => Ok (max_from x l')
  end.

End PyStr.

(** ** Calendar dates ([datetime.date], [calendar.monthrange]) *)

Module Calendar.

Record date : Type := mkDate { year : Z; month : Z; day : Z }.

Definition MINYEAR : Z := 1.
Definition MAXYEAR : Z := 9999.

(** [calendar.isleap]. *)
Definition isleap (y : Z) : bool :=
  (y mod 4 =? 0) && (negb (y mod 100 =? 0) || (y mod 400 =? 0)).

(** [calendar.mdays]: the table indexed by month. *)
Definition mdays : list Z := [0; 31; 28; 31; 30; 31; 30; 31; 31; 30; 31; 30; 31].

(** [calendar.monthrange(year, month)[1]]: the number of days of the month;
    [IllegalMonthError] unless [1 <= month <= 12]. *)
Definition monthrange_ndays (y m : Z) : result Z :=
  if (1 <=? m) && (m <=? 12)
  then Ok (nth (Z.to_nat m) mdays 0 + (if (m =? 2) && isleap y then 1 else 0))
  else Raise IllegalMonthError.

Definition days_in_month (y m : Z) : Z :=
  match monthrange_ndays y m with
  | Ok n => n
  | Raise _ => 0
  end.

(** The values a [datetime.date] can hold. *)
Definition valid (d : date) : bool :=
  (MINYEAR <=? year d) && (year d <=? MAXYEAR) &&
  (1 <=? month d) && (month d <=? 12) &&
  (1 <=? day d) && (day d <=? days_in_month (year d) (month d)).

(** [d - timedelta(days=1)]; [OverflowError] below [date.min]. *)
Definition prev_day (d : date) : result date :=
  if 1 <? day d then Ok (mkDate (year d) (month d) (day d - 1))
  else if 1 <? month d
       then Ok (mkDate (year d) (month d - 1) (days_in_month (year d) (month d - 1)))
       else if MINYEAR <? year d
            then Ok (mkDate (year d - 1) 12 31)
            else Raise OverflowError.

(** [d - timedelta(days=i)] for [i >= 0]. *)
Fixpoint minus_days (d : date) (i : nat) : result date :=
  match i with
  | O => Ok d
  | S i' => let* d' := minus_days d i' in prev_day d'
  end.

(** [d.isoformat()], that is ["%04d-%02d-%02d" % (year, month, day)]. *)
Definition isoformat (d : date) : string :=
  PyStr.fmt4 (year d) ++ "-" ++ PyStr.fmt2 (month d) ++ "-" ++ PyStr.fmt2 (day d).

(** [d + timedelta(days=1)]; [OverflowError] above [date.max]. *)
Definition next_day (d : date) : result date :=
  if day d <? days_in_month (year d) (month d)
  then Ok (mkDate (year d) (month d) (day d + 1))
  else if month d <? 12
       then Ok (mkDate (year d) (month d + 1) 1)
       else if year d <? MAXYEAR
            then Ok (mkDate (year d + 1) 1 1)
            else Raise OverflowError.

(** [d + timedelta(days=i)] for [i >= 0]. *)
Fixpoint plus_days (d : date) (i : nat) : result date :=
  match i with
  | O => Ok d
  | S i' => let* d' := plus_days d i' in next_day d'
  end.

(** [d - timedelta(days=n)] for any integer [n]. *)
Definition minus_timedelta (d : date) (n : Z) : result date :=
  if 0 <=? n then minus_days d (Z.to_nat n) else plus_days d (Z.to_nat (- n)).

End Calendar.

(** ** Data model: entries and the daily log *)

(** One logged intake.  [timestamp] and [note] are [None] when the JSON
    record has no such key (or holds [null]). *)
Record entry : Type := mkEntry {
  amount_ml : Z;
  timestamp : option string;
  note : option string
}.

(** The JSON document: date string -> entries, in insertion order. *)
Definition DailyLog : Type := list (string * list entry).

Module Dict.

Section Ops.
Context {V : Type}.

(** [d.get(k)] *)
Fixpoint get (d : list (string * V)) (k : string) : option V :=
  match d with
  | [] => None
  | (k', v) :: d' => if String.eqb k' k then Some v else get d' k
  end.

(** [k in d] *)
Definition contains (d : list (string * V)) (k : string) : bool :=
  match get d k with Some _ => true | None => false end.

(** [d[k] = v]: replaces in place, or appends a new key at the end. *)
Fixpoint set (d : list (string * V)) (k : string) (v : V) : list (string * V) :=
  match d with
  | [] => [(k, v)]
  | (k', v') :: d' =>
      if String.eqb k' k then (k', v) :: d' else (k', v') :: set d' k v
  end.

(** [del d[k]] for a key that is present. *)
Fixpoint del (d : list (string * V)) (k : string) : list (string * V) :=
  match d with
  | [] => []
  | (k', v') :: d' => if String.eqb k' k then d' else (k', v') :: del d' k
  end.

(** [d.keys()] *)
Definition keys (d : list (string * V)) : list string := map fst d.

(** The dictionary invariant: no key occurs twice. *)
Definition wf (d : list (string * V)) : Prop := NoDup (keys d).
End Ops.

End Dict.

(** [data.get(k, [])] *)
Definition entries_of (data : DailyLog) (k : string) : list entry :=
  match Dict.get data k with
  | Some es => es
  | None => []
  end.

(** [sum(entry['amount_ml'] for entry in es)] *)
Definition sum_amounts (es : list entry) : Z :=
  fold_left (fun acc e => acc + amount_ml e) es 0.

(** [sum(e['amount_ml'] for e in data.get(d, []))] *)
Definition daily_total (data : DailyLog) (k : string) : Z :=
  sum_amounts (entries_of data k).

(** ** Numbers: true division and [round] *)


(** Round to the nearest integer, ties to the even one. *)
Definition round_half_even (q : Q) : Z :=
  let f := Qfloor q in
  match Qcompare (q - inject_Z f) (1 # 2) with
  | Lt => f
  | Gt => f + 1
  | Eq => if Z.even f then f else f + 1
  end.

(** [round(q, ndigits)] for [ndigits >= 0]. *)
Definition py_round (q : Q) (ndigits : nat) : Q :=
  let scale := inject_Z (10 ^ Z.of_nat ndigits) in
  (inject_Z (round_half_even (q * scale)) / scale)%Q.

(** ** Binary floating point ([float])

    A Python [float] is an IEEE 754 binary64 number: 53 bits of precision,
    exponents from -1074 (the smallest subnormal is [2^-1074]) and every
    finite value below [2^1024].  A finite value is kept as the rational it
    denotes, in lowest terms, so the two zeros are one value here.  Each
    operation computes the exact result and rounds it to the nearest
    double, ties to the one with the even significand. *)

Module Float64.

Inductive float : Type :=
| Finite (q : Q)
| Infinity (negative : bool)
| NaN.

Definition pow2 (e : Z) : Q := (2 ^ e)%Q.

(** The exponent [k] with [2^k <= q < 2^(k+1)], for [q > 0]. *)
Definition ilog2 (q : Q) : Z :=
  let k := Z.log2 (Qnum q) - Z.log2 (Z.pos (Qden q)) in
  if Qle_bool (pow2 k) q then k else k - 1.

(** The exponent of the last bit of the double nearest to [q > 0]: 52
    places below the leading bit, and never below the subnormal step. *)
Definition quantum (q : Q) : Z := Z.max (ilog2 q - 52) (-1074).

Definition round_pos (q : Q) : Q :=
  (inject_Z (round_half_even (q / pow2 (quantum q))) * pow2 (quantum q))%Q.

(** Round to nearest, ties to even, with no bound on the exponent. *)
Definition round (q : Q) : Q :=
  match (q ?= 0)%Q with
  | Eq => 0%Q
  | Gt => round_pos q
  | Lt => (- round_pos (- q))%Q
  end.

(** The double for the exact result [q]: an infinity when the rounded
    magnitude reaches [2^1024]. *)
Definition of_Q (q : Q) : float :=
  let r := Qred (round q) in
  if Qle_bool (pow2 1024) (Qabs r) then Infinity (negb (Qle_bool 0 r)) else Finite r.

(** [float(z)] on an [int]; [OverflowError] when it is too large. *)
Definition of_int (z : Z) : result float :=
  match of_Q (inject_Z z) with
  | Finite q => Ok (Finite q)
  | _ => Raise OverflowError
  end.

(** [a / b] on two [int]s: the quotient correctly rounded;
    [OverflowError] when it is too large for a [float]. *)
Definition int_truediv (a b : Z) : result float :=
  if b =? 0 then Raise ZeroDivisionError
  else match of_Q (inject_Z a / inject_Z b) with
       | Finite q => Ok (Finite q)
       | _ => Raise OverflowError
       end.

Definition is_negative (q : Q) : bool := negb (Qle_bool 0 q).

(** [x * y] on two [float]s: no exception, an overflow gives an infinity. *)
Definition mul (x y : float) : float :=
  match x, y with
  | Finite a, Finite b => of_Q (a * b)
  | Finite a, Infinity s =>
      if Qeq_bool a 0 then NaN else Infinity (xorb (is_negative a) s)
  | Infinity s, Finite b =>
      if Qeq_bool b 0 then NaN else Infinity (xorb s (is_negative b))
  | Infinity s, Infinity t => Infinity (xorb s t)
  | _, _ => NaN
  end.

(** [x * z] with [x] a [float] and [z] an [int], which is converted first. *)
Definition mul_int (x : float) (z : Z) : result float :=
  let* y := of_int z in Ok (mul x y).

(** [round(x, ndigits)] for [ndigits >= 0]: the exact value of [x] is
    rounded to [ndigits] decimals, ties to even, and the double nearest to
    that decimal is returned; an infinity or a NaN is returned as it is. *)
Definition round_ndigits (x : float) (ndigits : nat) : result float :=
  match x with
  | Finite q =>
      let scale := inject_Z (10 ^ Z.of_nat ndigits) in
      match of_Q (inject_Z (round_half_even (q * scale)) / scale) with
      | Finite r => Ok (Finite r)
      | _ => Raise OverflowError
      end
  | _ => Ok x
  end.

End Float64.

(** A Python number: an [int] or a [float]. *)
Inductive number : Type :=
| PyInt (z : Z)
| PyFloat (x : Float64.float).

(** [range(lo, hi)] and [range(n-1, -1, -1)]. *)
Definition py_range (lo hi : Z) : list Z :=
  map (fun i => lo + Z.of_nat i) (seq 0 (Z.to_nat (hi - lo))).

Definition range_down (n : Z) : list nat := rev (seq 0 (Z.to_nat n)).

(** ** The document store *)

(** What the file [water_intake_log.json] holds: the JSON text of a log, or
    text that [json.load] rejects.  [json.dump] followed by [json.load]
    gives back the dictionary it was given, so a well-formed document is
    kept as the log it denotes. *)
Inductive document : Type :=
| WellFormed (data : DailyLog)
| Malformed (raw : string).

(** The files the module touches: the log document ([None] while it does
    not exist) and the CSV files, by path.  A file is identified by the
    text of its path, and the path [WATER_LOG_FILE] names the document. *)
Record store : Type := mkStore {
  log_file : option document;
  csv_files : list (string * string)
}.

(** ** The [csv] module and text files *)

Module Csv.

Definition comma : ascii := ascii_of_nat 44.
Definition dquote : ascii := ascii_of_nat 34.
Definition CR : ascii := ascii_of_nat 13.
Definition LF : ascii := ascii_of_nat 10.

Definition is_newline (c : ascii) : bool := Ascii.eqb c LF || Ascii.eqb c CR.

(** *** Writing: [csv.writer(f).writerow(fields)], default dialect *)

(** A field is quoted when it holds the delimiter, the quote character or a
    character of the line terminator. *)
Fixpoint needs_quote (s : string) : bool :=
  match s with
  | EmptyString => false
  | String c s' =>
      Ascii.eqb c comma || Ascii.eqb c dquote || is_newline c || needs_quote s'
  end.

(** Inside quotes, a quote character is written twice. *)
Fixpoint double_quotes (s : string) : string :=
  match s with
  | EmptyString => EmptyString
  | String c s' =>
      if Ascii.eqb c dquote
      then String dquote (String dquote (double_quotes s'))
      else String c (double_quotes s')
  end.

Definition write_field (s : string) : string :=
  if needs_quote s
  then String dquote (double_quotes s ++ String dquote EmptyString)
  else s.

Fixpoint join_fields (fields : list string) : string :=
  match fields with
  | [] => EmptyString
  | [f] => write_field f
  | f :: rest => write_field f ++ String comma (join_fields rest)
  end.

Definition lineterminator : string := String CR (String LF EmptyString).

(** The text [writerow] sends to the file; a row that is one empty field is
    written as a pair of quotes. *)
Definition writerow (fields : list string) : string :=
  match fields with
  | [EmptyString] => String dquote (String dquote lineterminator)
  | _ => join_fields fields ++ lineterminator
  end.

(** *** Reading a text file opened without [newline=''] *)

(** Universal newlines: the text layer hands [\r\n] and a lone [\r] to the
    program as [\n]. *)
Fixpoint universal_newlines (s : string) : string :=
  match s with
  | EmptyString => EmptyString
  | String c s' =>
      if Ascii.eqb c CR
      then match s' with
           | String c' s'' =>
               if Ascii.eqb c' LF
               then String LF (universal_newlines s'')
               else String LF (universal_newlines s')
           | EmptyString => String LF EmptyString
           end
      else String c (universal_newlines s')
  end.

(** Iterating over the file: the lines, each with its [\n]. *)
Fixpoint lines_from (cur : string) (s : string) : list string :=
  match s with
  | EmptyString =>
      match cur with
      | EmptyString => []
      | _ => [cur]
      end
  | String c s' =>
      if Ascii.eqb c LF
      then (cur ++ String LF EmptyString) :: lines_from EmptyString s'
      else lines_from (cur ++ String c EmptyString) s'
  end.

Definition readlines (s : string) : list string := lines_from EmptyString s.

(** *** The reader's state machine *)

Inductive parser_state : Type :=
| START_RECORD
| START_FIELD
| IN_FIELD
| IN_QUOTED_FIELD
| QUOTE_IN_QUOTED_FIELD
| EAT_CRNL.

(** The reader object: the state, the fields of the record so far and the
    characters of the field so far. *)
Record reader : Type := mkReader {
  state : parser_state;
  fields : list string;
  field : string
}.

Definition parse_reset : reader := mkReader START_RECORD [] EmptyString.

Definition parse_save_field (r : reader) (s : parser_state) : reader :=
  mkReader s (fields r ++ [field r])%list EmptyString.

Definition parse_add_char (r : reader) (c : ascii) (s : parser_state) : reader :=
  mkReader s (fields r) (field r ++ String c EmptyString).

Definition set_state (r : reader) (s : parser_state) : reader :=
  mkReader s (fields r) (field r).

Definition start_field_char (r : reader) (c : ascii) : reader :=
  if is_newline c then parse_save_field r EAT_CRNL
  else if Ascii.eqb c dquote then set_state r IN_QUOTED_FIELD
  else if Ascii.eqb c comma then parse_save_field r START_FIELD
  else parse_add_char r c IN_FIELD.

(** [parse_process_char] on a character of the line. *)
Definition parse_process_char (r : reader) (c : ascii) : result reader :=
  match state r with
  | START_RECORD =>
      if is_newline c then Ok (set_state r EAT_CRNL)
      else Ok (start_field_char r c)
  | START_FIELD => Ok (start_field_char r c)
  | IN_FIELD =>
      if is_newline c then Ok (parse_save_field r EAT_CRNL)
      else if Ascii.eqb c comma then Ok (parse_save_field r START_FIELD)
      else Ok (parse_add_char r c IN_FIELD)
  | IN_QUOTED_FIELD =>
      if Ascii.eqb c dquote then Ok (set_state r QUOTE_IN_QUOTED_FIELD)
      else Ok (parse_add_char r c IN_QUOTED_FIELD)
  | QUOTE_IN_QUOTED_FIELD =>
      if Ascii.eqb c dquote then Ok (parse_add_char r c IN_QUOTED_FIELD)
      else if Ascii.eqb c comma then Ok (parse_save_field r START_FIELD)
      else if is_newline c then Ok (parse_save_field r EAT_CRNL)
      else Ok (parse_add_char r c IN_FIELD)
  | EAT_CRNL =>
      if is_newline c then Ok r else Raise CsvError
  end.

(** [parse_process_char] on the end-of-line mark that follows each line. *)
Definition parse_process_eol (r : reader) : reader :=
  match state r with
  | START_RECORD => r
  | START_FIELD | IN_FIELD | QUOTE_IN_QUOTED_FIELD => parse_save_field r START_RECORD
  | IN_QUOTED_FIELD => r
  | EAT_CRNL => set_state r START_RECORD
  end.

Fixpoint process_line (r : reader) (line : string) : result reader :=
  match line with
  | EmptyString => Ok (parse_process_eol r)
  | String c line' =>
      let* r' := parse_process_char r c in
      process_line r' line'
  end.

(** [list(csv.reader(f))]: a record is complete when a line leaves the
    machine in [START_RECORD]; at the end of the input an unfinished record
    is returned as it stands. *)
Fixpoint read_records (r : reader) (lines : list string) : result (list (list string)) :=
  match lines with
  | [] =>
      let field_len_nonzero :=
        match field r with EmptyString => false | _ => true end in
      let in_quoted :=
        match state r with IN_QUOTED_FIELD => true | _ => false end in
      if field_len_nonzero || in_quoted
      then Ok [fields (parse_save_field r START_RECORD)]
      else Ok []
  | line :: rest =>
      let* r' := process_line r line in
      match state r' with
      | START_RECORD =>
          let* rows := read_records parse_reset rest in
          Ok (fields r' :: rows)
      | _ => read_records r' rest
      end
  end.

Definition reader_rows (text : string) : result (list (list string)) :=
  read_records parse_reset (readlines text).

(** *** [csv.DictReader] *)

(** A row of the [DictReader]: column name -> value, where the value is
    [None] for a column the record is too short to fill. *)
Definition dict_row : Type := list (string * option string).

(** [zip(fieldnames, row)], then the columns the record is too short
    for with the rest value [None].  Values beyond the last column go under
    the rest key [None], which no string key reaches. *)
Fixpoint zip_row (fieldnames : list string) (row : list string)
  : list (string * option string) :=
  match fieldnames, row with
  | [], _ => []
  | k :: ks, [] => (k, None) :: zip_row ks []
  | k :: ks, v :: vs => (k, Some v) :: zip_row ks vs
  end.

(** [dict(...)] of those pairs: a later pair replaces an earlier one. *)
Definition make_row (fieldnames row : list string) : dict_row :=
  fold_left (fun d kv => Dict.set d (fst kv) (snd kv)) (zip_row fieldnames row) [].

(** [csv.field_size_limit()]: the reader raises [Error] instead of adding a
    character to a field that already holds this many.  A field only grows
    until it is saved, so the reader gets through the text exactly when
    every field of the records above is within the limit; the test is made
    on them. *)
Definition field_size_limit : Z := 131072.

Definition within_limit (rows : list (list string)) : bool :=
  forallb (forallb (fun f => Z.of_nat (String.length f) <=? field_size_limit)) rows.

(** [list(csv.DictReader(f))]: the first record gives the column names,
    empty records are skipped. *)
Definition dict_reader (text : string) : result (list dict_row) :=
  let* rows := reader_rows text in
  if within_limit rows
  then
    match rows with
    | [] => Ok []
    | fieldnames :: rest =>
        Ok (map (make_row fieldnames)
                (filter (fun row => match row with [] => false | _ => true end) rest))
    end
  else Raise CsvError.

(** [row[key]] *)
Definition getitem (row : dict_row) (key : string) : result (option string) :=
  match Dict.get row key with
  | Some v => Ok v
  | None => Raise KeyError
  end.

End Csv.

Module WaterTracker.

Definition WATER_LOG_FILE : string := "water_intake_log.json".

(** [load_water_log()] *)
Definition load_water_log (st : store) : result DailyLog :=
  match log_file st with
  | None => Ok []
  | Some (WellFormed data) => Ok data
  | Some (Malformed _) => Raise JSONDecodeError
  end.

(** What a reader of the document can see while [save_water_log(data)]
    runs: [open(WATER_LOG_FILE, 'w')] leaves the file empty, then
    [json.dump] and the close of the file put the new text there. *)
Definition save_water_log_steps (data : DailyLog) (st : store) : list store :=
  [ mkStore (Some (Malformed EmptyString)) (csv_files st);
    mkStore (Some (WellFormed data)) (csv_files st) ].

(** [save_water_log(data)]: the store once the call has returned. *)
Definition save_water_log (data : DailyLog) (st : store) : store :=
  last (save_water_log_steps data st) st.

(** [data[k].append(e)] after [if k not in data: data[k] = []]. *)
Definition append_entry (data : DailyLog) (k : string) (e : entry) : DailyLog :=
  let data' := if Dict.contains data k then data else Dict.set data k [] in
  Dict.set data' k (entries_of data' k ++ [e])%list.

(** [log_water_intake(amount_ml)]; [today] and [now] are the clock readings
    [today_str()] and [datetime.datetime.now().isoformat()]. *)
Definition log_water_intake (amount : Z) (today now : string) (st : store)
  : result store :=
  let* data := load_water_log st in
  Ok (save_water_log (append_entry data today (mkEntry amount (Some now) None)) st).

(** [log_water_intake_with_note(amount_ml, note)] *)
Definition log_water_intake_with_note (amount : Z) (nt : string)
  (today now : string) (st : store) : result store :=
  let* data := load_water_log st in
  Ok (save_water_log (append_entry data today (mkEntry amount (Some now) (Some nt))) st).

(** [get_today_total()] *)
Definition get_today_total (today : string) (st : store) : result Z :=
  let* data := load_water_log st in
  if Dict.contains data today
  then Ok (sum_amounts (entries_of data today))
  else Ok 0.

(** [get_total_for_date(date_str)] *)
Definition get_total_for_date (date_str : string) (st : store) : result Z :=
  let* data := load_water_log st in
  if Dict.contains data date_str
  then Ok (sum_amounts (entries_of data date_str))
  else Ok 0.

(** [get_hydration_percentage(daily_goal_ml)] *)
Definition get_hydration_percentage (daily_goal_ml : Z) (today : string)
  (st : store) : result number :=
  let* today_total := get_today_total today st in
  if daily_goal_ml >? 0
  then let* ratio := Float64.int_truediv today_total daily_goal_ml in
       let* percent := Float64.mul_int ratio 100 in
       let* rounded := Float64.round_ndigits percent 1 in
       Ok (PyFloat rounded)
  else Ok (PyInt 0).

(** [get_last_n_days_totals(n)] *)
Definition get_last_n_days_totals (n : Z) (today : Calendar.date) (st : store)
  : result (list (string * Z)) :=
  let* data := load_water_log st in
  let* days := mapM (fun i => let* d := Calendar.minus_days today i in
                              Ok (Calendar.isoformat d)) (range_down n) in
  Ok (map (fun d => (d, daily_total data d)) days).

(** The body of the [for i in range(365)] loop of [get_streak_count], over
    the values of [i] still to come. *)
Fixpoint streak_loop (data : DailyLog) (daily_goal_ml : Z) (today : Calendar.date)
  (idxs : list nat) (streak : nat) : result nat :=
  match idxs with
  | [] => Ok streak
  | i :: rest =>
      let* d := Calendar.minus_days today i in
      let total := daily_total data (Calendar.isoformat d) in
      if total >=? daily_goal_ml
      then streak_loop data daily_goal_ml today rest (S streak)
      else Ok streak
  end.

(** [get_streak_count(daily_goal_ml)] *)
Definition get_streak_count (daily_goal_ml : Z) (today : Calendar.date)
  (st : store) : result nat :=
  let* data := load_water_log st in
  streak_loop data daily_goal_ml today (seq 0 365) 0.

(** The dictionary returned by [get_longest_streak]. *)
Record streak_record : Type := mkStreak {
  length : nat;
  start_date : option string;
  end_date : option string
}.

(** The local variables of the scan in [get_longest_streak]. *)
Record scan_state : Type := mkScan {
  max_streak : nat;
  current_streak : nat;
  streak_start : option string;
  max_streak_start : option string;
  max_streak_end : option string
}.

(** One iteration of [for date_str in sorted_dates]. *)
Definition scan_step (data : DailyLog) (daily_goal_ml : Z)
  (s : scan_state) (date_str : string) : scan_state :=
  let total := daily_total data date_str in
  if total >=? daily_goal_ml
  then
    let start := if Nat.eqb (current_streak s) 0 then Some date_str
                 else streak_start s in
    let cur := S (current_streak s) in
    if Nat.ltb (max_streak s) cur
    then mkScan cur cur start start (Some date_str)
    else mkScan (max_streak s) cur start (max_streak_start s) (max_streak_end s)
  else mkScan (max_streak s) 0 None (max_streak_start s) (max_streak_end s).

(** [get_longest_streak(daily_goal_ml)] *)
Definition get_longest_streak (daily_goal_ml : Z) (st : store)
  : result streak_record :=
  let* data := load_water_log st in
  match data with
  | [] => Ok (mkStreak 0 None None)
  | _ =>
      let sorted_dates := PyStr.sorted (Dict.keys data) in
      let s := fold_left (scan_step data daily_goal_ml) sorted_dates
                 (mkScan 0 0 None None None) in
      Ok (mkStreak (max_streak s) (max_streak_start s) (max_streak_end s))
  end.

(** [f"{year}-{month:02d}-{day:02d}"] *)
Definition month_key (y m d : Z) : string :=
  PyStr.str y ++ "-" ++ PyStr.format_02d m ++ "-" ++ PyStr.format_02d d.

(** [get_monthly_data(year, month)]: the dictionary day -> total, built by
    assignment in the order of the days. *)
Definition get_monthly_data (y m : Z) (st : store) : result (list (string * Z)) :=
  let* data := load_water_log st in
  let* num_days := Calendar.monthrange_ndays y m in
  Ok (fold_left
        (fun month_data d =>
           let date_str := month_key y m d in
           Dict.set month_data date_str (daily_total data date_str))
        (py_range 1 (num_days + 1)) []).

(** [max(items, key=lambda x: x[1])] and [min(items, key=...)]: the first
    item with the largest (smallest) value. *)
Fixpoint max_by_value (best : string * Z) (l : list (string * Z)) : string * Z :=
  match l with
  | [] => best
  | x :: l' => max_by_value (if snd best <? snd x then x else best) l'
  end.

Fixpoint min_by_value (best : string * Z) (l : list (string * Z)) : string * Z :=
  match l with
  | [] => best
  | x :: l' => min_by_value (if snd x <? snd best then x else best) l'
  end.

Definition py_max_by_value (l : list (string * Z)) : result (string * Z) :=
  match l with
  | [] => Raise ValueError
  | x :: l' => Ok (max_by_value x l')
  end.

Definition py_min_by_value (l : list (string * Z)) : result (string * Z) :=
  match l with
  | [] => Raise ValueError
  | x :: l' => Ok (min_by_value x l')
  end.

(** [sum(totals)] *)
Definition sum_Z (l : list Z) : Z := fold_left Z.add l 0.

(** The dictionary returned by [get_monthly_statistics]; [days_in_month]
    is [None] where the returned dictionary has no such key. *)
Record monthly_stats : Type := mkMonthly {
  m_total : Z;
  m_average : number;
  m_best_day : option (string * Z);
  m_worst_day : option (string * Z);
  m_days_logged : nat;
  m_days_in_month : option nat
}.

(** [get_monthly_statistics(year, month)] *)
Definition get_monthly_statistics (y m : Z) (st : store) : result monthly_stats :=
  let* month_data := get_monthly_data y m st in
  let totals := filter (fun amount => amount >? 0) (map snd month_data) in
  match totals with
  | [] => Ok (mkMonthly 0 (PyInt 0) None None 0 None)
  | _ =>
      let* best_date := py_max_by_value month_data in
      let* worst_date :=
        py_min_by_value (filter (fun item => snd item >? 0) month_data) in
      let* avg := Float64.int_truediv (sum_Z totals) (Z.of_nat (List.length totals)) in
      let* average := Float64.round_ndigits avg 2 in
      Ok (mkMonthly (sum_Z totals) (PyFloat average)
            (Some best_date) (Some worst_date)
            (List.length totals) (Some (List.length month_data)))
  end.




(** *** File effects

    [export_data_to_csv] and [import_data_from_csv] read and write files
    inside a [try] block.  Their bodies run in a state-and-exception monad
    over the store: a raised exception carries the store as the statements
    before it left it. *)

Definition io (A : Type) : Type := store -> result A * store.

Definition io_ret {A : Type} (a : A) : io A := fun st => (Ok a, st).

Definition io_raise {A : Type} (e : exn) : io A := fun st => (Raise e, st).

Definition io_bind {A B : Type} (m : io A) (k : A -> io B) : io B :=
  fun st =>
    match m st with
    | (Ok a, st') => k a st'
    | (Raise e, st') => (Raise e, st')
    end.

Definition io_lift {A : Type} (r : result A) : io A := fun st => (r, st).

Notation "'do' x '<-' m ';' k" := (io_bind m (fun x => k))
  (at level 10, x name, m at level 100, k at level 200).
Notation "'exec' m ';' k" := (io_bind m (fun _ => k))
  (at level 10, m at level 100, k at level 200).

(** [for x in l: body(x)] *)
Fixpoint io_for {A : Type} (l : list A) (body : A -> io unit) : io unit :=
  match l with
  | [] => io_ret tt
  | x :: l' => exec body x; io_for l' body
  end.

(** [try: body; return True  except Exception: return False] *)
Definition try_bool (body : io unit) (st : store) : bool * store :=
  match body st with
  | (Ok _, st') => (true, st')
  | (Raise _, st') => (false, st')
  end.

Definition io_load : io DailyLog := fun st => (load_water_log st, st).

Definition io_save (data : DailyLog) : io unit :=
  fun st => (Ok tt, save_water_log data st).

(** [open(path, 'w', newline='')]: the file is created or emptied.  A path
    that names the log document empties the document, whose text is then
    no JSON. *)
Definition open_write (path : string) : io unit :=
  fun st =>
    if String.eqb path WATER_LOG_FILE
    then (Ok tt, mkStore (Some (Malformed EmptyString)) (csv_files st))
    else (Ok tt, mkStore (log_file st) (Dict.set (csv_files st) path EmptyString)).

(** A write to the file opened by [open_write]: no newline translation.
    Rows of CSV text written over the log document leave it malformed. *)
Definition write_text (path : string) (text : string) : io unit :=
  fun st =>
    if String.eqb path WATER_LOG_FILE
    then
      let old := match log_file st with
                 | Some (Malformed raw) => raw
                 | _ => EmptyString
                 end in
      (Ok tt, mkStore (Some (Malformed (old ++ text))) (csv_files st))
    else
      let old := match Dict.get (csv_files st) path with
                 | Some s => s
                 | None => EmptyString
                 end in
      (Ok tt, mkStore (log_file st) (Dict.set (csv_files st) path (old ++ text))).

(** [open(path, 'r')] and reading the file: universal newlines apply.  The
    text of a well-formed log document is not kept, so reading is modelled
    for the CSV files; the import is stated for paths other than
    [WATER_LOG_FILE]. *)
Definition open_read (path : string) : io string :=
  fun st =>
    match Dict.get (csv_files st) path with
    | Some text => (Ok (Csv.universal_newlines text), st)
    | None => (Raise FileNotFoundError, st)
    end.

(** [data[k]] *)
Definition log_getitem (data : DailyLog) (k : string) : result (list entry) :=
  match Dict.get data k with
  | Some es => Ok es
  | None => Raise KeyError
  end.

(** A [str] cell of the CSV row: [entry.get(key, '')], with [None] written
    as the empty string by the writer. *)
Definition cell (o : option string) : string :=
  match o with
  | Some s => s
  | None => EmptyString
  end.

Definition csv_header : list string := ["Date"; "Timestamp"; "Amount (ml)"; "Note"].

(** The row [export_data_to_csv] writes for an entry whose amount the log
    holds as an integer.  An amount held as a [float], which is how the
    import stores one, is written with its fraction ([2000.0]). *)
Definition entry_row (date_str : string) (e : entry) : list string :=
  [date_str; cell (timestamp e); PyStr.str (amount_ml e); cell (note e)].

Definition export_body (output_file : string) : io unit :=
  do data <- io_load;
  exec open_write output_file;
  exec write_text output_file (Csv.writerow csv_header);
  io_for (PyStr.sorted (Dict.keys data)) (fun date_str =>
    do es <- io_lift (log_getitem data date_str);
    io_for es (fun e =>
      write_text output_file (Csv.writerow (entry_row date_str e)))).

(** [export_data_to_csv(output_file)] *)
Definition export_data_to_csv (output_file : string) (st : store) : bool * store :=
  try_bool (export_body output_file) st.

(** [float(v)] on a cell that holds the decimal text of an integer that a
    [float] holds exactly (every integer up to [2^53] in magnitude), as
    [str(n)] writes it: the value is that integer.  [None] raises
    [TypeError]; text that is no such numeral raises [ValueError] here. *)
Definition int_text_float (v : option string) : result Z :=
  match v with
  | None => Raise TypeError
  | Some s =>
      match NilZero.int_of_string s with
      | Some d => Ok (Z.of_int d)
      | None => Raise ValueError
      end
  end.

Section CsvImport.

(** Python's [float], applied to a cell of a row ([None] where the row is
    too short): the number it returns, or the exception it raises.  The
    built-in reads more than integer numerals (fractions, exponents, blanks
    around the number); the import is stated for any such function, and
    [int_text_float] is the instance used on files whose amounts are
    written as integers. *)
Variable py_float : option string -> result Z.

(** The body of [for row in reader] in [import_data_from_csv].  A [Date]
    cell that is [None] (a record too short to reach the column) is filed
    under the text [json.dump] writes for the key [None]; in Python that
    key stays apart from a string key of the same text until the document
    is read again, so the import is stated for rows that have a [Date]
    cell. *)
Definition import_row (data : DailyLog) (row : Csv.dict_row) : result DailyLog :=
  let* date_cell := Csv.getitem row "Date" in
  let date_str := match date_cell with Some s => s | None => "null" end in
  let* amount_cell := Csv.getitem row "Amount (ml)" in
  let* amount := py_float amount_cell in
  let* ts := Csv.getitem row "Timestamp" in
  let nt := match Dict.get row "Note" with
            | Some v => v
            | None => Some EmptyString
            end in
  Ok (append_entry data date_str (mkEntry amount ts nt)).

Fixpoint import_rows (data : DailyLog) (rows : list Csv.dict_row) : result DailyLog :=
  match rows with
  | [] => Ok data
  | row :: rest =>
      let* data' := import_row data row in
      import_rows data' rest
  end.

Definition import_body (input_file : string) : io unit :=
  do data <- io_load;
  do text <- open_read input_file;
  do rows <- io_lift (Csv.dict_reader text);
  do data' <- io_lift (import_rows data rows);
  io_save data'.

(** [import_data_from_csv(input_file)] *)
Definition import_data_from_csv (input_file : string) (st : store) : bool * store :=
  try_bool (import_body input_file) st.

End CsvImport.

(** *** Queries on today's log *)


(** [is_goal_achieved(daily_goal_ml)] *)
Definition is_goal_achieved (daily_goal_ml : Z) (today : string) (st : store)
  : result bool :=
  let* today_total := get_today_total today st in
  Ok (today_total >=? daily_goal_ml).

(** [get_today_entries()] and [get_entries_for_date(date_str)] *)
Definition get_today_entries (today : string) (st : store) : result (list entry) :=
  let* data := load_water_log st in
  Ok (entries_of data today).

Definition get_entries_for_date (date_str : string) (st : store) : result (list entry) :=
  let* data := load_water_log st in
  Ok (entries_of data date_str).

(** *** Deleting and editing entries *)

(** [entry['timestamp']]: an entry without time stamp is read as a record
    without the key, on which the subscript raises [KeyError]. *)
Definition entry_timestamp (e : entry) : result string :=
  match timestamp e with
  | Some t => Ok t
  | None => Raise KeyError
  end.

(** [[entry for entry in es if entry['timestamp'] != ts]] *)
Fixpoint without_timestamp (es : list entry) (ts : string) : result (list entry) :=
  match es with
  | [] => Ok []
  | e :: es' =>
      let* t := entry_timestamp e in
      let* rest := without_timestamp es' ts in
      Ok (if String.eqb t ts then rest else e :: rest)
  end.

(** [delete_entry_for_date(date_str, timestamp)] *)
Definition delete_entry_for_date (date_str ts : string) (st : store)
  : result (bool * store) :=
  let* data := load_water_log st in
  if Dict.contains data date_str
  then
    let* es := log_getitem data date_str in
    let original_count := List.length es in
    let* kept := without_timestamp es ts in
    let data' := Dict.set data date_str kept in
    if Nat.ltb (List.length kept) original_count
    then Ok (true, save_water_log data' st)
    else Ok (false, st)
  else Ok (false, st).

(** [delete_water_intake_entry(timestamp)] *)
Definition delete_water_intake_entry (ts : string) (today : string) (st : store)
  : result (bool * store) :=
  let* data := load_water_log st in
  if Dict.contains data today
  then
    let* es := log_getitem data today in
    let original_count := List.length es in
    let* kept := without_timestamp es ts in
    let data' := Dict.set data today kept in
    if Nat.ltb (List.length kept) original_count
    then Ok (true, save_water_log data' st)
    else Ok (false, st)
  else Ok (false, st).

(** [delete_all_entries_for_date(date_str)] *)
Definition delete_all_entries_for_date (date_str : string) (st : store)
  : result (bool * store) :=
  let* data := load_water_log st in
  if Dict.contains data date_str
  then Ok (true, save_water_log (Dict.del data date_str) st)
  else Ok (false, st).

(** The loop [for entry in data[date_str]] of the two edit functions: the
    entries with the first one stamped [ts] changed in place, or [None]
    when the loop ends without a match.  [new_note] is [None] where the
    caller gives no note. *)
Fixpoint edit_first (es : list entry) (ts : string) (new_amount_ml : Z)
  (new_note : option string) : result (option (list entry)) :=
  match es with
  | [] => Ok None
  | e :: es' =>
      let* t := entry_timestamp e in
      if String.eqb t ts
      then Ok (Some (mkEntry new_amount_ml (timestamp e)
                       (match new_note with
                        | Some n => Some n
                        | None => note e
                        end) :: es'))
      else
        let* r := edit_first es' ts new_amount_ml new_note in
        Ok (option_map (cons e) r)
  end.

(** [edit_entry_for_date(date_str, timestamp, new_amount_ml, new_note)] *)
Definition edit_entry_for_date (date_str ts : string) (new_amount_ml : Z)
  (new_note : option string) (st : store) : result (bool * store) :=
  let* data := load_water_log st in
  if Dict.contains data date_str
  then
    let* es := log_getitem data date_str in
    let* r := edit_first es ts new_amount_ml new_note in
    match r with
    | Some es' => Ok (true, save_water_log (Dict.set data date_str es') st)
    | None => Ok (false, st)
    end
  else Ok (false, st).

(** [edit_water_intake_entry(timestamp, new_amount_ml)] *)
Definition edit_water_intake_entry (ts : string) (new_amount_ml : Z)
  (today : string) (st : store) : result (bool * store) :=
  let* data := load_water_log st in
  if Dict.contains data today
  then
    let* es := log_getitem data today in
    let* r := edit_first es ts new_amount_ml None in
    match r with
    | Some es' => Ok (true, save_water_log (Dict.set data today es') st)
    | None => Ok (false, st)
    end
  else Ok (false, st).

(** *** Backdated entries *)

(** The exceptions that [except ValueError] catches: [ValueError] and its
    subclasses [json.JSONDecodeError] and [calendar.IllegalMonthError]. *)
Definition is_ValueError (e : exn) : bool :=
  match e with
  | ValueError | JSONDecodeError | IllegalMonthError => true
  | _ => false
  end.

Section Backdate.

(** [datetime.date.fromisoformat]: the date, or [ValueError] for a string
    that is no calendar date. *)
Variable date_fromisoformat : string -> result Calendar.date.

(** [log_water_intake_for_date(amount_ml, date_str, note)] *)
Definition log_water_intake_for_date (amount : Z) (date_str nt : string)
  (now : string) (st : store) : result (bool * store) :=
  let body :=
    let* _ := date_fromisoformat date_str in
    let* data := load_water_log st in
    Ok (save_water_log
          (append_entry data date_str (mkEntry amount (Some now) (Some nt))) st) in
  match body with
  | Ok st' => Ok (true, st')
  | Raise e => if is_ValueError e then Ok (false, st) else Raise e
  end.

End Backdate.

(** *** The weekly summary *)



(** *** Intake by time of day *)

(** The dictionary returned by [get_intake_by_time_of_day]. *)
Record periods : Type := mkPeriods {
  morning : Z;
  afternoon : Z;
  evening : Z;
  night : Z
}.

Section TimeOfDay.

(** [datetime.datetime.fromisoformat(s).hour]: the hour of a time stamp, or
    the exception raised for a string that is no time stamp. *)
Variable fromisoformat_hour : string -> result Z.

(** The body of [for entry in entries]; the bare [except] skips an entry
    whose time stamp is missing or does not parse. *)
Definition period_step (p : periods) (e : entry) : periods :=
  match (let* t := entry_timestamp e in fromisoformat_hour t) with
  | Ok hour =>
      if (5 <=? hour) && (hour <? 12)
      then mkPeriods (morning p + amount_ml e) (afternoon p) (evening p) (night p)
      else if (12 <=? hour) && (hour <? 17)
      then mkPeriods (morning p) (afternoon p + amount_ml e) (evening p) (night p)
      else if (17 <=? hour) && (hour <? 21)
      then mkPeriods (morning p) (afternoon p) (evening p + amount_ml e) (night p)
      else mkPeriods (morning p) (afternoon p) (evening p) (night p + amount_ml e)
  | Raise _ => p
  end.

(** [get_intake_by_time_of_day()] *)
Definition get_intake_by_time_of_day (today : string) (st : store) : result periods :=
  let* entries := get_today_entries today st in
  Ok (fold_left period_step entries (mkPeriods 0 0 0 0)).

End TimeOfDay.

(** *** Pruning old dates *)

(** [clear_old_data(days_to_keep)]: the number of dates deleted and the
    store after the call. *)
Definition clear_old_data (days_to_keep : Z) (today : Calendar.date) (st : store)
  : result (nat * store) :=
  let* data := load_water_log st in
  let* cutoff := Calendar.minus_timedelta today days_to_keep in
  let cutoff_date := Calendar.isoformat cutoff in
  let dates_to_delete :=
    filter (fun date => PyStr.lt date cutoff_date) (Dict.keys data) in
  let data' := fold_left (fun d date => Dict.del d date) dates_to_delete data in
  match dates_to_delete with
  | [] => Ok (O, st)
  | _ => Ok (List.length dates_to_delete, save_water_log data' st)
  end.

(** *** Reminder times *)

(** [s.split(':')] *)
Fixpoint split_colon_from (cur : string) (s : string) : list string :=
  match s with
  | EmptyString => [cur]
  | String c s' =>
      if Ascii.eqb c (ascii_of_nat 58)
      then cur :: split_colon_from EmptyString s'
      else split_colon_from (cur ++ String c EmptyString) s'
  end.

Definition split_colon (s : string) : list string := split_colon_from EmptyString s.

(** A [datetime] whose seconds are zero, as the number of minutes since
    0001-01-01T00:00; [datetime_range] is the first minute after
    [datetime.max]. *)
Definition datetime_range : Z := 3652059 * 1440.

(** [dt.strftime("%H:%M")] *)
Definition strftime_HM (minutes : Z) : string :=
  PyStr.fmt2 (minutes mod 1440 / 60) ++ ":" ++ PyStr.fmt2 (minutes mod 60).

(** [dt + timedelta(hours=h)]; [OverflowError] outside the range. *)
Definition add_hours (minutes hours : Z) : result Z :=
  let r := minutes + 60 * hours in
  if (0 <=? r) && (r <? datetime_range) then Ok r else Raise OverflowError.

(** The [while current_time < sleep_dt] loop, run for at most [fuel]
    iterations; [None] when the fuel is used up before the loop ends. *)
Fixpoint reminder_loop (fuel : nat) (current_time sleep_dt interval_hours : Z)
  (reminders : list string) : option (result (list string)) :=
  match fuel with
  | O => None
  | S fuel' =>
      if current_time <? sleep_dt
      then
        let reminders' := (reminders ++ [strftime_HM current_time])%list in
        match add_hours current_time interval_hours with
        | Ok next => reminder_loop fuel' next sleep_dt interval_hours reminders'
        | Raise e => Some (Raise e)
        end
      else Some (Ok reminders)
  end.

Section Reminders.

(** Python's [int] on a string: the integer, or [ValueError]. *)
Variable py_int : string -> result Z.

(** [hour, minute = map(int, s.split(':'))]: the parts are converted one
    after the other, and anything but two parts is a [ValueError]. *)
Definition parse_hour_minute (s : string) : result (Z * Z) :=
  match split_colon s with
  | [] => Raise ValueError
  | [a] => let* _ := py_int a in Raise ValueError
  | [a; b] =>
      let* h := py_int a in
      let* m := py_int b in
      Ok (h, m)
  | a :: b :: c :: _ =>
      let* _ := py_int a in
      let* _ := py_int b in
      let* _ := py_int c in
      Raise ValueError
  end.

(** [datetime.combine(date.today(), time(hour, minute))], with the day
    given by its ordinal; [time] raises [ValueError] outside a day. *)
Definition combine (today_ordinal hour minute : Z) : result Z :=
  if (0 <=? hour) && (hour <? 24) && (0 <=? minute) && (minute <? 60)
  then Ok ((today_ordinal - 1) * 1440 + hour * 60 + minute)
  else Raise ValueError.

(** [get_hydration_reminder_times(wake_time, sleep_time, interval_hours)],
    with the loop given [fuel] iterations. *)
Definition get_hydration_reminder_times (fuel : nat) (wake_time sleep_time : string)
  (interval_hours : Z) (today_ordinal : Z) : option (result (list string)) :=
  match parse_hour_minute wake_time with
  | Raise e => Some (Raise e)
  | Ok (wake_hour, wake_min) =>
      match parse_hour_minute sleep_time with
      | Raise e => Some (Raise e)
      | Ok (sleep_hour, sleep_min) =>
          match combine today_ordinal wake_hour wake_min with
          | Raise e => Some (Raise e)
          | Ok wake_dt =>
              match combine today_ordinal sleep_hour sleep_min with
              | Raise e => Some (Raise e)
              | Ok sleep_dt => reminder_loop fuel wake_dt sleep_dt interval_hours []
              end
          end
      end
  end.

End Reminders.

End WaterTracker.

(** ** Vocabulary of the statements *)

(** A number that grows with the date: year, then month, then day. *)
Definition date_rank (d : Calendar.date) : Z :=
  Calendar.year d * 512 + Calendar.month d * 32 + Calendar.day d.

(** A run of [log_water_intake] calls on one day, each with its amount and
    the clock reading at the call. *)
Fixpoint log_all (intakes : list (Z * string)) (today : string) (st : store)
  : result store :=
  match intakes with
  | [] => Ok st
  | (amount, now) :: rest =>
      let* st' := WaterTracker.log_water_intake amount today now st in
      log_all rest today st'
  end.

(** No carriage return in the string. *)
Fixpoint cr_free (s : string) : bool :=
  match s with
  | EmptyString => true
  | String c s' => negb (Ascii.eqb c Csv.CR) && cr_free s'
  end.

(** No carriage return in the date keys, time stamps and notes of a log. *)
Definition entry_cr_free (e : entry) : bool :=
  cr_free (WaterTracker.cell (timestamp e)) && cr_free (WaterTracker.cell (note e)).

Definition log_cr_free (data : DailyLog) : bool :=
  forallb (fun item => cr_free (fst item) && forallb entry_cr_free (snd item)) data.

(** The entry that the import builds from the row the export wrote for
    [e]: an absent time stamp or note comes back as the empty string. *)
Definition reimported (e : entry) : entry :=
  mkEntry (amount_ml e) (Some (WaterTracker.cell (timestamp e)))
          (Some (WaterTracker.cell (note e))).

(** The number of entries of a log, over all its dates. *)
Definition entry_count (data : DailyLog) : nat :=
  list_sum (map (fun item => List.length (snd item)) data).

(** The rows of the export, after the header: date by date in the order of
    the sorted keys, the entries of a date in their order. *)
Definition export_pairs (data : DailyLog) : list (string * entry) :=
  flat_map (fun k => map (pair k) (entries_of data k)) (PyStr.sorted (Dict.keys data)).

Fixpoint cat_all (l : list string) : string :=
  match l with
  | [] => EmptyString
  | x :: l' => x ++ cat_all l'
  end.

Definition export_text (data : DailyLog) : string :=
  Csv.writerow WaterTracker.csv_header
  ++ cat_all (map (fun p => Csv.writerow (WaterTracker.entry_row (fst p) (snd p)))
                 (export_pairs data)).

(** *** The reader as one pass over the characters

    [Csv.read_records] works line by line.  The same records come out of a
    single pass over the characters of the text, where the end-of-line mark
    is processed after each line feed and at the end of a last line that
    has none; [pending] tells whether the current line has a character. *)

Fixpoint csv_feed (r : Csv.reader) (s : string) : result Csv.reader :=
  match s with
  | EmptyString => Ok r
  | String c s' =>
      let* r' := Csv.parse_process_char r c in
      csv_feed r' s'
  end.

Definition csv_finalize (r : Csv.reader) : result (list (list string)) :=
  Csv.read_records r [].

Definition csv_emit (r : Csv.reader)
  (next : Csv.reader -> result (list (list string))) : result (list (list string)) :=
  match Csv.state r with
  | Csv.START_RECORD =>
      let* rows := next Csv.parse_reset in
      Ok (Csv.fields r :: rows)
  | _ => next r
  end.

Fixpoint csv_stream (r : Csv.reader) (pending : bool) (s : string)
  : result (list (list string)) :=
  match s with
  | EmptyString =>
      if pending then csv_emit (Csv.parse_process_eol r) csv_finalize
      else csv_finalize r
  | String c s' =>
      let* r' := Csv.parse_process_char r c in
      if Ascii.eqb c Csv.LF
      then csv_emit (Csv.parse_process_eol r') (fun r'' => csv_stream r'' false s')
      else csv_stream r' true s'
  end.

(** A string with at least one character. *)
Definition nonempty (s : string) : bool :=
  match s with EmptyString => false | _ => true end.

(** The reader stands at the start of a field. *)
Definition at_field_start (r : Csv.reader) : Prop :=
  (Csv.state r = Csv.START_RECORD \/ Csv.state r = Csv.START_FIELD)
  /\ Csv.field r = EmptyString.

(** A record of two fields or more. *)
Definition wide (row : list string) : bool :=
  match row with
  | _ :: _ :: _ => true
  | _ => false
  end.

(** The day [k] reaches the goal. *)
Definition meets_goal (data : DailyLog) (goal : Z) (k : string) : Prop :=
  goal <= daily_total data k.

(** The scan of [get_longest_streak] has seen the keys [p] and stands in
    state [s]: the current streak is the longest run of days at the goal
    that ends at the last key seen, the best streak is a longest run of
    such days among the keys seen. *)
Definition scan_inv (data : DailyLog) (goal : Z) (p : list string)
  (s : WaterTracker.scan_state) : Prop :=
  let meets := meets_goal data goal in
  (exists q r, p = (q ++ r)%list /\ Forall meets r
               /\ List.length r = WaterTracker.current_streak s
               /\ (r <> [] -> WaterTracker.streak_start s = hd_error r))
  /\ (forall q r, p = (q ++ r)%list -> Forall meets r ->
                  (List.length r <= WaterTracker.current_streak s)%nat)
  /\ (forall pre run post, p = (pre ++ run ++ post)%list -> Forall meets run ->
                           (List.length run <= WaterTracker.max_streak s)%nat)
  /\ (WaterTracker.max_streak s = O ->
      WaterTracker.max_streak_start s = None /\ WaterTracker.max_streak_end s = None)
  /\ ((0 < WaterTracker.max_streak s)%nat ->
      exists pre run post,
        p = (pre ++ run ++ post)%list /\ Forall meets run
        /\ List.length run = WaterTracker.max_streak s
        /\ WaterTracker.max_streak_start s = hd_error run
        /\ WaterTracker.max_streak_end s = Some (last run EmptyString))
  /\ (WaterTracker.current_streak s <= WaterTracker.max_streak s)%nat.

(** *** Time stamps and hours of entries *)

(** The entry carries the time stamp [ts]. *)
Definition stamped (ts : string) (e : entry) : bool :=
  match timestamp e with
  | Some t => String.eqb t ts
  | None => false
  end.

(** Every entry of the list carries a time stamp. *)
Definition all_stamped (es : list entry) : Prop :=
  Forall (fun e => timestamp e <> None) es.

(** The entry after an edit to [new_amount_ml], with the note replaced when
    the caller gives one. *)
Definition edited (new_amount_ml : Z) (new_note : option string) (e : entry) : entry :=
  mkEntry new_amount_ml (timestamp e)
          (match new_note with
           | Some n => Some n
           | None => note e
           end).

(** The hour at which an entry was logged, when its time stamp is there and
    is read by [parse]. *)
Definition entry_hour (parse : string -> result Z) (e : entry) : option Z :=
  match timestamp e with
  | Some t => match parse t with Ok h => Some h | Raise _ => None end
  | None => None
  end.

(** The entry was logged at an hour [h] with [lo <= h < hi]. *)
Definition in_hours (parse : string -> result Z) (lo hi : Z) (e : entry) : bool :=
  match entry_hour parse e with
  | Some h => (lo <=? h) && (h <? hi)
  | None => false
  end.

(** The entry was logged at an hour outside [lo <= h < hi]. *)
Definition out_of_hours (parse : string -> result Z) (lo hi : Z) (e : entry) : bool :=
  match entry_hour parse e with
  | Some h => negb ((lo <=? h) && (h <? hi))
  | None => false
  end.

(** The entry has a time stamp that [parse] reads. *)
Definition timed (parse : string -> result Z) (e : entry) : bool :=
  match entry_hour parse e with Some _ => true | None => false end.

(** *** Calendar days as numbers *)

(** [date.toordinal()]: the number of the day in the proleptic Gregorian
    calendar, where 0001-01-01 is day 1. *)
Definition days_before_year (y : Z) : Z :=
  let p := y - 1 in p * 365 + p / 4 - p / 100 + p / 400.

Definition days_before_month (y m : Z) : Z :=
  nth (Z.to_nat m) [0; 0; 31; 59; 90; 120; 151; 181; 212; 243; 273; 304; 334] 0
  + (if (2 <? m) && Calendar.isleap y then 1 else 0).

Definition toordinal (d : Calendar.date) : Z :=
  days_before_year (Calendar.year d)
  + days_before_month (Calendar.year d) (Calendar.month d) + Calendar.day d.

(** The year is a leap year of the Gregorian calendar. *)
Definition leap_year (y : Z) : Prop :=
  y mod 4 = 0 /\ (y mod 100 <> 0 \/ y mod 400 = 0).

(** The number of days of each month, February apart. *)
Definition long_month (m : Z) : Prop :=
  m = 1 \/ m = 3 \/ m = 5 \/ m = 7 \/ m = 8 \/ m = 10 \/ m = 12.

(** *** Totals, spelled out *)

(** [total] is the sum of the amounts of the entries filed under [k], and
    0 when the log has no key [k]. *)
Definition total_under (data : DailyLog) (k : string) (total : Z) : Prop :=
  (forall es, Dict.get data k = Some es ->
              total = fold_right Z.add 0 (map amount_ml es))
  /\ (Dict.get data k = None -> total = 0).

(** *** Comparing a number with a rational *)

Definition float_ge (x : Float64.float) (c : Q) : Prop :=
  match x with
  | Float64.Finite q => (c <= q)%Q
  | Float64.Infinity negative => negative = false
  | Float64.NaN => False
  end.

Definition float_le (x : Float64.float) (c : Q) : Prop :=
  match x with
  | Float64.Finite q => (q <= c)%Q
  | Float64.Infinity negative => negative = true
  | Float64.NaN => False
  end.

Definition number_ge (p : number) (c : Q) : Prop :=
  match p with
  | PyInt z => (c <= inject_Z z)%Q
  | PyFloat x => float_ge x c
  end.

Definition number_le (p : number) (c : Q) : Prop :=
  match p with
  | PyInt z => (inject_Z z <= c)%Q
  | PyFloat x => float_le x c
  end.

(** *** Cells the reader accepts and amounts that read back *)

(** The string is within the field size limit of the csv reader. *)
Definition short (s : string) : bool :=
  Z.of_nat (String.length s) <=? Csv.field_size_limit.

(** The three cells the export writes for an entry are within the limit. *)
Definition entry_within_limit (e : entry) : bool :=
  short (WaterTracker.cell (timestamp e)) && short (PyStr.str (amount_ml e))
  && short (WaterTracker.cell (note e)).

Definition log_within_limit (data : DailyLog) : bool :=
  forallb (fun item => short (fst item) && forallb entry_within_limit (snd item)) data.

(** [float] gives back every amount of the log from the text [str] writes
    for it, as Python's [float] does for an integer of magnitude up to
    [2^53]. *)
Definition reads_back (py_float : option string -> result Z) (data : DailyLog) : Prop :=
  forall k e, In e (entries_of data k) ->
              py_float (Some (PyStr.str (amount_ml e))) = Ok (amount_ml e).

(** *** The exact percentage *)

(** [100 * total / goal] as a rational. *)
Definition exact_percentage (total goal : Z) : Q :=
  (100 * (inject_Z total / inject_Z goal))%Q.


(** Every row the reader hands out has a [Date] cell. *)
Definition dated (rows : list Csv.dict_row) : Prop :=
  forall row, In row rows -> Dict.get row "Date" <> Some None.

(** ** Sample logs

    Small documents on which the operations are run in the examples. *)

Module Samples.

Definition entry_of (amount : Z) : entry := mkEntry amount None None.

(** Two days, the second one with two entries. *)
Definition two_days : DailyLog :=
  [ ("2024-01-01", [entry_of 2000]);
    ("2024-01-02", [mkEntry 500 (Some "2024-01-02T08:00:00") (Some "morning");
                    mkEntry 700 (Some "2024-01-02T13:30:00") None]) ].

Definition store_of (data : DailyLog) : store := mkStore (Some (WellFormed data)) [].


(** A log with one entry of [amount] on each of the [n] days that end at
    [last]. *)
Definition daily_log (last : Calendar.date) (n : nat) (amount : Z) : DailyLog :=
  flat_map (fun i => match Calendar.minus_days last i with
                     | Ok d => [(Calendar.isoformat d, [entry_of amount])]
                     | Raise _ => []
                     end) (seq 0 n).

(** Two logged dates four days apart, both at 2000 ml. *)
Definition gap_log : DailyLog :=
  [ ("2024-01-01", [entry_of 2000]); ("2024-01-05", [entry_of 2000]) ].



Definition store_with_csv (data : DailyLog) (path text : string) : store :=
  mkStore (Some (WellFormed data)) [(path, text)].

(** A note that holds a carriage return between two letters. *)
Definition cr_note : string := String "a" (String Csv.CR (String "b" EmptyString)).
Definition lf_note : string := String "a" (String Csv.LF (String "b" EmptyString)).

Definition cr_note_log : DailyLog :=
  [ ("2024-01-01", [mkEntry 500 (Some "2024-01-01T08:00:00") (Some cr_note)]) ].

(** The end of February of a leap year: nothing on the 28th, two entries on
    the 29th, one on the first of March. *)
Definition leap_log : DailyLog :=
  [ ("2024-02-29", [entry_of 300; entry_of 200]); ("2024-03-01", [entry_of 1000]) ].

(** February 2024 with two logged days. *)
Definition february_log : DailyLog :=
  [ ("2024-02-10", [entry_of 1500]); ("2024-02-20", [entry_of 500; entry_of 300]) ].

(** Days with a total of 3 ml and of 1 ml: against a goal of 2000 ml the
    exact percentages 0.15 and 0.05 lie half way between two tenths. *)
Definition sips_log : DailyLog :=
  [ ("2024-01-01", [entry_of 1]); ("2024-01-02", [entry_of 1; entry_of 2]) ].

(** One entry whose amount is beyond the range of a [float]. *)
Definition huge_log : DailyLog := [ ("2024-01-01", [entry_of (10 ^ 400)]) ].

(** A day of the year 999, filed under its ISO date. *)
Definition year_999_log : DailyLog := [ ("0999-01-05", [entry_of 500]) ].

End Samples.

(** * Properties *)

(** ** The result monad *)

Lemma bind_Ok {A B : Type} (r : result A) (k : A -> result B) (b : B) :
  bind r k = Ok b -> exists a, r = Ok a /\ k a = Ok b.
Proof. destruct r as [a|e]; simpl; intros H; [eauto | discriminate]. Qed.

Lemma mapM_length {A B : Type} (f : A -> result B) (l : list A) (bs : list B) :
  mapM f l = Ok bs -> List.length bs = List.length l.
Proof.
  revert bs; induction l as [|a l IH]; simpl; intros bs H.
  - injection H as <-; reflexivity.
  - destruct (f a) as [b|]; simpl in H; [|discriminate].
    destruct (mapM f l) as [bs'|]; simpl in H; [|discriminate].
    injection H as <-; simpl; f_equal; auto.
Qed.

Lemma mapM_nth {A B : Type} (f : A -> result B) (l : list A) (bs : list B)
  (i : nat) (da : A) (db : B) :
  mapM f l = Ok bs -> (i < List.length l)%nat -> f (nth i l da) = Ok (nth i bs db).
Proof.
  revert bs i; induction l as [|a l IH]; simpl; intros bs i H Hi; [lia|].
  destruct (f a) as [b|] eqn:Hb; simpl in H; [|discriminate].
  destruct (mapM f l) as [bs'|] eqn:Hbs; simpl in H; [|discriminate].
  injection H as <-. destruct i as [|i]; simpl; [assumption|].
  apply IH; [reflexivity | lia].
Qed.

Lemma mapM_all_Ok {A B : Type} (f : A -> result B) (l : list A) :
  (forall a, In a l -> exists b, f a = Ok b) -> exists bs, mapM f l = Ok bs.
Proof.
  induction l as [|a l IH]; simpl; intros H; [eauto|].
  destruct (H a (or_introl eq_refl)) as [b ->].
  destruct IH as [bs ->]; [intros; apply H; auto|]. simpl; eauto.
Qed.

Lemma nth_map_lt {A B : Type} (f : A -> B) (l : list A) (i : nat) (da : A) (db : B) :
  (i < List.length l)%nat -> nth i (map f l) db = f (nth i l da).
Proof.
  revert i; induction l as [|a l IH]; simpl; intros i Hi; [lia|].
  destruct i as [|i]; [reflexivity | apply IH; lia].
Qed.

(** ** Totals *)

Lemma fold_left_add_shift (es : list entry) (a : Z) :
  fold_left (fun acc e => acc + amount_ml e) es a
  = a + fold_left (fun acc e => acc + amount_ml e) es 0.
Proof.
  revert a; induction es as [|e es IH]; simpl; intros a; [lia|].
  rewrite (IH (a + amount_ml e)), (IH (amount_ml e)); lia.
Qed.

Lemma sum_amounts_nil : sum_amounts [] = 0.
Proof. reflexivity. Qed.

Lemma sum_amounts_cons (e : entry) (es : list entry) :
  sum_amounts (e :: es) = amount_ml e + sum_amounts es.
Proof. unfold sum_amounts; simpl. apply fold_left_add_shift. Qed.

Lemma sum_amounts_app (es1 es2 : list entry) :
  sum_amounts (es1 ++ es2) = sum_amounts es1 + sum_amounts es2.
Proof.
  induction es1 as [|e es1 IH]; simpl; [reflexivity|].
  rewrite !sum_amounts_cons, IH; lia.
Qed.

(** [get_today_total] is the daily total of today's key: the membership
    test only short-cuts the empty sum. *)
Lemma get_today_total_spec (today : string) (st : store) (data : DailyLog) :
  WaterTracker.load_water_log st = Ok data ->
  WaterTracker.get_today_total today st = Ok (daily_total data today).
Proof.
  intros H; unfold WaterTracker.get_today_total; rewrite H; simpl.
  unfold Dict.contains, daily_total, entries_of.
  destruct (Dict.get data today); reflexivity.
Qed.

(** ** Rounding *)

Lemma round_half_even_comp (p q : Q) : p == q -> round_half_even p = round_half_even q.
Proof.
  intros H; unfold round_half_even.
  rewrite (Qfloor_comp _ _ H).
  assert (Hc : (p - inject_Z (Qfloor q) ?= 1 # 2)%Q = (q - inject_Z (Qfloor q) ?= 1 # 2)%Q)
    by (rewrite H; reflexivity).
  rewrite Hc; reflexivity.
Qed.

Lemma py_round_comp (p q : Q) (n : nat) : p == q -> py_round p n = py_round q n.
Proof.
  intros H; unfold py_round.
  f_equal. f_equal. apply round_half_even_comp. rewrite H; reflexivity.
Qed.

(** ** Loading and saving the document *)

(** C8.  [load_water_log] gives the empty log when the document does not
    exist, raises the decoder's error when the document is there but is not
    well-formed JSON (nothing catches it, nothing turns it into an empty
    log), and gives the stored log otherwise. *)
Theorem load_water_log_cases (csv : list (string * string)) :
  WaterTracker.load_water_log (mkStore None csv) = Ok []
  /\ (forall raw, WaterTracker.load_water_log (mkStore (Some (Malformed raw)) csv)
                  = Raise JSONDecodeError)
  /\ (forall data, WaterTracker.load_water_log (mkStore (Some (WellFormed data)) csv)
                   = Ok data).
Proof. repeat split. Qed.

(** C10, as the code has it.  [save_water_log] rewrites the document in
    place: the file is first emptied, then the new text is written.  Once
    the call has returned, the document is the new log and the other files
    are untouched; in between, the document a reader finds is the emptied
    file, which [load_water_log] rejects. *)
Theorem save_water_log_in_place (data : DailyLog) (st : store) :
  WaterTracker.load_water_log (WaterTracker.save_water_log data st) = Ok data
  /\ csv_files (WaterTracker.save_water_log data st) = csv_files st
  /\ exists emptied,
       WaterTracker.save_water_log_steps data st
       = [emptied; WaterTracker.save_water_log data st]
       /\ log_file emptied = Some (Malformed EmptyString)
       /\ WaterTracker.load_water_log emptied = Raise JSONDecodeError.
Proof.
  repeat split. eexists; repeat split.
Qed.

(** C10 as stated does not hold: while a save of a non-empty log over a
    non-empty document is in flight, a reader can find a document that is
    neither the old one nor the new one. *)
Lemma save_water_log_not_atomic :
  ~ (forall (data : DailyLog) (st s : store),
        In s (WaterTracker.save_water_log_steps data st) ->
        log_file s = log_file st \/ log_file s = Some (WellFormed data)).
Proof.
  intros H.
  destruct (H [] (mkStore (Some (WellFormed [])) [])
              (mkStore (Some (Malformed EmptyString)) [])) as [E|E].
  - simpl; auto.
  - discriminate E.
  - discriminate E.
Qed.

(** ** Goal percentage *)

(** ** Calendar arithmetic *)

Lemma minus_days_S (d : Calendar.date) (i : nat) :
  Calendar.minus_days d (S i)
  = bind (Calendar.minus_days d i) Calendar.prev_day.
Proof. reflexivity. Qed.

(** If the day [k] days back exists, so does every day nearer to [d]. *)
Lemma minus_days_defined_le (d : Calendar.date) (k j : nat) (dk : Calendar.date) :
  Calendar.minus_days d k = Ok dk -> (j <= k)%nat ->
  exists dj, Calendar.minus_days d j = Ok dj.
Proof.
  revert dk; induction k as [|k IH]; intros dk Hk Hj.
  - assert (j = O) by lia; subst; simpl; eauto.
  - destruct (Nat.eq_dec j (S k)) as [->|Hne]; [eauto|].
    rewrite minus_days_S in Hk. apply bind_Ok in Hk as (dk' & Hk' & _).
    apply (IH dk' Hk'); lia.
Qed.

(** ** The last [n] days *)

Lemma range_down_length (n : Z) : List.length (range_down n) = Z.to_nat n.
Proof. unfold range_down; rewrite length_rev, length_seq; reflexivity. Qed.

Lemma range_down_nth (n : Z) (i : nat) :
  (i < Z.to_nat n)%nat -> nth i (range_down n) O = (Z.to_nat n - 1 - i)%nat.
Proof.
  intros Hi; unfold range_down.
  rewrite rev_nth by (rewrite length_seq; assumption).
  rewrite length_seq, seq_nth by lia. lia.
Qed.

(** ** Ranges, strings and dictionaries *)

Lemma in_py_range (lo hi z : Z) : In z (py_range lo hi) <-> lo <= z < hi.
Proof.
  unfold py_range; rewrite in_map_iff; split.
  - intros (i & <- & Hi). apply in_seq in Hi. lia.
  - intros Hz. exists (Z.to_nat (z - lo)); split; [lia|]. apply in_seq; lia.
Qed.

Lemma py_range_length (lo hi : Z) : List.length (py_range lo hi) = Z.to_nat (hi - lo).
Proof. unfold py_range; rewrite length_map, length_seq; reflexivity. Qed.

Lemma py_range_NoDup (lo hi : Z) : NoDup (py_range lo hi).
Proof.
  unfold py_range. apply Injective_map_NoDup; [|apply seq_NoDup].
  intros a b H; lia.
Qed.

Lemma string_app_inv_head (s a b : string) : (s ++ a = s ++ b)%string -> a = b.
Proof.
  induction s as [|c s IH]; simpl; intros H; [assumption|].
  injection H as H; auto.
Qed.

Lemma format_02d_inj (a b : Z) :
  1 <= a <= 31 -> 1 <= b <= 31 ->
  PyStr.format_02d a = PyStr.format_02d b -> a = b.
Proof.
  intros Ha Hb H.
  assert (T : forallb (fun x => forallb (fun y =>
                implb (String.eqb (PyStr.format_02d x) (PyStr.format_02d y)) (x =? y))
                (py_range 1 32)) (py_range 1 32) = true) by (vm_compute; reflexivity).
  rewrite forallb_forall in T.
  specialize (T a (proj2 (in_py_range 1 32 a) ltac:(lia))).
  rewrite forallb_forall in T.
  specialize (T b (proj2 (in_py_range 1 32 b) ltac:(lia))).
  rewrite H, String.eqb_refl in T; simpl in T. apply Z.eqb_eq; assumption.
Qed.

Lemma month_key_inj (y m a b : Z) :
  1 <= a <= 31 -> 1 <= b <= 31 ->
  WaterTracker.month_key y m a = WaterTracker.month_key y m b -> a = b.
Proof.
  intros Ha Hb H. unfold WaterTracker.month_key in H.
  apply string_app_inv_head in H. simpl in H. injection H as H.
  apply string_app_inv_head in H. simpl in H. injection H as H.
  apply format_02d_inj; assumption.
Qed.

Lemma dict_get_app_None {V : Type} (d : list (string * V)) (k : string) (v : V) :
  ~ In k (Dict.keys d) -> Dict.set d k v = (d ++ [(k, v)])%list.
Proof.
  induction d as [|[k' v'] d IH]; simpl; intros H; [reflexivity|].
  destruct (String.eqb_spec k' k) as [->|Hne]; [tauto|].
  rewrite IH; [reflexivity | tauto].
Qed.

(** Assigning fresh keys one after the other lists them in order. *)
Lemma fold_set_fresh {A V : Type} (key : A -> string) (val : A -> V)
  (l : list A) (d : list (string * V)) :
  NoDup (map key l) ->
  (forall a, In a l -> ~ In (key a) (Dict.keys d)) ->
  fold_left (fun acc a => Dict.set acc (key a) (val a)) l d
  = (d ++ map (fun a => (key a, val a)) l)%list.
Proof.
  revert d; induction l as [|a l IH]; simpl; intros d Hnd Hfresh.
  - rewrite app_nil_r; reflexivity.
  - inversion Hnd as [|? ? Hna Hnd']; subst.
    rewrite dict_get_app_None by (apply Hfresh; auto).
    rewrite IH; [rewrite <- app_assoc; reflexivity | assumption |].
    intros b Hb Hin. unfold Dict.keys in Hin. rewrite map_app, in_app_iff in Hin.
    destruct Hin as [Hin | [Hin | []]].
    + apply (Hfresh b); auto.
    + simpl in Hin. apply Hna. rewrite Hin. apply in_map; assumption.
Qed.

(** ** Largest and smallest item *)

Lemma max_by_value_spec (best : string * Z) (l : list (string * Z)) :
  In (WaterTracker.max_by_value best l) (best :: l)
  /\ forall x, In x (best :: l) -> snd x <= snd (WaterTracker.max_by_value best l).
Proof.
  revert best; induction l as [|y l IH]; intros best; simpl.
  - split; [auto | intros x [<-|[]]; lia].
  - destruct (IH (if snd best <? snd y then y else best)) as [Hin Hle].
    split.
    + destruct Hin as [Hin|Hin]; [|auto].
      rewrite <- Hin. destruct (snd best <? snd y); auto.
    + intros x Hx.
      assert (Hb : snd best <= snd (if snd best <? snd y then y else best)
                   /\ snd y <= snd (if snd best <? snd y then y else best))
        by (destruct (Z.ltb_spec (snd best) (snd y)); lia).
      pose proof (Hle _ (or_introl eq_refl)) as H0.
      destruct Hx as [<-|[<-|Hx]]; [lia | lia | apply Hle; simpl; auto].
Qed.

Lemma min_by_value_spec (best : string * Z) (l : list (string * Z)) :
  In (WaterTracker.min_by_value best l) (best :: l)
  /\ forall x, In x (best :: l) -> snd (WaterTracker.min_by_value best l) <= snd x.
Proof.
  revert best; induction l as [|y l IH]; intros best; simpl.
  - split; [auto | intros x [<-|[]]; lia].
  - destruct (IH (if snd y <? snd best then y else best)) as [Hin Hle].
    split.
    + destruct Hin as [Hin|Hin]; [|auto].
      rewrite <- Hin. destruct (snd y <? snd best); auto.
    + intros x Hx.
      assert (Hb : snd (if snd y <? snd best then y else best) <= snd best
                   /\ snd (if snd y <? snd best then y else best) <= snd y)
        by (destruct (Z.ltb_spec (snd y) (snd best)); lia).
      pose proof (Hle _ (or_introl eq_refl)) as H0.
      destruct Hx as [<-|[<-|Hx]]; [lia | lia | apply Hle; simpl; auto].
Qed.

(** ** Monthly statistics *)

Lemma monthrange_ndays_valid (y m : Z) :
  1 <= m <= 12 ->
  Calendar.monthrange_ndays y m = Ok (Calendar.days_in_month y m)
  /\ 28 <= Calendar.days_in_month y m <= 31
  /\ (m = 2 -> Calendar.days_in_month y m = if Calendar.isleap y then 29 else 28).
Proof.
  intros Hm. unfold Calendar.days_in_month, Calendar.monthrange_ndays.
  assert (Hc : m = 1 \/ m = 2 \/ m = 3 \/ m = 4 \/ m = 5 \/ m = 6 \/ m = 7
               \/ m = 8 \/ m = 9 \/ m = 10 \/ m = 11 \/ m = 12) by lia.
  repeat (destruct Hc as [->|Hc]); try subst m; simpl;
    try (destruct (Calendar.isleap y)); simpl; repeat split; try lia; try reflexivity;
    intros; try discriminate; reflexivity.
Qed.

Lemma get_monthly_data_spec (y m : Z) (st : store) (data : DailyLog) :
  WaterTracker.load_water_log st = Ok data ->
  1 <= m <= 12 ->
  WaterTracker.get_monthly_data y m st
  = Ok (map (fun d => (WaterTracker.month_key y m d,
                       daily_total data (WaterTracker.month_key y m d)))
            (py_range 1 (Calendar.days_in_month y m + 1))).
Proof.
  intros Hload Hm. unfold WaterTracker.get_monthly_data. rewrite Hload; simpl.
  destruct (monthrange_ndays_valid y m Hm) as (-> & Hb & _); simpl. f_equal.
  rewrite (fold_set_fresh (WaterTracker.month_key y m)
             (fun d => daily_total data (WaterTracker.month_key y m d))).
  - reflexivity.
  - apply Injective_map_NoDup_in; [|apply py_range_NoDup].
    intros a b Ha Hb' E. apply in_py_range in Ha, Hb'.
    apply (month_key_inj y m); [lia | lia | assumption].
  - intros a _ [].
Qed.

Lemma filter_nil_iff {A : Type} (f : A -> bool) (l : list A) :
  filter f l = [] <-> forall a, In a l -> f a = false.
Proof.
  induction l as [|a l IH]; simpl; [tauto|].
  destruct (f a) eqn:E; split.
  - discriminate.
  - intros H. rewrite (H a) in E by auto. discriminate.
  - intros H b [<-|Hb]; [assumption | apply IH; assumption].
  - intros H. apply IH. intros b Hb; apply H; auto.
Qed.

Lemma filter_map_snd_pos (l : list (string * Z)) :
  filter (fun amount => amount >? 0) (map snd l)
  = map snd (filter (fun item : string * Z => snd item >? 0) l).
Proof.
  induction l as [|x l IH]; simpl; [reflexivity|].
  destruct (snd x >? 0); simpl; rewrite IH; reflexivity.
Qed.


(** ** The order on strings *)











(** ** All-time statistics *)





(** ** Dates: validity, order and ISO format *)

Lemma days_in_month_bounds (y m : Z) :
  1 <= m <= 12 -> 28 <= Calendar.days_in_month y m <= 31.
Proof. intros Hm. apply (monthrange_ndays_valid y m Hm). Qed.

Lemma valid_iff (d : Calendar.date) :
  Calendar.valid d = true <->
  1 <= Calendar.year d <= 9999 /\ 1 <= Calendar.month d <= 12
  /\ 1 <= Calendar.day d <= Calendar.days_in_month (Calendar.year d) (Calendar.month d).
Proof.
  unfold Calendar.valid, Calendar.MINYEAR, Calendar.MAXYEAR.
  rewrite !andb_true_iff, !Z.leb_le. tauto.
Qed.

Lemma prev_day_valid (d d' : Calendar.date) :
  Calendar.valid d = true -> Calendar.prev_day d = Ok d' ->
  Calendar.valid d' = true /\ date_rank d' < date_rank d.
Proof.
  rewrite !valid_iff. intros (Hy & Hm & Hd). unfold Calendar.prev_day, date_rank.
  destruct (Z.ltb_spec 1 (Calendar.day d)).
  - intros E; injection E as <-; simpl. repeat split; lia.
  - destruct (Z.ltb_spec 1 (Calendar.month d)).
    + intros E; injection E as <-; simpl.
      pose proof (days_in_month_bounds (Calendar.year d) (Calendar.month d - 1)
                    ltac:(lia)).
      repeat split; lia.
    + unfold Calendar.MINYEAR. destruct (Z.ltb_spec 1 (Calendar.year d)).
      * intros E; injection E as <-; simpl.
        change (Calendar.days_in_month (Calendar.year d - 1) 12) with 31.
        repeat split; lia.
      * discriminate.
Qed.

Lemma minus_days_valid (d d' : Calendar.date) (i : nat) :
  Calendar.valid d = true -> Calendar.minus_days d i = Ok d' ->
  Calendar.valid d' = true /\ date_rank d' <= date_rank d - Z.of_nat i.
Proof.
  intros Hv; revert d'; induction i as [|i IH]; intros d' H.
  - injection H as <-. split; [assumption | lia].
  - rewrite minus_days_S in H. apply bind_Ok in H as (d0 & H0 & H1).
    destruct (IH d0 H0) as [Hv0 Hr0].
    destruct (prev_day_valid d0 d' Hv0 H1). split; [assumption | lia].
Qed.

Lemma digit_inj (a b : Z) :
  0 <= a <= 9 -> 0 <= b <= 9 -> PyStr.digit a = PyStr.digit b -> a = b.
Proof.
  intros Ha Hb H. unfold PyStr.digit in H.
  apply (f_equal N_of_ascii) in H.
  rewrite !N_ascii_embedding in H by lia. lia.
Qed.

Lemma digit_mod_inj (a b : Z) :
  PyStr.digit (a mod 10) = PyStr.digit (b mod 10) -> a mod 10 = b mod 10.
Proof.
  intros H. pose proof (Z.mod_pos_bound a 10 ltac:(lia)).
  pose proof (Z.mod_pos_bound b 10 ltac:(lia)).
  apply digit_inj; [lia | lia | assumption].
Qed.

Lemma fmt2_inj (a b : Z) :
  0 <= a <= 99 -> 0 <= b <= 99 -> PyStr.fmt2 a = PyStr.fmt2 b -> a = b.
Proof.
  intros Ha Hb H. unfold PyStr.fmt2 in H. injection H as H1 H0.
  apply digit_mod_inj in H0, H1.
  revert H0 H1. Z.to_euclidean_division_equations. lia.
Qed.

Lemma fmt4_inj (a b : Z) :
  0 <= a <= 9999 -> 0 <= b <= 9999 -> PyStr.fmt4 a = PyStr.fmt4 b -> a = b.
Proof.
  intros Ha Hb H. unfold PyStr.fmt4 in H. injection H as H3 H2 H1 H0.
  apply digit_mod_inj in H0, H1, H2, H3.
  revert H0 H1 H2 H3. Z.to_euclidean_division_equations. lia.
Qed.

(** Two dates with the same ISO text are the same date. *)
Lemma isoformat_inj (d1 d2 : Calendar.date) :
  Calendar.valid d1 = true -> Calendar.valid d2 = true ->
  Calendar.isoformat d1 = Calendar.isoformat d2 -> d1 = d2.
Proof.
  rewrite !valid_iff. intros (Hy1 & Hm1 & Hd1) (Hy2 & Hm2 & Hd2) H.
  pose proof (days_in_month_bounds (Calendar.year d1) _ Hm1).
  pose proof (days_in_month_bounds (Calendar.year d2) _ Hm2).
  destruct d1 as [y1 m1 a1], d2 as [y2 m2 a2]; simpl in *.
  unfold Calendar.isoformat in H; simpl in H.
  injection H as Y3 Y2 Y1 Y0 M1 M0 D1 D0.
  assert (y1 = y2) by (apply fmt4_inj; [lia | lia | unfold PyStr.fmt4; congruence]).
  assert (m1 = m2) by (apply fmt2_inj; [lia | lia | unfold PyStr.fmt2; congruence]).
  assert (a1 = a2) by (apply fmt2_inj; [lia | lia | unfold PyStr.fmt2; congruence]).
  congruence.
Qed.

(** An earlier day never has today's ISO text. *)
Lemma isoformat_minus_days_neq (today d : Calendar.date) (i : nat) :
  Calendar.valid today = true -> Calendar.minus_days today (S i) = Ok d ->
  Calendar.isoformat d <> Calendar.isoformat today.
Proof.
  intros Hv H E. destruct (minus_days_valid today d (S i) Hv H) as [Hv' Hr].
  apply isoformat_inj in E; [|assumption ..]. subst d. lia.
Qed.

(** ** Appending entries *)

Lemma dict_get_set_eq {V : Type} (d : list (string * V)) (k : string) (v : V) :
  Dict.get (Dict.set d k v) k = Some v.
Proof.
  induction d as [|[k' v'] d IH]; simpl.
  - rewrite String.eqb_refl; reflexivity.
  - destruct (String.eqb k' k) eqn:E; simpl; rewrite E; [reflexivity | assumption].
Qed.

Lemma dict_get_set_ne {V : Type} (d : list (string * V)) (k k' : string) (v : V) :
  k <> k' -> Dict.get (Dict.set d k v) k' = Dict.get d k'.
Proof.
  intros Hne. induction d as [|[k0 v0] d IH]; simpl.
  - destruct (String.eqb_spec k k'); [contradiction | reflexivity].
  - destruct (String.eqb_spec k0 k) as [->|]; simpl.
    + destruct (String.eqb_spec k k'); [contradiction | reflexivity].
    + destruct (String.eqb k0 k'); [reflexivity | assumption].
Qed.

Lemma entries_of_ensure (data : DailyLog) (k k' : string) :
  entries_of (if Dict.contains data k then data else Dict.set data k []) k'
  = entries_of data k'.
Proof.
  unfold Dict.contains, entries_of.
  destruct (Dict.get data k) eqn:E; [reflexivity|].
  destruct (String.eqb_spec k k') as [<-|Hne].
  - rewrite dict_get_set_eq, E; reflexivity.
  - rewrite dict_get_set_ne by assumption; reflexivity.
Qed.

Lemma entries_of_append_eq (data : DailyLog) (k : string) (e : entry) :
  entries_of (WaterTracker.append_entry data k e) k = (entries_of data k ++ [e])%list.
Proof.
  unfold WaterTracker.append_entry; cbv zeta.
  unfold entries_of at 1. rewrite dict_get_set_eq, entries_of_ensure; reflexivity.
Qed.

Lemma entries_of_append_ne (data : DailyLog) (k k' : string) (e : entry) :
  k <> k' -> entries_of (WaterTracker.append_entry data k e) k' = entries_of data k'.
Proof.
  intros Hne. unfold WaterTracker.append_entry; cbv zeta.
  unfold entries_of at 1. rewrite dict_get_set_ne by assumption.
  apply entries_of_ensure.
Qed.

Lemma daily_total_append_eq (data : DailyLog) (k : string) (e : entry) :
  daily_total (WaterTracker.append_entry data k e) k
  = daily_total data k + amount_ml e.
Proof.
  unfold daily_total. rewrite entries_of_append_eq, sum_amounts_app.
  rewrite sum_amounts_cons, sum_amounts_nil; lia.
Qed.

Lemma daily_total_append_ne (data : DailyLog) (k k' : string) (e : entry) :
  k <> k' -> daily_total (WaterTracker.append_entry data k e) k' = daily_total data k'.
Proof. intros Hne. unfold daily_total. rewrite entries_of_append_ne; auto. Qed.

Lemma load_save (data : DailyLog) (st : store) :
  WaterTracker.load_water_log (WaterTracker.save_water_log data st) = Ok data.
Proof. reflexivity. Qed.

(** Logging on one day leaves the totals of the other days as they were. *)
Lemma log_all_other_days (intakes : list (Z * string)) (today : string)
  (st st' : store) (data : DailyLog) :
  WaterTracker.load_water_log st = Ok data ->
  log_all intakes today st = Ok st' ->
  exists data',
    WaterTracker.load_water_log st' = Ok data'
    /\ forall k, k <> today -> daily_total data' k = daily_total data k.
Proof.
  revert st data; induction intakes as [|[amount now] rest IH]; intros st data Hload H.
  - injection H as <-. eauto.
  - simpl in H. apply bind_Ok in H as (st1 & H1 & H2).
    unfold WaterTracker.log_water_intake in H1. rewrite Hload in H1; simpl in H1.
    injection H1 as <-.
    destruct (IH _ _ (load_save _ st) H2) as (data' & Hl & Hk).
    exists data'; split; [assumption|]. intros k Hne.
    rewrite (Hk k Hne). apply daily_total_append_ne; congruence.
Qed.

(** ** The current streak *)

Lemma minus_days_shift (d y : Calendar.date) (i : nat) :
  Calendar.prev_day d = Ok y ->
  Calendar.minus_days d (S i) = Calendar.minus_days y i.
Proof.
  intros Hp. induction i as [|i IH].
  - simpl. exact Hp.
  - rewrite minus_days_S, IH. reflexivity.
Qed.

Lemma streak_loop_shift (data : DailyLog) (goal : Z) (today y : Calendar.date)
  (a n s : nat) :
  Calendar.prev_day today = Ok y ->
  WaterTracker.streak_loop data goal today (seq (S a) n) s
  = WaterTracker.streak_loop data goal y (seq a n) s.
Proof.
  intros Hp. revert a s; induction n as [|n IH]; intros a s; [reflexivity|].
  cbn [seq WaterTracker.streak_loop]. rewrite (minus_days_shift _ _ _ Hp).
  destruct (Calendar.minus_days y a); simpl; [|reflexivity].
  destruct (_ >=? _); [apply IH | reflexivity].
Qed.

(** The loop only looks at the totals of the days it visits. *)
Lemma streak_loop_ext (data data' : DailyLog) (goal : Z) (today : Calendar.date)
  (idxs : list nat) (s : nat) :
  (forall i d, In i idxs -> Calendar.minus_days today i = Ok d ->
     daily_total data' (Calendar.isoformat d) = daily_total data (Calendar.isoformat d)) ->
  WaterTracker.streak_loop data' goal today idxs s
  = WaterTracker.streak_loop data goal today idxs s.
Proof.
  revert s; induction idxs as [|i idxs IH]; intros s H; [reflexivity|].
  cbn [WaterTracker.streak_loop].
  destruct (Calendar.minus_days today i) as [d|] eqn:Hd; simpl; [|reflexivity].
  rewrite (H i d (or_introl eq_refl) Hd).
  destruct (_ >=? _); [apply IH; intros; eapply H; simpl; eauto | reflexivity].
Qed.

(** The loop from index [a] over [n] days, started with count [s]: the
    result counts the days from [a] on that meet the goal, up to the first
    one that does not, and up to [n] of them. *)
Lemma streak_loop_spec (data : DailyLog) (goal : Z) (today : Calendar.date)
  (n a s : nat) :
  (forall i, (i < a + n)%nat -> exists d, Calendar.minus_days today i = Ok d) ->
  exists k,
    WaterTracker.streak_loop data goal today (seq a n) s = Ok (s + k)%nat
    /\ (k <= n)%nat
    /\ (forall i, (i < k)%nat -> exists d,
          Calendar.minus_days today (a + i) = Ok d
          /\ goal <= daily_total data (Calendar.isoformat d))
    /\ ((k < n)%nat -> exists d,
          Calendar.minus_days today (a + k) = Ok d
          /\ daily_total data (Calendar.isoformat d) < goal).
Proof.
  revert a s; induction n as [|n IH]; intros a s Hdef.
  - exists O; simpl. repeat split; [f_equal; lia | lia | intros; lia | intros; lia].
  - cbn [seq WaterTracker.streak_loop].
    destruct (Hdef a) as [d Hd]; [lia|]. rewrite Hd; simpl.
    destruct (Z.geb_spec (daily_total data (Calendar.isoformat d)) goal) as [Hge|Hlt].
    + destruct (IH (S a) (S s)) as (k & Hk & Hle & Hmeet & Hstop).
      { intros i Hi; apply Hdef; lia. }
      exists (S k). repeat split.
      * rewrite Hk; f_equal; lia.
      * lia.
      * intros [|i] Hi.
        -- exists d; rewrite Nat.add_0_r; split; [assumption | lia].
        -- destruct (Hmeet i) as (d' & Hd' & Ht); [lia|].
           exists d'; split; [|assumption].
           replace (a + S i)%nat with (S a + i)%nat by lia; assumption.
      * intros Hlt. destruct Hstop as (d' & Hd' & Ht); [lia|].
        exists d'; split; [|assumption].
        replace (a + S k)%nat with (S a + k)%nat by lia; assumption.
    + exists O. repeat split.
      * f_equal; lia.
      * lia.
      * intros; lia.
      * intros _. exists d; rewrite Nat.add_0_r; split; [assumption | lia].
Qed.

(** Dropping the last day of the window caps the count. *)
Lemma streak_loop_truncate (data : DailyLog) (goal : Z) (today : Calendar.date)
  (n a s k : nat) :
  WaterTracker.streak_loop data goal today (seq a (S n)) s = Ok k ->
  (s <= k)%nat
  /\ WaterTracker.streak_loop data goal today (seq a n) s = Ok (Nat.min k (s + n)).
Proof.
  revert a s; induction n as [|n IH]; intros a s H.
  - cbn [seq WaterTracker.streak_loop] in *.
    destruct (Calendar.minus_days today a) as [d|]; simpl in H; [|discriminate].
    destruct (_ >=? _); injection H as <-; split; try lia; f_equal; lia.
  - cbn [seq WaterTracker.streak_loop] in H.
    cbn [seq WaterTracker.streak_loop].
    destruct (Calendar.minus_days today a) as [d|]; simpl in *; [|discriminate].
    destruct (_ >=? _).
    + destruct (IH (S a) (S s) H) as [Hle Hk]. split; [lia|].
      rewrite Hk; f_equal; lia.
    + injection H as <-. split; [lia | f_equal; lia].
Qed.

Lemma streak_loop_acc (data : DailyLog) (goal : Z) (today : Calendar.date)
  (idxs : list nat) (s k : nat) :
  WaterTracker.streak_loop data goal today idxs s = Ok k ->
  WaterTracker.streak_loop data goal today idxs (S s) = Ok (S k).
Proof.
  revert s; induction idxs as [|i idxs IH]; intros s H.
  - injection H as <-; reflexivity.
  - cbn [WaterTracker.streak_loop] in *.
    destruct (Calendar.minus_days today i) as [d|]; simpl in *; [|discriminate].
    destruct (_ >=? _); [apply IH; assumption | injection H as <-; reflexivity].
Qed.

(** C3, as the code has it.  [get_streak_count] walks back from today one
    calendar day at a time over at most 365 days and counts the days whose
    total reaches the goal, up to the first day that does not; for a
    positive goal a day without entries is such a day.  So it is 0
    when today's total is below the goal; and when the streak that ended
    yesterday was [k] (as [get_streak_count] gave it yesterday) and intakes
    logged today bring today's total to the goal, the streak becomes
    [k + 1], capped by the 365-day window. *)
Theorem get_streak_count_spec (goal : Z) (today oldest : Calendar.date)
  (st : store) (data : DailyLog) :
  WaterTracker.load_water_log st = Ok data ->
  Calendar.valid today = true ->
  Calendar.minus_days today 364 = Ok oldest ->
  (exists k,
     WaterTracker.get_streak_count goal today st = Ok k
     /\ (k <= 365)%nat
     /\ (forall i, (i < k)%nat -> exists d,
           Calendar.minus_days today i = Ok d
           /\ goal <= daily_total data (Calendar.isoformat d))
     /\ ((k < 365)%nat -> exists d,
           Calendar.minus_days today k = Ok d
           /\ daily_total data (Calendar.isoformat d) < goal)
     /\ (0 < goal -> forall i d,
           Calendar.minus_days today i = Ok d ->
           Dict.get data (Calendar.isoformat d) = None -> (k <= i)%nat))
  /\ (daily_total data (Calendar.isoformat today) < goal ->
      WaterTracker.get_streak_count goal today st = Ok O)
  /\ (forall yesterday k intakes st' data',
        Calendar.prev_day today = Ok yesterday ->
        WaterTracker.get_streak_count goal yesterday st = Ok k ->
        log_all intakes (Calendar.isoformat today) st = Ok st' ->
        WaterTracker.load_water_log st' = Ok data' ->
        goal <= daily_total data' (Calendar.isoformat today) ->
        WaterTracker.get_streak_count goal today st' = Ok (Nat.min (k + 1) 365)).
Proof.
  intros Hload Hvalid Hold.
  assert (Hdef : forall i, (i < 0 + 365)%nat ->
                 exists d, Calendar.minus_days today i = Ok d)
    by (intros i Hi; apply (minus_days_defined_le _ _ _ _ Hold); lia).
  split; [|split].
  - unfold WaterTracker.get_streak_count. rewrite Hload; cbn [bind].
    destruct (streak_loop_spec data goal today 365 0 0 Hdef)
      as (k & Hk & Hle & Hmeet & Hstop).
    exists k. repeat split; try assumption.
    intros Hpos i d Hd Hnone.
    destruct (Nat.le_gt_cases k i) as [|Hik]; [assumption|].
    destruct (Hmeet i Hik) as (d' & Hd' & Hge). simpl in Hd'.
    rewrite Hd in Hd'; injection Hd' as <-.
    unfold daily_total, entries_of in Hge. rewrite Hnone in Hge.
    change (sum_amounts []) with 0 in Hge. lia.
  - intros Hlt. unfold WaterTracker.get_streak_count. rewrite Hload; cbn [bind].
    change (seq 0 365) with (O :: seq 1 364). cbn [WaterTracker.streak_loop].
    cbn [Calendar.minus_days bind].
    destruct (Z.geb_spec (daily_total data (Calendar.isoformat today)) goal);
      [lia | reflexivity].
  - intros yesterday k intakes st' data' Hprev Hk Hlog Hload' Hmet.
    unfold WaterTracker.get_streak_count in *.
    rewrite Hload in Hk; rewrite Hload'; cbn [bind] in Hk |- *.
    change (seq 0 365) with (O :: seq 1 364). cbn [WaterTracker.streak_loop].
    cbn [Calendar.minus_days bind].
    destruct (Z.geb_spec (daily_total data' (Calendar.isoformat today)) goal);
      [|lia].
    rewrite (streak_loop_shift _ _ _ _ _ _ _ Hprev).
    destruct (log_all_other_days _ _ _ _ _ Hload Hlog) as (data'' & Hl'' & Hother).
    rewrite Hload' in Hl''; injection Hl'' as <-.
    rewrite (streak_loop_ext data data').
    + change 365%nat with (S 364) in Hk.
      destruct (streak_loop_truncate _ _ _ _ _ _ _ Hk) as [_ Ht].
      rewrite (streak_loop_acc _ _ _ _ _ _ Ht). f_equal; lia.
    + intros i d _ Hd. apply Hother.
      rewrite <- (minus_days_shift _ _ _ Hprev) in Hd.
      exact (isoformat_minus_days_neq _ _ _ Hvalid Hd).
Qed.

Lemma get_streak_count_witness :
  (exists k,
     WaterTracker.get_streak_count 1000 (Calendar.mkDate 2024 1 2)
       (Samples.store_of Samples.two_days) = Ok k
     /\ (k <= 365)%nat)
  /\ WaterTracker.get_streak_count 2000 (Calendar.mkDate 2024 1 1)
       (Samples.store_of Samples.two_days) = Ok 1%nat
  /\ exists st',
       log_all [(800, "2024-01-02T19:00:00")] "2024-01-02"
         (Samples.store_of Samples.two_days) = Ok st'
       /\ WaterTracker.get_streak_count 2000 (Calendar.mkDate 2024 1 2) st'
          = Ok 2%nat.
Proof.
  split; [|split].
  - destruct (proj1 (get_streak_count_spec 1000 (Calendar.mkDate 2024 1 2)
                       (Calendar.mkDate 2023 1 3)
                       (Samples.store_of Samples.two_days) Samples.two_days
                       eq_refl eq_refl eq_refl))
      as (k & Hk & Hle & _).
    exists k; split; assumption.
  - vm_compute; reflexivity.
  - eexists. split; [vm_compute; reflexivity|].
    eapply (proj2 (proj2 (get_streak_count_spec 2000 (Calendar.mkDate 2024 1 2)
                            (Calendar.mkDate 2023 1 3)
                            (Samples.store_of Samples.two_days) Samples.two_days
                            eq_refl eq_refl eq_refl))
              (Calendar.mkDate 2024 1 1) 1%nat
              [(800, "2024-01-02T19:00:00")]).
    + reflexivity.
    + vm_compute; reflexivity.
    + vm_compute; reflexivity.
    + reflexivity.
    + vm_compute; discriminate.
Defined.

(** C3 as stated does not hold at the end of the window: after 365 days in
    a row at the goal, yesterday's streak is 365, and meeting the goal today
    leaves the streak at 365, not 366.  Nor does a day without entries end
    the streak when the goal is 0: on the empty log the streak is 365. *)
Lemma get_streak_count_capped :
  let today := Calendar.mkDate 2024 12 31 in
  let yesterday := Calendar.mkDate 2024 12 30 in
  let st := Samples.store_of (Samples.daily_log yesterday 366 2000) in
  Calendar.prev_day today = Ok yesterday
  /\ WaterTracker.get_streak_count 2000 yesterday st = Ok 365%nat
  /\ (exists st',
        log_all [(2000, "2024-12-31T09:00:00")] (Calendar.isoformat today) st = Ok st'
        /\ WaterTracker.get_today_total (Calendar.isoformat today) st' = Ok 2000
        /\ WaterTracker.get_streak_count 2000 today st' = Ok 365%nat
        /\ WaterTracker.get_streak_count 2000 today st' <> Ok (365 + 1)%nat)
  /\ WaterTracker.get_streak_count 0 today (Samples.store_of []) = Ok 365%nat.
Proof.
  cbv zeta. split; [reflexivity|]. split; [vm_compute; reflexivity|].
  split; [|vm_compute; reflexivity].
  eexists. split; [vm_compute; reflexivity|].
  split; [vm_compute; reflexivity|].
  split; [vm_compute; reflexivity|].
  vm_compute; discriminate.
Qed.

(** ** The longest streak *)

Lemma get_longest_streak_empty (goal : Z) (st : store) :
  WaterTracker.load_water_log st = Ok [] ->
  WaterTracker.get_longest_streak goal st = Ok (WaterTracker.mkStreak 0 None None).
Proof. intros H; unfold WaterTracker.get_longest_streak; rewrite H; reflexivity. Qed.

(** C2, at a log with a gap.  The two logged dates are four days apart and
    both reach the goal; the scan steps from one key to the next and counts
    them as one streak of length 2 that runs across the gap. *)
Theorem get_longest_streak_across_gap :
  WaterTracker.get_longest_streak 2000 (Samples.store_of Samples.gap_log)
  = Ok (WaterTracker.mkStreak 2 (Some "2024-01-01") (Some "2024-01-05")).
Proof. reflexivity. Qed.

(** *** The scan over the sorted keys *)

Lemma app_snoc_cases {A : Type} (p q r : list A) (x : A) :
  (p ++ [x] = q ++ r)%list ->
  (r = [] /\ q = (p ++ [x])%list) \/ (exists r0, r = (r0 ++ [x])%list /\ p = (q ++ r0)%list).
Proof.
  intros H. induction r as [|y r0 _] using rev_ind.
  - left. rewrite app_nil_r in H. auto.
  - right. rewrite app_assoc in H. apply app_inj_tail in H as [H1 H2]. subst y.
    exists r0; auto.
Qed.

Ltac scan_inv_goals :=
  unfold scan_inv;
  cbn [WaterTracker.max_streak WaterTracker.current_streak WaterTracker.streak_start
       WaterTracker.max_streak_start WaterTracker.max_streak_end];
  split; [|split; [|split; [|split; [|split]]]].

Lemma scan_inv_init (data : DailyLog) (goal : Z) :
  scan_inv data goal [] (WaterTracker.mkScan 0 0 None None None).
Proof.
  scan_inv_goals.
  - exists [], []. split; [reflexivity|]. split; [constructor|].
    split; [reflexivity | congruence].
  - intros q r H _. symmetry in H. apply app_eq_nil in H as [_ ->]. reflexivity.
  - intros pre run post H _. symmetry in H.
    apply app_eq_nil in H as [_ H]. apply app_eq_nil in H as [-> _]. reflexivity.
  - auto.
  - lia.
  - lia.
Qed.

Section ScanStep.

Variables (data : DailyLog) (goal : Z).

Lemma scan_runs_snoc (p : list string) (x : string) (m c : nat) :
  (forall pre run post, p = (pre ++ run ++ post)%list -> Forall (meets_goal data goal) run ->
                        (List.length run <= m)%nat) ->
  (forall q r, (p ++ [x] = q ++ r)%list -> Forall (meets_goal data goal) r -> (List.length r <= c)%nat) ->
  (c <= m)%nat ->
  forall pre run post, (p ++ [x] = pre ++ run ++ post)%list -> Forall (meets_goal data goal) run ->
                       (List.length run <= m)%nat.
Proof.
  intros Hmax Hsuf Hcm pre run post E Hrun.
  rewrite app_assoc in E. apply app_snoc_cases in E as [[-> E] | (post0 & -> & E)].
  - specialize (Hsuf pre run (eq_sym E) Hrun). lia.
  - rewrite <- app_assoc in E. exact (Hmax _ _ _ E Hrun).
Qed.

Lemma scan_best_snoc (p : list string) (x : string) (m : nat)
  (start fin : option string) :
  (exists pre run post,
     p = (pre ++ run ++ post)%list /\ Forall (meets_goal data goal) run /\ List.length run = m
     /\ start = hd_error run /\ fin = Some (last run EmptyString)) ->
  exists pre run post,
    (p ++ [x] = pre ++ run ++ post)%list /\ Forall (meets_goal data goal) run /\ List.length run = m
    /\ start = hd_error run /\ fin = Some (last run EmptyString).
Proof.
  intros (pre & run & post & E & Hrun & Hl & Hs & He).
  exists pre, run, (post ++ [x])%list. rewrite E, <- !app_assoc. auto.
Qed.

Lemma scan_inv_step (p : list string) (s : WaterTracker.scan_state) (x : string) :
  scan_inv data goal p s ->
  scan_inv data goal (p ++ [x]) (WaterTracker.scan_step data goal s x).
Proof.
  intros (Hcur & Hsuf & Hmax & Hzero & Hpos & Hle).
  destruct Hcur as (q & r & Hp & Hall & Hlen & Hstart).
  unfold WaterTracker.scan_step.
  destruct (Z.geb_spec (daily_total data x) goal) as [Hge | Hlt].
  - (* the day meets the goal *)
    assert (Hsuf' : forall q0 r0, (p ++ [x] = q0 ++ r0)%list -> Forall (meets_goal data goal) r0 ->
                      (List.length r0 <= S (WaterTracker.current_streak s))%nat).
    { intros q0 r0 E Hr0. apply app_snoc_cases in E as [[-> _] | (r1 & -> & E)].
      - simpl; lia.
      - apply Forall_app in Hr0 as [Hr1 _]. specialize (Hsuf _ _ E Hr1).
        rewrite length_app; simpl; lia. }
    assert (Hall' : Forall (meets_goal data goal) (r ++ [x]))
      by (apply Forall_app; split; [assumption | repeat constructor; unfold meets_goal; lia]).
    assert (Hhd : (if Nat.eqb (WaterTracker.current_streak s) 0 then Some x
                   else WaterTracker.streak_start s) = hd_error (r ++ [x])).
    { destruct r as [|a r]; simpl in Hlen.
      - rewrite <- Hlen; reflexivity.
      - rewrite <- Hlen; simpl. apply Hstart; discriminate. }
    assert (Hcur' : exists q0 r0, (p ++ [x] = q0 ++ r0)%list /\ Forall (meets_goal data goal) r0
               /\ List.length r0 = S (WaterTracker.current_streak s)
               /\ (r0 <> [] ->
                   (if Nat.eqb (WaterTracker.current_streak s) 0 then Some x
                    else WaterTracker.streak_start s) = hd_error r0)).
    { exists q, (r ++ [x])%list. rewrite app_assoc, <- Hp.
      split; [reflexivity|]. split; [assumption|].
      split; [rewrite length_app; simpl; lia | intros _; exact Hhd]. }
    destruct (Nat.ltb_spec (WaterTracker.max_streak s) (S (WaterTracker.current_streak s)))
      as [Hnew | Hold]; scan_inv_goals.
    + exact Hcur'.
    + exact Hsuf'.
    + apply (scan_runs_snoc p x _ (S (WaterTracker.current_streak s)));
        [intros pre run post E Hrun; specialize (Hmax _ _ _ E Hrun); lia
        | exact Hsuf' | lia].
    + discriminate.
    + intros _. exists q, (r ++ [x])%list, []. rewrite app_nil_r, app_assoc, <- Hp.
      split; [reflexivity|]. split; [assumption|].
      split; [rewrite length_app; simpl; lia|].
      split; [exact Hhd | rewrite last_last; reflexivity].
    + lia.
    + exact Hcur'.
    + exact Hsuf'.
    + apply (scan_runs_snoc p x _ (S (WaterTracker.current_streak s)));
        [exact Hmax | exact Hsuf' | lia].
    + exact Hzero.
    + intros H0. apply scan_best_snoc, Hpos, H0.
    + lia.
  - (* the day misses the goal *)
    assert (Hsuf' : forall q0 r0, (p ++ [x] = q0 ++ r0)%list -> Forall (meets_goal data goal) r0 ->
                      (List.length r0 <= 0)%nat).
    { intros q0 r0 E Hr0. apply app_snoc_cases in E as [[-> _] | (r1 & -> & E)].
      - simpl; lia.
      - apply Forall_app in Hr0 as [_ Hx]. inversion Hx; subst. unfold meets_goal in *. lia. }
    scan_inv_goals.
    + exists (p ++ [x])%list, []. rewrite app_nil_r.
      split; [reflexivity|]. split; [constructor|]. split; [reflexivity | congruence].
    + exact Hsuf'.
    + apply (scan_runs_snoc p x _ O); [exact Hmax | exact Hsuf' | lia].
    + exact Hzero.
    + intros H0. apply scan_best_snoc, Hpos, H0.
    + lia.
Qed.

Lemma scan_inv_fold (keys : list string) :
  scan_inv data goal keys
    (fold_left (WaterTracker.scan_step data goal) keys
       (WaterTracker.mkScan 0 0 None None None)).
Proof.
  induction keys as [|x keys IH] using rev_ind.
  - apply scan_inv_init.
  - rewrite fold_left_app. cbn [fold_left]. apply scan_inv_step; assumption.
Qed.

End ScanStep.

(** ** Sorted keys *)

Lemma insert_sorted_hd (k a : string) (l : list string) :
  PyStr.le a k = true -> HdRel (fun x y => PyStr.le x y = true) a l ->
  HdRel (fun x y => PyStr.le x y = true) a (PyStr.insert_sorted k l).
Proof.
  intros Hak Hl. destruct l as [|x l]; simpl; [constructor; assumption|].
  destruct (PyStr.le k x); constructor; [assumption|].
  inversion Hl; assumption.
Qed.

Lemma insert_sorted_sorted (k : string) (l : list string) :
  Sorted (fun x y => PyStr.le x y = true) l ->
  Sorted (fun x y => PyStr.le x y = true) (PyStr.insert_sorted k l).
Proof.
  induction 1 as [|a l Hs IH Hhd]; simpl; [repeat constructor|].
  destruct (PyStr.le k a) eqn:E.
  - constructor; [constructor; assumption | constructor; assumption].
  - constructor; [assumption|]. apply insert_sorted_hd; [|assumption].
    unfold PyStr.le in *. destruct (String.leb_total a k) as [H|H]; congruence.
Qed.

(** [sorted(keys)] lists the keys in ascending order. *)
Lemma sorted_ascending (l : list string) :
  Sorted (fun x y => PyStr.le x y = true) (PyStr.sorted l).
Proof.
  induction l as [|x l IH]; simpl; [constructor | apply insert_sorted_sorted; assumption].
Qed.

(** X2.  What [get_longest_streak] computes: over the keys of the log in
    ascending order, a longest run of keys next to each other whose days
    all reach the goal, with its first and its last key; the dates of two
    neighbouring keys are not compared. *)
Theorem get_longest_streak_runs (goal : Z) (st : store) (data : DailyLog) :
  WaterTracker.load_water_log st = Ok data ->
  exists res,
    WaterTracker.get_longest_streak goal st = Ok res
    /\ Sorted (fun x y => PyStr.le x y = true) (PyStr.sorted (Dict.keys data))
    /\ (forall pre run post,
          PyStr.sorted (Dict.keys data) = (pre ++ run ++ post)%list ->
          Forall (meets_goal data goal) run ->
          (List.length run <= WaterTracker.length res)%nat)
    /\ (WaterTracker.length res = O ->
        WaterTracker.start_date res = None /\ WaterTracker.end_date res = None)
    /\ ((0 < WaterTracker.length res)%nat ->
        exists pre run post,
          PyStr.sorted (Dict.keys data) = (pre ++ run ++ post)%list
          /\ Forall (meets_goal data goal) run
          /\ List.length run = WaterTracker.length res
          /\ WaterTracker.start_date res = hd_error run
          /\ WaterTracker.end_date res = Some (last run EmptyString)).
Proof.
  intros Hload.
  destruct (scan_inv_fold data goal (PyStr.sorted (Dict.keys data)))
    as (_ & _ & Hmax & Hzero & Hpos & _).
  unfold WaterTracker.get_longest_streak. rewrite Hload; cbn [bind].
  destruct data as [|item data'] eqn:Hdata.
  - eexists; split; [reflexivity|]. split; [constructor|].
    split; [exact Hmax|]. split; [exact Hzero | exact Hpos].
  - rewrite <- Hdata in *. eexists; split; [reflexivity|].
    split; [apply sorted_ascending|].
    split; [exact Hmax|]. split; [exact Hzero | exact Hpos].
Qed.

Lemma get_longest_streak_runs_witness :
  exists res,
    WaterTracker.get_longest_streak 2000 (Samples.store_of Samples.gap_log) = Ok res
    /\ (List.length ["2024-01-01"; "2024-01-05"] <= WaterTracker.length res)%nat.
Proof.
  destruct (get_longest_streak_runs 2000 (Samples.store_of Samples.gap_log)
              Samples.gap_log eq_refl) as (res & H1 & _ & H2 & _).
  exists res; split; [assumption|].
  apply (H2 [] ["2024-01-01"; "2024-01-05"] []); [reflexivity|].
  repeat constructor; unfold meets_goal; vm_compute; discriminate.
Defined.

(** ** Import failures *)





(** ** Export followed by import *)

(** C1, at a note that holds a carriage return.  The export writes the
    file with [newline=''], so the note goes out as it is, inside quotes;
    the import opens the file without [newline=''], the text layer turns
    the carriage return into a line feed, and the note that comes back is
    another string.  The entry count and the total of the day are kept. *)
Theorem export_import_cr_note :
  exists st1 st2,
    WaterTracker.export_data_to_csv "water_intake_export.csv"
      (Samples.store_of Samples.cr_note_log) = (true, st1)
    /\ WaterTracker.import_data_from_csv WaterTracker.int_text_float "water_intake_export.csv"
         (mkStore None (csv_files st1)) = (true, st2)
    /\ WaterTracker.load_water_log st2
       = Ok [ ("2024-01-01",
               [mkEntry 500 (Some "2024-01-01T08:00:00") (Some Samples.lf_note)]) ]
    /\ Samples.lf_note <> Samples.cr_note.
Proof.
  do 2 eexists. split; [vm_compute; reflexivity|].
  split; [vm_compute; reflexivity|].
  split; [vm_compute; reflexivity|]. discriminate.
Qed.

(** ** The CSV reader, character by character *)

Lemma string_app_assoc (a b c : string) : ((a ++ b) ++ c)%string = (a ++ (b ++ c))%string.
Proof. induction a as [|x a IH]; simpl; [reflexivity | rewrite IH; reflexivity]. Qed.

Lemma string_app_nil_r (a : string) : (a ++ EmptyString)%string = a.
Proof. induction a as [|x a IH]; simpl; [reflexivity | rewrite IH; reflexivity]. Qed.

Lemma bind_assoc {A B C : Type} (r : result A) (f : A -> result B) (g : B -> result C) :
  bind (bind r f) g = bind r (fun a => bind (f a) g).
Proof. destruct r; reflexivity. Qed.

Lemma bind_ext {A B : Type} (r : result A) (f g : A -> result B) :
  (forall a, f a = g a) -> bind r f = bind r g.
Proof. intros H; destruct r; simpl; auto. Qed.

Lemma csv_feed_app (r : Csv.reader) (a b : string) :
  csv_feed r (a ++ b) = bind (csv_feed r a) (fun r' => csv_feed r' b).
Proof.
  revert r; induction a as [|c a IH]; intros r; simpl; [reflexivity|].
  destruct (Csv.parse_process_char r c); simpl; [apply IH | reflexivity].
Qed.

Lemma process_line_feed (r : Csv.reader) (line : string) :
  Csv.process_line r line
  = bind (csv_feed r line) (fun r' => Ok (Csv.parse_process_eol r')).
Proof.
  revert r; induction line as [|c line IH]; intros r; simpl; [reflexivity|].
  destruct (Csv.parse_process_char r c); simpl; [apply IH | reflexivity].
Qed.

Lemma read_records_cons (r : Csv.reader) (line : string) (rest : list string) :
  Csv.read_records r (line :: rest)
  = bind (Csv.process_line r line)
         (fun r' => csv_emit r' (fun r'' => Csv.read_records r'' rest)).
Proof.
  simpl. apply bind_ext. intros r'. unfold csv_emit.
  destruct (Csv.state r'); reflexivity.
Qed.

Lemma csv_emit_ext (r : Csv.reader) (f g : Csv.reader -> result (list (list string))) :
  (forall r', f r' = g r') -> csv_emit r f = csv_emit r g.
Proof.
  intros H. unfold csv_emit. destruct (Csv.state r); rewrite ?H; reflexivity.
Qed.

Lemma nonempty_snoc (s : string) (c : ascii) : nonempty (s ++ String c EmptyString) = true.
Proof. destruct s; reflexivity. Qed.

(** Reading line by line is the single pass. *)
Lemma read_records_stream (s cur : string) (r : Csv.reader) :
  Csv.read_records r (Csv.lines_from cur s)
  = bind (csv_feed r cur) (fun r1 => csv_stream r1 (nonempty cur) s).
Proof.
  revert cur r; induction s as [|c s IH]; intros cur r.
  - cbn [Csv.lines_from csv_stream]. destruct cur as [|x cur].
    + reflexivity.
    + rewrite read_records_cons, process_line_feed, bind_assoc.
      apply bind_ext; intros r1. cbn [bind nonempty]. reflexivity.
  - cbn [Csv.lines_from csv_stream].
    destruct (Ascii.eqb c Csv.LF) eqn:E.
    + apply Ascii.eqb_eq in E; subst c.
      rewrite read_records_cons, process_line_feed, csv_feed_app, !bind_assoc.
      apply bind_ext; intros r1. cbn [csv_feed bind].
      rewrite bind_assoc.
      destruct (Csv.parse_process_char r1 Csv.LF) as [r2|]; [|reflexivity].
      cbn [bind]. apply csv_emit_ext. intros r'. rewrite IH. reflexivity.
    + rewrite IH, csv_feed_app, bind_assoc, nonempty_snoc.
      apply bind_ext; intros r1. cbn [csv_feed bind].
      destruct (Csv.parse_process_char r1 c); reflexivity.
Qed.

Lemma reader_rows_stream (text : string) :
  Csv.reader_rows text = csv_stream Csv.parse_reset false text.
Proof. unfold Csv.reader_rows, Csv.readlines. rewrite read_records_stream. reflexivity. Qed.

(** ** Reading back what the writer wrote *)

Lemma needs_quote_cons (c : ascii) (s : string) :
  Csv.needs_quote (String c s) = false ->
  Ascii.eqb c Csv.comma = false /\ Ascii.eqb c Csv.dquote = false
  /\ Csv.is_newline c = false /\ Csv.needs_quote s = false.
Proof.
  simpl. rewrite !orb_false_iff. tauto.
Qed.

Lemma is_newline_LF : Csv.is_newline Csv.LF = true.
Proof. reflexivity. Qed.

Lemma not_newline_not_LF (c : ascii) : Csv.is_newline c = false -> Ascii.eqb c Csv.LF = false.
Proof. unfold Csv.is_newline. rewrite orb_false_iff. tauto. Qed.

(** An unquoted field, from inside the field, up to the comma or the line
    feed that ends it. *)
Lemma stream_in_field (f rest : string) (fs : list string) (b : string) (p : bool) :
  Csv.needs_quote f = false ->
  csv_stream (Csv.mkReader Csv.IN_FIELD fs b) p (f ++ String Csv.comma rest)
  = csv_stream (Csv.mkReader Csv.START_FIELD (fs ++ [(b ++ f)%string]) EmptyString) true rest
  /\ csv_stream (Csv.mkReader Csv.IN_FIELD fs b) p (f ++ String Csv.LF rest)
     = bind (csv_stream Csv.parse_reset false rest)
            (fun rows => Ok ((fs ++ [(b ++ f)%string])%list :: rows)).
Proof.
  revert b p; induction f as [|c f IH]; intros b p Hq.
  - rewrite string_app_nil_r. split; reflexivity.
  - apply needs_quote_cons in Hq as (Hc & Hd & Hn & Hq).
    destruct (IH (b ++ String c EmptyString)%string true Hq) as [IH1 IH2].
    rewrite string_app_assoc in IH1, IH2. simpl in IH1, IH2.
    split.
    + cbn [append csv_stream Csv.parse_process_char Csv.state].
      rewrite Hn, Hc, (not_newline_not_LF _ Hn). cbn [bind]. exact IH1.
    + cbn [append csv_stream Csv.parse_process_char Csv.state].
      rewrite Hn, Hc, (not_newline_not_LF _ Hn). cbn [bind]. exact IH2.
Qed.

(** The body of a quoted field, up to the closing quote. *)
Lemma stream_in_quoted (f rest : string) (fs : list string) (b : string) (p : bool) :
  csv_stream (Csv.mkReader Csv.IN_QUOTED_FIELD fs b) p
    (Csv.double_quotes f ++ String Csv.dquote rest)
  = csv_stream (Csv.mkReader Csv.QUOTE_IN_QUOTED_FIELD fs (b ++ f)) true rest.
Proof.
  revert b p; induction f as [|c f IH]; intros b p.
  - rewrite string_app_nil_r. reflexivity.
  - cbn [Csv.double_quotes].
    destruct (Ascii.eqb c Csv.dquote) eqn:Ed.
    + apply Ascii.eqb_eq in Ed; subst c.
      cbn [append csv_stream Csv.parse_process_char Csv.state bind].
      change (Ascii.eqb Csv.dquote Csv.dquote) with true.
      change (Ascii.eqb Csv.dquote Csv.LF) with false.
      cbn [bind Csv.set_state Csv.state Csv.parse_process_char Csv.fields Csv.field].
      change (Ascii.eqb Csv.dquote Csv.dquote) with true.
      cbn [bind]. change (Ascii.eqb Csv.dquote Csv.LF) with false. cbv iota.
      unfold Csv.parse_add_char; cbn [Csv.fields Csv.field].
      rewrite IH, string_app_assoc. reflexivity.
    + cbn [append csv_stream Csv.parse_process_char Csv.state]. rewrite Ed.
      cbn [bind]. unfold Csv.parse_add_char; cbn [Csv.fields Csv.field].
      destruct (Ascii.eqb c Csv.LF).
      * unfold csv_emit; cbn [Csv.parse_process_eol Csv.state].
        rewrite IH, string_app_assoc. reflexivity.
      * rewrite IH, string_app_assoc. reflexivity.
Qed.

Lemma stream_first_char (c : ascii) (tl : string) (s : Csv.parser_state)
  (fs : list string) (p : bool) :
  s = Csv.START_RECORD \/ s = Csv.START_FIELD ->
  Ascii.eqb c Csv.comma = false -> Ascii.eqb c Csv.dquote = false ->
  Csv.is_newline c = false ->
  csv_stream (Csv.mkReader s fs EmptyString) p (String c tl)
  = csv_stream (Csv.mkReader Csv.IN_FIELD fs (String c EmptyString)) true tl.
Proof.
  intros Hs Hc Hd Hn.
  destruct Hs as [-> | ->];
    cbn [csv_stream Csv.parse_process_char Csv.state];
    unfold Csv.start_field_char; rewrite ?Hn, Hd, Hc, (not_newline_not_LF _ Hn);
    reflexivity.
Qed.

Lemma stream_open_quote (tl : string) (s : Csv.parser_state)
  (fs : list string) (p : bool) :
  s = Csv.START_RECORD \/ s = Csv.START_FIELD ->
  csv_stream (Csv.mkReader s fs EmptyString) p (String Csv.dquote tl)
  = csv_stream (Csv.mkReader Csv.IN_QUOTED_FIELD fs EmptyString) true tl.
Proof. intros [-> | ->]; reflexivity. Qed.

(** A written field followed by a comma. *)
Lemma stream_field_comma (f rest : string) (r : Csv.reader) (p : bool) :
  at_field_start r ->
  csv_stream r p (Csv.write_field f ++ String Csv.comma rest)
  = csv_stream (Csv.mkReader Csv.START_FIELD (Csv.fields r ++ [f]) EmptyString) true rest.
Proof.
  intros [Hs Hf]. destruct r as [s fs b]; simpl in Hs, Hf; subst b.
  unfold Csv.write_field. destruct (Csv.needs_quote f) eqn:Hq.
  - cbn [append]. rewrite string_app_assoc. cbn [append].
    rewrite stream_open_quote by assumption.
    rewrite stream_in_quoted. reflexivity.
  - destruct f as [|c f].
    + destruct Hs as [-> | ->]; reflexivity.
    + apply needs_quote_cons in Hq as (Hc & Hd & Hn & Hq).
      cbn [append]. rewrite stream_first_char by assumption.
      rewrite (proj1 (stream_in_field f rest fs _ true Hq)). reflexivity.
Qed.

(** The last written field of a record, followed by the line feed. *)
Lemma stream_field_LF (f rest : string) (fs : list string) (p : bool) :
  csv_stream (Csv.mkReader Csv.START_FIELD fs EmptyString) p
    (Csv.write_field f ++ String Csv.LF rest)
  = bind (csv_stream Csv.parse_reset false rest)
         (fun rows => Ok ((fs ++ [f])%list :: rows)).
Proof.
  unfold Csv.write_field. destruct (Csv.needs_quote f) eqn:Hq.
  - cbn [append]. rewrite string_app_assoc. cbn [append].
    rewrite stream_open_quote by auto.
    rewrite stream_in_quoted. reflexivity.
  - destruct f as [|c f].
    + reflexivity.
    + apply needs_quote_cons in Hq as (Hc & Hd & Hn & Hq).
      cbn [append]. rewrite stream_first_char by auto.
      rewrite (proj2 (stream_in_field f rest fs _ true Hq)). reflexivity.
Qed.

Lemma join_fields_cons2 (f g : string) (more : list string) :
  Csv.join_fields (f :: g :: more)
  = (Csv.write_field f ++ String Csv.comma (Csv.join_fields (g :: more)))%string.
Proof. reflexivity. Qed.

(** The rest of a record, after a comma. *)
Lemma stream_join_fields (fields : list string) (rest : string)
  (fs : list string) (p : bool) :
  fields <> [] ->
  csv_stream (Csv.mkReader Csv.START_FIELD fs EmptyString) p
    (Csv.join_fields fields ++ String Csv.LF rest)
  = bind (csv_stream Csv.parse_reset false rest)
         (fun rows => Ok ((fs ++ fields)%list :: rows)).
Proof.
  revert fs p; induction fields as [|f fields IH]; intros fs p Hne; [congruence|].
  destruct fields as [|g more].
  - apply stream_field_LF.
  - rewrite join_fields_cons2, string_app_assoc. cbn [append].
    rewrite stream_field_comma by (split; [right|]; reflexivity).
    cbn [Csv.fields]. rewrite IH by discriminate.
    rewrite <- app_assoc. reflexivity.
Qed.

(** A whole record of two fields or more. *)
Lemma stream_record (f g : string) (more : list string) (rest : string) :
  csv_stream Csv.parse_reset false
    (Csv.join_fields (f :: g :: more) ++ String Csv.LF rest)
  = bind (csv_stream Csv.parse_reset false rest)
         (fun rows => Ok ((f :: g :: more) :: rows)).
Proof.
  rewrite join_fields_cons2, string_app_assoc. cbn [append].
  rewrite stream_field_comma by (split; [left|]; reflexivity).
  cbn [Csv.fields Csv.parse_reset app].
  rewrite stream_join_fields by discriminate. reflexivity.
Qed.

(** *** Universal newlines on the written text *)

Lemma cr_free_app (a b : string) : cr_free (a ++ b) = cr_free a && cr_free b.
Proof.
  induction a as [|c a IH]; simpl; [reflexivity|].
  rewrite IH, andb_assoc; reflexivity.
Qed.

Lemma cr_free_double_quotes (s : string) : cr_free s = true -> cr_free (Csv.double_quotes s) = true.
Proof.
  induction s as [|c s IH]; simpl; [reflexivity|].
  rewrite andb_true_iff. intros [Hc Hs].
  destruct (Ascii.eqb c Csv.dquote) eqn:E; simpl.
  - auto.
  - rewrite Hc; simpl; auto.
Qed.

Lemma cr_free_write_field (s : string) : cr_free s = true -> cr_free (Csv.write_field s) = true.
Proof.
  intros H. unfold Csv.write_field. destruct (Csv.needs_quote s); [|assumption].
  simpl. rewrite cr_free_app, cr_free_double_quotes by assumption. reflexivity.
Qed.

Lemma cr_free_join_fields (fields : list string) :
  forallb cr_free fields = true -> cr_free (Csv.join_fields fields) = true.
Proof.
  induction fields as [|f fields IH]; [reflexivity|].
  cbn [forallb]. rewrite andb_true_iff. intros [Hf Hfs].
  destruct fields as [|g more].
  - simpl. apply cr_free_write_field; assumption.
  - rewrite join_fields_cons2, cr_free_app, cr_free_write_field by assumption.
    simpl. apply IH; assumption.
Qed.

Lemma universal_newlines_cr_free (a b : string) :
  cr_free a = true ->
  Csv.universal_newlines (a ++ b) = (a ++ Csv.universal_newlines b)%string.
Proof.
  induction a as [|c a IH]; simpl; [reflexivity|].
  rewrite andb_true_iff, negb_true_iff. intros [Hc Ha].
  rewrite Hc, IH by assumption. reflexivity.
Qed.

Lemma writerow_cons2 (f g : string) (more : list string) :
  Csv.writerow (f :: g :: more)
  = (Csv.join_fields (f :: g :: more) ++ Csv.lineterminator)%string.
Proof. destruct f; reflexivity. Qed.

Lemma universal_newlines_writerow (f g : string) (more : list string) (rest : string) :
  forallb cr_free (f :: g :: more) = true ->
  Csv.universal_newlines (Csv.writerow (f :: g :: more) ++ rest)
  = (Csv.join_fields (f :: g :: more) ++ String Csv.LF (Csv.universal_newlines rest))%string.
Proof.
  intros H. rewrite writerow_cons2, string_app_assoc.
  rewrite universal_newlines_cr_free by (apply cr_free_join_fields; assumption).
  reflexivity.
Qed.

(** The reader gives back the rows the writer was given, when they have
    two fields or more and no carriage return. *)
Lemma reader_rows_writerows (rows : list (list string)) :
  forallb (fun row => wide row && forallb cr_free row) rows = true ->
  Csv.reader_rows (Csv.universal_newlines (cat_all (map Csv.writerow rows))) = Ok rows.
Proof.
  rewrite reader_rows_stream.
  induction rows as [|row rows IH]; [reflexivity|].
  cbn [forallb]. rewrite !andb_true_iff. intros [[Hw Hcr] Hrows].
  destruct row as [|f [|g more]]; try discriminate.
  cbn [map cat_all]. rewrite universal_newlines_writerow by assumption.
  rewrite stream_record, IH by assumption. reflexivity.
Qed.

(** ** Sorting the keys *)

Lemma insert_sorted_perm (k : string) (l : list string) :
  Permutation (PyStr.insert_sorted k l) (k :: l).
Proof.
  induction l as [|x l IH]; simpl; [reflexivity|].
  destruct (PyStr.le k x); [reflexivity|].
  rewrite IH. apply perm_swap.
Qed.

Lemma sorted_perm (l : list string) : Permutation (PyStr.sorted l) l.
Proof.
  induction l as [|x l IH]; simpl; [reflexivity|].
  rewrite insert_sorted_perm, IH. reflexivity.
Qed.

Lemma dict_get_in {V : Type} (d : list (string * V)) (k : string) :
  In k (Dict.keys d) -> exists v, Dict.get d k = Some v.
Proof.
  induction d as [|[k' v'] d IH]; simpl; [tauto|].
  intros [->|H].
  - rewrite String.eqb_refl; eauto.
  - destruct (String.eqb k' k); eauto.
Qed.

Lemma dict_get_not_in {V : Type} (d : list (string * V)) (k : string) :
  ~ In k (Dict.keys d) -> Dict.get d k = None.
Proof.
  induction d as [|[k' v'] d IH]; simpl; [reflexivity|].
  intros H. destruct (String.eqb_spec k' k); [tauto | apply IH; tauto].
Qed.

Lemma dict_set_set {V : Type} (d : list (string * V)) (k : string) (v v' : V) :
  Dict.set (Dict.set d k v) k v' = Dict.set d k v'.
Proof.
  induction d as [|[k0 v0] d IH]; simpl.
  - rewrite String.eqb_refl; reflexivity.
  - destruct (String.eqb k0 k) eqn:E; simpl; rewrite E; [reflexivity|].
    rewrite IH; reflexivity.
Qed.

(** ** What the export writes *)

Lemma cat_all_app (l1 l2 : list string) :
  cat_all (l1 ++ l2) = (cat_all l1 ++ cat_all l2)%string.
Proof.
  induction l1 as [|x l1 IH]; simpl; [reflexivity|].
  rewrite IH, string_app_assoc; reflexivity.
Qed.

Lemma write_text_set (path text c : string) (lf : option document)
  (d : list (string * string)) :
  String.eqb path WaterTracker.WATER_LOG_FILE = false ->
  WaterTracker.write_text path text (mkStore lf (Dict.set d path c))
  = (Ok tt, mkStore lf (Dict.set d path (c ++ text))).
Proof.
  intros Hp. unfold WaterTracker.write_text; rewrite Hp; cbn [csv_files log_file].
  rewrite dict_get_set_eq, dict_set_set. reflexivity.
Qed.

Lemma io_for_write (path : string) {A : Type} (row : A -> list string) (l : list A)
  (c : string) (lf : option document) (d : list (string * string)) :
  String.eqb path WaterTracker.WATER_LOG_FILE = false ->
  WaterTracker.io_for l (fun a => WaterTracker.write_text path (Csv.writerow (row a)))
    (mkStore lf (Dict.set d path c))
  = (Ok tt, mkStore lf (Dict.set d path
                          (c ++ cat_all (map (fun a => Csv.writerow (row a)) l)))).
Proof.
  intros Hp. revert c; induction l as [|a l IH]; intros c.
  - simpl. rewrite string_app_nil_r. reflexivity.
  - cbn [WaterTracker.io_for map cat_all]. unfold WaterTracker.io_bind.
    rewrite write_text_set, IH, string_app_assoc by exact Hp. reflexivity.
Qed.

Lemma io_for_dates (path : string) (data : DailyLog) (ks : list string)
  (c : string) (lf : option document) (d : list (string * string)) :
  String.eqb path WaterTracker.WATER_LOG_FILE = false ->
  (forall k, In k ks -> In k (Dict.keys data)) ->
  WaterTracker.io_for ks (fun date_str =>
    WaterTracker.io_bind (WaterTracker.io_lift (WaterTracker.log_getitem data date_str))
      (fun es => WaterTracker.io_for es (fun e =>
         WaterTracker.write_text path
           (Csv.writerow (WaterTracker.entry_row date_str e)))))
    (mkStore lf (Dict.set d path c))
  = (Ok tt,
     mkStore lf (Dict.set d path
       (c ++ cat_all (map (fun p => Csv.writerow (WaterTracker.entry_row (fst p) (snd p)))
                          (flat_map (fun k => map (pair k) (entries_of data k)) ks))))).
Proof.
  intros Hp. revert c; induction ks as [|k ks IH]; intros c Hin.
  - simpl. rewrite string_app_nil_r. reflexivity.
  - cbn [WaterTracker.io_for flat_map]. unfold WaterTracker.io_bind at 1.
    unfold WaterTracker.io_bind at 1, WaterTracker.io_lift, WaterTracker.log_getitem.
    destruct (dict_get_in data k (Hin k (or_introl eq_refl))) as [es Hes].
    assert (Hent : entries_of data k = es) by (unfold entries_of; rewrite Hes; reflexivity).
    rewrite Hes, Hent.
    rewrite (io_for_write path (WaterTracker.entry_row k) es) by exact Hp.
    rewrite IH by (intros; apply Hin; simpl; auto).
    rewrite map_app, cat_all_app, string_app_assoc, map_map. reflexivity.
Qed.

Lemma export_data_to_csv_spec (path : string) (st : store) (data : DailyLog) :
  String.eqb path WaterTracker.WATER_LOG_FILE = false ->
  WaterTracker.load_water_log st = Ok data ->
  WaterTracker.export_data_to_csv path st
  = (true, mkStore (log_file st) (Dict.set (csv_files st) path (export_text data))).
Proof.
  intros Hp Hload.
  unfold WaterTracker.export_data_to_csv, WaterTracker.try_bool, WaterTracker.export_body.
  unfold WaterTracker.io_bind at 1, WaterTracker.io_load. rewrite Hload.
  unfold WaterTracker.io_bind at 1, WaterTracker.open_write. rewrite Hp.
  unfold WaterTracker.io_bind at 1. rewrite write_text_set by exact Hp.
  rewrite io_for_dates.
  - unfold export_text, export_pairs. reflexivity.
  - exact Hp.
  - intros k Hk. apply (Permutation_in _ (sorted_perm _) Hk).
Qed.





(** ** Amounts as text *)

Lemma int_text_float_str (z : Z) :
  WaterTracker.int_text_float (Some (PyStr.str z)) = Ok z.
Proof.
  unfold WaterTracker.int_text_float, PyStr.str.
  rewrite NilZero.isi.
  - rewrite DecimalZ.of_to. reflexivity.
  - destruct z as [|p|p]; simpl; try discriminate.
    intros E; injection E as E. exact (Unsigned.to_uint_nonnil p E).
  - destruct z as [|p|p]; simpl; try discriminate.
    intros E; injection E as E. exact (Unsigned.to_uint_nonnil p E).
Qed.

Lemma cr_free_string_of_uint (d : Decimal.uint) :
  cr_free (NilEmpty.string_of_uint d) = true.
Proof. induction d; simpl; auto. Qed.

Lemma cr_free_str (z : Z) : cr_free (PyStr.str z) = true.
Proof.
  unfold PyStr.str, NilZero.string_of_int, NilZero.string_of_uint.
  destruct (Z.to_int z) as [d|d]; destruct d; simpl;
    try reflexivity; apply cr_free_string_of_uint.
Qed.

(** ** What the import reads *)

Lemma import_row_entry_row (py_float : option string -> result Z)
  (data : DailyLog) (k : string) (e : entry) :
  py_float (Some (PyStr.str (amount_ml e))) = Ok (amount_ml e) ->
  WaterTracker.import_row py_float data
    (Csv.make_row WaterTracker.csv_header (WaterTracker.entry_row k e))
  = Ok (WaterTracker.append_entry data k (reimported e)).
Proof.
  intros Hfloat. unfold WaterTracker.import_row.
  change (Csv.make_row WaterTracker.csv_header (WaterTracker.entry_row k e))
    with [("Date", Some k); ("Timestamp", Some (WaterTracker.cell (timestamp e)));
          ("Amount (ml)", Some (PyStr.str (amount_ml e)));
          ("Note", Some (WaterTracker.cell (note e)))].
  change (Csv.getitem _ "Date") with (@Ok (option string) (Some k)).
  cbn [bind].
  change (Csv.getitem _ "Amount (ml)")
    with (@Ok (option string) (Some (PyStr.str (amount_ml e)))).
  cbn [bind]. rewrite Hfloat. cbn [bind].
  reflexivity.
Qed.

Lemma import_rows_entry_rows (py_float : option string -> result Z)
  (pairs : list (string * entry)) (data : DailyLog) :
  (forall p, In p pairs ->
     py_float (Some (PyStr.str (amount_ml (snd p)))) = Ok (amount_ml (snd p))) ->
  WaterTracker.import_rows py_float data
    (map (fun p => Csv.make_row WaterTracker.csv_header
                     (WaterTracker.entry_row (fst p) (snd p))) pairs)
  = Ok (fold_left (fun d p => WaterTracker.append_entry d (fst p) (reimported (snd p)))
                  pairs data).
Proof.
  intros Hfloat.
  revert data; induction pairs as [|[k e] pairs IH]; intros data; [reflexivity|].
  cbn [map WaterTracker.import_rows fold_left fst snd].
  rewrite import_row_entry_row by (apply (Hfloat (k, e)); left; reflexivity).
  cbn [bind]. apply IH. intros p Hp. apply Hfloat. right. exact Hp.
Qed.

Lemma filter_wide (rows : list (list string)) :
  forallb wide rows = true ->
  filter (fun row : list string => match row with [] => false | _ => true end) rows = rows.
Proof.
  induction rows as [|row rows IH]; [reflexivity|].
  cbn [forallb filter]. rewrite andb_true_iff. intros [Hw Hr].
  destruct row; [discriminate|]. rewrite IH by assumption. reflexivity.
Qed.

Lemma cr_free_entries_of (data : DailyLog) (k : string) (e : entry) :
  log_cr_free data = true -> In e (entries_of data k) -> entry_cr_free e = true.
Proof.
  unfold log_cr_free, entries_of. induction data as [|[k' es] data IH]; simpl; [tauto|].
  rewrite andb_true_iff. intros [Hitem Hdata].
  destruct (String.eqb k' k).
  - apply andb_true_iff in Hitem as [_ Hes]. rewrite forallb_forall in Hes. apply Hes.
  - apply IH; assumption.
Qed.

Lemma cr_free_keys (data : DailyLog) (k : string) :
  log_cr_free data = true -> In k (Dict.keys data) -> cr_free k = true.
Proof.
  unfold log_cr_free. rewrite forallb_forall. intros H Hin.
  apply in_map_iff in Hin as ([k' es] & <- & Hin).
  specialize (H _ Hin). apply andb_true_iff in H. apply H.
Qed.

Lemma export_pairs_cr_free (data : DailyLog) (p : string * entry) :
  log_cr_free data = true -> In p (export_pairs data) ->
  wide (WaterTracker.entry_row (fst p) (snd p)) = true
  /\ forallb cr_free (WaterTracker.entry_row (fst p) (snd p)) = true.
Proof.
  intros Hcr Hin. split; [reflexivity|].
  unfold export_pairs in Hin. apply in_flat_map in Hin as (k & Hk & Hin).
  apply in_map_iff in Hin as (e & <- & He).
  apply (Permutation_in _ (sorted_perm _)) in Hk.
  pose proof (cr_free_keys data k Hcr Hk) as Hkey.
  pose proof (cr_free_entries_of data k e Hcr He) as Hent.
  unfold entry_cr_free in Hent. apply andb_true_iff in Hent as [Hts Hnt].
  cbn [WaterTracker.entry_row forallb fst snd].
  rewrite Hkey, Hts, Hnt, cr_free_str. reflexivity.
Qed.

Lemma within_limit_entries_of (data : DailyLog) (k : string) (e : entry) :
  log_within_limit data = true -> In e (entries_of data k) -> entry_within_limit e = true.
Proof.
  unfold log_within_limit, entries_of. induction data as [|[k' es] data IH]; simpl; [tauto|].
  rewrite andb_true_iff. intros [Hitem Hdata].
  destruct (String.eqb k' k).
  - apply andb_true_iff in Hitem as [_ Hes]. rewrite forallb_forall in Hes. apply Hes.
  - apply IH; assumption.
Qed.

Lemma within_limit_keys (data : DailyLog) (k : string) :
  log_within_limit data = true -> In k (Dict.keys data) -> short k = true.
Proof.
  unfold log_within_limit. rewrite forallb_forall. intros H Hin.
  apply in_map_iff in Hin as ([k' es] & <- & Hin).
  specialize (H _ Hin). apply andb_true_iff in H. apply H.
Qed.

Lemma export_pairs_in (data : DailyLog) (p : string * entry) :
  In p (export_pairs data) ->
  In (fst p) (Dict.keys data) /\ In (snd p) (entries_of data (fst p)).
Proof.
  intros Hin. unfold export_pairs in Hin. apply in_flat_map in Hin as (k & Hk & Hin).
  apply in_map_iff in Hin as (e & <- & He).
  apply (Permutation_in _ (sorted_perm _)) in Hk. split; assumption.
Qed.

Lemma export_pairs_within_limit (data : DailyLog) (p : string * entry) :
  log_within_limit data = true -> In p (export_pairs data) ->
  forallb short (WaterTracker.entry_row (fst p) (snd p)) = true.
Proof.
  intros Hlim Hin. destruct (export_pairs_in data p Hin) as [Hk He].
  pose proof (within_limit_keys data _ Hlim Hk) as Hkey.
  pose proof (within_limit_entries_of data _ _ Hlim He) as Hent.
  unfold entry_within_limit in Hent.
  apply andb_true_iff in Hent as [Hent Hnt]. apply andb_true_iff in Hent as [Hts Ham].
  cbn [WaterTracker.entry_row forallb]. rewrite Hkey, Hts, Ham, Hnt. reflexivity.
Qed.

Lemma dict_reader_export_text (data : DailyLog) :
  log_cr_free data = true ->
  log_within_limit data = true ->
  Csv.dict_reader (Csv.universal_newlines (export_text data))
  = Ok (map (fun p => Csv.make_row WaterTracker.csv_header
                        (WaterTracker.entry_row (fst p) (snd p)))
            (export_pairs data)).
Proof.
  intros Hcr Hlim. unfold Csv.dict_reader, export_text.
  set (rows := map (fun p => WaterTracker.entry_row (fst p) (snd p)) (export_pairs data)).
  assert (Hshort : Csv.within_limit (WaterTracker.csv_header :: rows) = true).
  { unfold Csv.within_limit. cbn [forallb]. apply andb_true_iff; split; [reflexivity|].
    apply forallb_forall. intros row Hin. apply in_map_iff in Hin as (p & <- & Hp).
    apply (export_pairs_within_limit data); assumption. }
  assert (Hrows : forall row, In row rows -> wide row = true /\ forallb cr_free row = true).
  { intros row Hin. apply in_map_iff in Hin as (p & <- & Hp).
    apply (export_pairs_cr_free data); assumption. }
  replace (Csv.writerow WaterTracker.csv_header
           ++ cat_all (map (fun p => Csv.writerow (WaterTracker.entry_row (fst p) (snd p)))
                           (export_pairs data)))%string
    with (cat_all (map Csv.writerow (WaterTracker.csv_header :: rows)))
    by (unfold rows; cbn [map cat_all]; rewrite map_map; reflexivity).
  rewrite reader_rows_writerows.
  - cbn [bind]. rewrite Hshort. rewrite filter_wide.
    + unfold rows. rewrite map_map. reflexivity.
    + apply forallb_forall. intros row Hin. apply Hrows; assumption.
  - cbn [forallb]. apply andb_true_iff; split; [reflexivity|].
    apply forallb_forall. intros row Hin. destruct (Hrows row Hin) as [-> ->]. reflexivity.
Qed.

Lemma import_data_from_csv_export_text (py_float : option string -> result Z)
  (path : string) (data : DailyLog) (csv : list (string * string)) :
  reads_back py_float data ->
  log_cr_free data = true ->
  log_within_limit data = true ->
  Dict.get csv path = Some (export_text data) ->
  WaterTracker.import_data_from_csv py_float path (mkStore None csv)
  = (true,
     mkStore (Some (WellFormed
        (fold_left (fun d p => WaterTracker.append_entry d (fst p) (reimported (snd p)))
                   (export_pairs data) []))) csv).
Proof.
  intros Hfloat Hcr Hlim Hfile.
  unfold WaterTracker.import_data_from_csv, WaterTracker.try_bool,
    WaterTracker.import_body, WaterTracker.io_bind, WaterTracker.io_load,
    WaterTracker.open_read, WaterTracker.io_lift, WaterTracker.io_save.
  cbn [WaterTracker.load_water_log log_file csv_files]. rewrite Hfile.
  rewrite dict_reader_export_text by assumption.
  rewrite import_rows_entry_rows; [reflexivity|].
  intros p Hp. destruct (export_pairs_in data p Hp) as [_ He]. exact (Hfloat _ _ He).
Qed.

(** ** The log the import rebuilds *)

Lemma fold_append_entries_of (f : entry -> entry) (pairs : list (string * entry))
  (d : DailyLog) (k : string) :
  entries_of (fold_left (fun d p => WaterTracker.append_entry d (fst p) (f (snd p)))
                        pairs d) k
  = (entries_of d k
     ++ map (fun p => f (snd p)) (filter (fun p => String.eqb (fst p) k) pairs))%list.
Proof.
  revert d; induction pairs as [|[k' e] pairs IH]; intros d.
  - simpl. rewrite app_nil_r. reflexivity.
  - cbn [fold_left filter fst snd]. rewrite IH.
    destruct (String.eqb_spec k' k) as [->|Hne].
    + rewrite entries_of_append_eq, <- app_assoc. reflexivity.
    + rewrite entries_of_append_ne by assumption. reflexivity.
Qed.

Lemma filter_pairs_same (k : string) (es : list entry) :
  filter (fun p : string * entry => String.eqb (fst p) k) (map (pair k) es)
  = map (pair k) es.
Proof.
  induction es as [|e es IH]; simpl; [reflexivity|].
  rewrite String.eqb_refl, IH. reflexivity.
Qed.

Lemma filter_pairs_other (k k' : string) (es : list entry) :
  k' <> k ->
  filter (fun p : string * entry => String.eqb (fst p) k) (map (pair k') es) = [].
Proof.
  intros Hne. induction es as [|e es IH]; simpl; [reflexivity|].
  destruct (String.eqb_spec k' k); [contradiction | assumption].
Qed.

Lemma filter_flat_map_pairs (h : string -> list entry) (ks : list string) (k : string) :
  NoDup ks -> (~ In k ks -> h k = []) ->
  filter (fun p : string * entry => String.eqb (fst p) k)
         (flat_map (fun k' => map (pair k') (h k')) ks)
  = map (pair k) (h k).
Proof.
  induction ks as [|k' ks IH]; intros Hnd Hout.
  - simpl. rewrite Hout by tauto. reflexivity.
  - inversion Hnd as [|? ? Hnotin Hnd']; subst.
    cbn [flat_map]. rewrite filter_app.
    destruct (String.eqb_spec k' k) as [->|Hne].
    + rewrite filter_pairs_same.
      assert (E : filter (fun p : string * entry => String.eqb (fst p) k)
                    (flat_map (fun k' => map (pair k') (h k')) ks) = []).
      { clear IH Hout Hnd Hnd'. induction ks as [|x ks IH]; [reflexivity|].
        cbn [flat_map]. rewrite filter_app, filter_pairs_other.
        - apply IH. simpl in Hnotin; tauto.
        - intros ->. apply Hnotin; simpl; auto. }
      rewrite E, app_nil_r. reflexivity.
    + rewrite filter_pairs_other by assumption. simpl.
      apply IH; [assumption|]. intros Hk. apply Hout. simpl; tauto.
Qed.

Lemma entries_of_not_in (data : DailyLog) (k : string) :
  ~ In k (Dict.keys data) -> entries_of data k = [].
Proof. intros H. unfold entries_of. rewrite dict_get_not_in by assumption. reflexivity. Qed.

Lemma sorted_keys_NoDup (data : DailyLog) :
  Dict.wf data -> NoDup (PyStr.sorted (Dict.keys data)).
Proof.
  intros H. apply (Permutation_NoDup (Permutation_sym (sorted_perm _)) H).
Qed.

Lemma reimported_entries_of (data : DailyLog) (k : string) :
  Dict.wf data ->
  entries_of (fold_left (fun d p => WaterTracker.append_entry d (fst p) (reimported (snd p)))
                        (export_pairs data) []) k
  = map reimported (entries_of data k).
Proof.
  intros Hwf. rewrite fold_append_entries_of. unfold export_pairs.
  rewrite filter_flat_map_pairs.
  - cbn [entries_of Dict.get app]. rewrite map_map. reflexivity.
  - apply sorted_keys_NoDup; assumption.
  - intros Hk. apply entries_of_not_in. intros Hin. apply Hk.
    apply (Permutation_in _ (Permutation_sym (sorted_perm _)) Hin).
Qed.

Lemma sum_amounts_reimported (es : list entry) :
  sum_amounts (map reimported es) = sum_amounts es.
Proof.
  induction es as [|e es IH]; [reflexivity|].
  cbn [map]. rewrite !sum_amounts_cons, IH. reflexivity.
Qed.

(** *** Counting entries *)

Lemma entry_count_set (d : DailyLog) (k : string) (v : list entry) :
  (entry_count (Dict.set d k v) + List.length (entries_of d k)
   = entry_count d + List.length v)%nat.
Proof.
  unfold entry_count, entries_of.
  induction d as [|[k' v'] d IH]; simpl.
  - lia.
  - destruct (String.eqb k' k); simpl; lia.
Qed.

Lemma entry_count_append (d : DailyLog) (k : string) (e : entry) :
  entry_count (WaterTracker.append_entry d k e) = S (entry_count d).
Proof.
  unfold WaterTracker.append_entry; cbv zeta.
  set (d' := if Dict.contains d k then d else Dict.set d k []).
  assert (Hd' : (entry_count d' = entry_count d)%nat).
  { unfold d', Dict.contains. destruct (Dict.get d k) eqn:E; [reflexivity|].
    pose proof (entry_count_set d k []) as H. unfold entries_of in H.
    rewrite E in H. simpl in H. lia. }
  pose proof (entry_count_set d' k (entries_of d' k ++ [e])) as H.
  rewrite length_app in H. simpl in H. lia.
Qed.

Lemma entry_count_fold_append (f : entry -> entry) (pairs : list (string * entry))
  (d : DailyLog) :
  entry_count (fold_left (fun d p => WaterTracker.append_entry d (fst p) (f (snd p)))
                         pairs d)
  = (List.length pairs + entry_count d)%nat.
Proof.
  revert d; induction pairs as [|p pairs IH]; intros d; [reflexivity|].
  cbn [fold_left]. rewrite IH, entry_count_append. simpl; lia.
Qed.

Lemma list_sum_perm (l l' : list nat) : Permutation l l' -> list_sum l = list_sum l'.
Proof. induction 1; simpl; lia. Qed.

Lemma length_flat_map_sum {A B : Type} (f : A -> list B) (l : list A) :
  List.length (flat_map f l) = list_sum (map (fun a => List.length (f a)) l).
Proof.
  induction l as [|a l IH]; simpl; [reflexivity|].
  rewrite length_app, IH. reflexivity.
Qed.

Lemma list_sum_cons (x : nat) (l : list nat) : list_sum (x :: l) = (x + list_sum l)%nat.
Proof. reflexivity. Qed.

Lemma entries_of_head (k : string) (es : list entry) (data : DailyLog) :
  entries_of ((k, es) :: data) k = es.
Proof. unfold entries_of; cbn [Dict.get]. rewrite String.eqb_refl. reflexivity. Qed.

Lemma entries_of_tail (k k' : string) (es : list entry) (data : DailyLog) :
  k <> k' -> entries_of ((k, es) :: data) k' = entries_of data k'.
Proof.
  intros Hne. unfold entries_of; cbn [Dict.get].
  destruct (String.eqb_spec k k'); [contradiction | reflexivity].
Qed.

Lemma entry_count_by_keys (data : DailyLog) :
  Dict.wf data ->
  entry_count data
  = list_sum (map (fun k => List.length (entries_of data k)) (Dict.keys data)).
Proof.
  induction data as [|[k es] data IH]; intros Hnd; [reflexivity|].
  inversion Hnd as [|? ? Hnotin Hnd']; subst.
  change (entry_count ((k, es) :: data)) with (List.length es + entry_count data)%nat.
  cbn [Dict.keys map fst]. rewrite entries_of_head, (IH Hnd'), list_sum_cons.
  f_equal. f_equal. apply map_ext_in. intros k' Hk'.
  rewrite entries_of_tail; [reflexivity|]. intros ->. contradiction.
Qed.

Lemma length_export_pairs (data : DailyLog) :
  Dict.wf data -> List.length (export_pairs data) = entry_count data.
Proof.
  intros Hwf. unfold export_pairs.
  rewrite length_flat_map_sum, (entry_count_by_keys data Hwf).
  rewrite (map_ext _ (fun k => List.length (entries_of data k)))
    by (intros k; apply length_map).
  apply list_sum_perm, Permutation_map, sorted_perm.
Qed.

(** ** Logging, deleting and editing entries *)

Lemma dict_contains_get {V : Type} (d : list (string * V)) (k : string) :
  Dict.contains d k = true <-> exists v, Dict.get d k = Some v.
Proof.
  unfold Dict.contains. destruct (Dict.get d k); split; eauto; try discriminate.
  intros [v H]; discriminate.
Qed.

Lemma dict_contains_keys {V : Type} (d : list (string * V)) (k : string) :
  Dict.contains d k = true <-> In k (Dict.keys d).
Proof.
  rewrite dict_contains_get. split.
  - intros [v H]. destruct (in_dec string_dec k (Dict.keys d)) as [|Hn]; [assumption|].
    rewrite dict_get_not_in in H by assumption. discriminate.
  - apply dict_get_in.
Qed.

Lemma dict_set_keys {V : Type} (d : list (string * V)) (k : string) (v : V) :
  In k (Dict.keys d) -> Dict.keys (Dict.set d k v) = Dict.keys d.
Proof.
  induction d as [|[k' v'] d IH]; simpl; [tauto|].
  intros H. destruct (String.eqb_spec k' k) as [->|Hne]; [reflexivity|].
  simpl. f_equal. apply IH. destruct H; [contradiction | assumption].
Qed.

Lemma entries_of_set_eq (data : DailyLog) (k : string) (es : list entry) :
  entries_of (Dict.set data k es) k = es.
Proof. unfold entries_of. rewrite dict_get_set_eq. reflexivity. Qed.

Lemma entries_of_set_ne (data : DailyLog) (k k' : string) (es : list entry) :
  k <> k' -> entries_of (Dict.set data k es) k' = entries_of data k'.
Proof. intros H. unfold entries_of. rewrite dict_get_set_ne by assumption. reflexivity. Qed.

Lemma log_getitem_contains (data : DailyLog) (k : string) :
  Dict.contains data k = true ->
  WaterTracker.log_getitem data k = Ok (entries_of data k).
Proof.
  intros H. apply dict_contains_get in H as [es H].
  unfold WaterTracker.log_getitem, entries_of. rewrite H. reflexivity.
Qed.

Lemma entries_of_not_contains (data : DailyLog) (k : string) :
  Dict.contains data k = false -> entries_of data k = [].
Proof.
  unfold Dict.contains, entries_of. destruct (Dict.get data k); [discriminate | reflexivity].
Qed.

Lemma entry_timestamp_stamped (e : entry) :
  timestamp e <> None ->
  exists t, WaterTracker.entry_timestamp e = Ok t /\ timestamp e = Some t.
Proof.
  unfold WaterTracker.entry_timestamp. destruct (timestamp e) as [t|]; [eauto | congruence].
Qed.

Lemma without_timestamp_filter (es : list entry) (ts : string) :
  all_stamped es ->
  WaterTracker.without_timestamp es ts = Ok (filter (fun e => negb (stamped ts e)) es).
Proof.
  induction 1 as [|e es He Hes IH]; [reflexivity|].
  cbn [WaterTracker.without_timestamp filter].
  destruct (entry_timestamp_stamped e He) as (t & -> & Ht). cbn [bind].
  rewrite IH. cbn [bind].
  assert (Hs : stamped ts e = String.eqb t ts) by (unfold stamped; rewrite Ht; reflexivity).
  rewrite Hs. destruct (String.eqb t ts); reflexivity.
Qed.

Lemma filter_length_lt {A : Type} (f : A -> bool) (l : list A) :
  (List.length (filter f l) < List.length l)%nat <-> exists a, In a l /\ f a = false.
Proof.
  induction l as [|a l IH]; simpl.
  - split; [lia | intros (a & [] & _)].
  - pose proof (filter_length_le f l) as Hle. destruct (f a) eqn:E; simpl.
    + rewrite <- Nat.succ_lt_mono, IH. split.
      * intros (b & Hb & Hf). exists b; auto.
      * intros (b & [<-|Hb] & Hf); [congruence | exists b; auto].
    + split; [intros _; exists a; auto | intros _; lia].
Qed.

Lemma stamped_iff (ts : string) (e : entry) :
  stamped ts e = true <-> timestamp e = Some ts.
Proof.
  unfold stamped. destruct (timestamp e) as [t|]; [|split; discriminate].
  rewrite String.eqb_eq. split; congruence.
Qed.

(** X5.  [delete_entry_for_date] on a date whose entries all carry a time stamp:
    it reports whether an entry with the time stamp was there; if not, the
    store is as before; if so, every entry of the date with that time stamp
    is gone, the other entries of the date are kept in their order, the
    date stays a key of the log even when no entry is left, and the other
    dates are as before.  [delete_water_intake_entry] is the same on
    today's date. *)
Theorem delete_entry_for_date_spec (date_str ts : string) (st : store) (data : DailyLog) :
  WaterTracker.load_water_log st = Ok data ->
  all_stamped (entries_of data date_str) ->
  exists b st',
    WaterTracker.delete_entry_for_date date_str ts st = Ok (b, st')
    /\ WaterTracker.delete_water_intake_entry ts date_str st = Ok (b, st')
    /\ (b = true <-> exists e, In e (entries_of data date_str) /\ timestamp e = Some ts)
    /\ (b = false -> st' = st)
    /\ (b = true ->
        exists data',
          WaterTracker.load_water_log st' = Ok data'
          /\ csv_files st' = csv_files st
          /\ entries_of data' date_str
             = filter (fun e => negb (stamped ts e)) (entries_of data date_str)
          /\ (forall e, In e (entries_of data' date_str) -> timestamp e <> Some ts)
          /\ (forall k, k <> date_str -> entries_of data' k = entries_of data k)
          /\ Dict.keys data' = Dict.keys data).
Proof.
  intros Hload Hall.
  unfold WaterTracker.delete_entry_for_date, WaterTracker.delete_water_intake_entry.
  rewrite Hload; cbn [bind].
  destruct (Dict.contains data date_str) eqn:Hc.
  - rewrite (log_getitem_contains _ _ Hc); cbn [bind].
    rewrite (without_timestamp_filter _ ts Hall); cbn [bind].
    set (es := entries_of data date_str) in *.
    set (kept := filter (fun e => negb (stamped ts e)) es).
    assert (Hlt : (List.length kept < List.length es)%nat
                  <-> exists e, In e es /\ timestamp e = Some ts).
    { unfold kept. rewrite filter_length_lt. split; intros (e & He & H); exists e;
        (split; [assumption|]).
      - apply stamped_iff. apply negb_false_iff; assumption.
      - apply negb_false_iff, stamped_iff; assumption. }
    destruct (Nat.ltb_spec (List.length kept) (List.length es)) as [Hl | Hl].
    + do 2 eexists. split; [reflexivity|]. split; [reflexivity|].
      split; [split; [intros _; apply Hlt; assumption | reflexivity]|].
      split; [discriminate|]. intros _.
      eexists. split; [reflexivity|]. split; [reflexivity|].
      split; [apply entries_of_set_eq|].
      split.
      * intros e He. rewrite entries_of_set_eq in He. apply filter_In in He as [_ He].
        intros H. apply stamped_iff in H. rewrite H in He. discriminate.
      * split; [intros k Hk; apply entries_of_set_ne; congruence|].
        apply dict_set_keys, dict_contains_keys; assumption.
    + do 2 eexists. split; [reflexivity|]. split; [reflexivity|].
      split; [split; [discriminate | intros H; apply Hlt in H; lia]|].
      split; [reflexivity | discriminate].
  - do 2 eexists. split; [reflexivity|]. split; [reflexivity|].
    split; [split; [discriminate|]|].
    + intros (e & He & _).
      rewrite (entries_of_not_contains _ _ Hc) in He. destruct He.
    + split; [reflexivity | discriminate].
Qed.

Lemma delete_entry_for_date_witness :
  exists st',
    WaterTracker.delete_entry_for_date "2024-01-02" "2024-01-02T08:00:00"
      (Samples.store_of Samples.two_days) = Ok (true, st').
Proof.
  destruct (delete_entry_for_date_spec "2024-01-02" "2024-01-02T08:00:00"
              (Samples.store_of Samples.two_days) Samples.two_days eq_refl)
    as (b & st' & H1 & _ & H3 & _).
  - repeat constructor; discriminate.
  - exists st'. rewrite H1. f_equal. f_equal. apply H3.
    eexists. split; [left; reflexivity | reflexivity].
Defined.

(** *** Deleting a date *)

Lemma dict_get_del_ne {V : Type} (d : list (string * V)) (k k' : string) :
  k <> k' -> Dict.get (Dict.del d k) k' = Dict.get d k'.
Proof.
  intros Hne. induction d as [|[k0 v0] d IH]; simpl; [reflexivity|].
  destruct (String.eqb_spec k0 k) as [->|H0]; simpl.
  - destruct (String.eqb_spec k k'); [contradiction | reflexivity].
  - destruct (String.eqb k0 k'); [reflexivity | assumption].
Qed.

Lemma dict_del_filter {V : Type} (d : list (string * V)) (k : string) :
  Dict.wf d ->
  Dict.del d k = filter (fun item => negb (String.eqb (fst item) k)) d.
Proof.
  unfold Dict.wf, Dict.keys.
  induction d as [|[k0 v0] d IH]; simpl; intros Hnd; [reflexivity|].
  inversion Hnd as [|? ? Hnotin Hnd']; subst.
  destruct (String.eqb_spec k0 k) as [->|H0]; simpl.
  - symmetry. apply forallb_filter_id. apply forallb_forall.
    intros [k1 v1] Hin. simpl. apply negb_true_iff, String.eqb_neq.
    intros ->. apply Hnotin. change k with (fst (k, v1)). apply in_map; assumption.
  - f_equal. apply IH; assumption.
Qed.

Lemma keys_filter_NoDup {V : Type} (f : string * V -> bool) (d : list (string * V)) :
  Dict.wf d -> Dict.wf (filter f d).
Proof.
  unfold Dict.wf, Dict.keys.
  induction d as [|x d IH]; simpl; intros Hnd; [constructor|].
  inversion Hnd as [|? ? Hnotin Hnd']; subst.
  destruct (f x); simpl; [|auto].
  constructor; [|auto]. intros Hin. apply Hnotin.
  apply in_map_iff in Hin as (y & Hy & Hin). apply filter_In in Hin as [Hin _].
  rewrite <- Hy. apply in_map; assumption.
Qed.

Lemma dict_get_del_eq {V : Type} (d : list (string * V)) (k : string) :
  Dict.wf d -> Dict.get (Dict.del d k) k = None.
Proof.
  intros Hwf. rewrite dict_del_filter by assumption.
  apply dict_get_not_in. intros Hin.
  apply in_map_iff in Hin as ([k1 v1] & Hk & Hin). apply filter_In in Hin as [_ Hf].
  simpl in *. subst k1. rewrite String.eqb_refl in Hf. discriminate.
Qed.

Lemma dict_del_length {V : Type} (d : list (string * V)) (k : string) :
  In k (Dict.keys d) -> S (List.length (Dict.del d k)) = List.length d.
Proof.
  induction d as [|[k0 v0] d IH]; simpl; [tauto|].
  intros H. destruct (String.eqb_spec k0 k) as [->|H0]; [reflexivity|].
  simpl. f_equal. apply IH. destruct H; [contradiction | assumption].
Qed.

(** X6.  [delete_all_entries_for_date] reports whether the date was a key of the
    log; if not, the store is as before; if so, the date is no key any
    more (its total is 0 from then on), the log has one key less and every
    other date keeps its entries. *)
Theorem delete_all_entries_for_date_spec (date_str : string) (st : store)
  (data : DailyLog) :
  WaterTracker.load_water_log st = Ok data ->
  Dict.wf data ->
  exists st',
    WaterTracker.delete_all_entries_for_date date_str st
    = Ok (Dict.contains data date_str, st')
    /\ (Dict.contains data date_str = false -> st' = st)
    /\ (Dict.contains data date_str = true ->
        exists data',
          WaterTracker.load_water_log st' = Ok data'
          /\ csv_files st' = csv_files st
          /\ Dict.wf data'
          /\ Dict.contains data' date_str = false
          /\ daily_total data' date_str = 0
          /\ S (List.length data') = List.length data
          /\ (forall k, k <> date_str -> Dict.get data' k = Dict.get data k)).
Proof.
  intros Hload Hwf. unfold WaterTracker.delete_all_entries_for_date.
  rewrite Hload; cbn [bind].
  destruct (Dict.contains data date_str) eqn:Hc.
  - eexists. split; [reflexivity|]. split; [discriminate|]. intros _.
    eexists. split; [reflexivity|]. split; [reflexivity|].
    split; [rewrite dict_del_filter by assumption; apply keys_filter_NoDup; assumption|].
    assert (Hg : Dict.get (Dict.del data date_str) date_str = None)
      by (apply dict_get_del_eq; assumption).
    split; [unfold Dict.contains; rewrite Hg; reflexivity|].
    split; [unfold daily_total, entries_of; rewrite Hg; reflexivity|].
    split; [apply dict_del_length, dict_contains_keys; assumption|].
    intros k Hk. apply dict_get_del_ne; congruence.
  - eexists. split; [reflexivity|]. split; [reflexivity | discriminate].
Qed.

Lemma delete_all_entries_for_date_witness :
  exists st',
    WaterTracker.delete_all_entries_for_date "2024-01-01"
      (Samples.store_of Samples.two_days) = Ok (true, st').
Proof.
  destruct (delete_all_entries_for_date_spec "2024-01-01"
              (Samples.store_of Samples.two_days) Samples.two_days eq_refl)
    as (st' & H1 & _).
  - repeat constructor; simpl; intuition discriminate.
  - exists st'. exact H1.
Defined.

(** *** Editing an entry *)

Lemma edit_first_none (es : list entry) (ts : string) (a : Z) (n : option string) :
  all_stamped es -> (forall e, In e es -> stamped ts e = false) ->
  WaterTracker.edit_first es ts a n = Ok None.
Proof.
  induction 1 as [|e es He Hes IH]; intros Hno; [reflexivity|].
  cbn [WaterTracker.edit_first].
  destruct (entry_timestamp_stamped e He) as (t & -> & Ht). cbn [bind].
  pose proof (Hno e (or_introl eq_refl)) as H0. unfold stamped in H0. rewrite Ht in H0.
  rewrite H0, IH by (intros; apply Hno; simpl; auto). reflexivity.
Qed.

Lemma edit_first_some (pre post : list entry) (e : entry) (ts : string) (a : Z)
  (n : option string) :
  all_stamped pre -> (forall x, In x pre -> stamped ts x = false) ->
  stamped ts e = true ->
  WaterTracker.edit_first (pre ++ e :: post) ts a n
  = Ok (Some (pre ++ edited a n e :: post)%list).
Proof.
  intros Hpre Hno He. induction Hpre as [|x pre Hx Hpre IH].
  - cbn [app WaterTracker.edit_first]. unfold stamped in He.
    unfold WaterTracker.entry_timestamp.
    destruct (timestamp e) as [t|] eqn:Ht; [|discriminate]. cbn [bind].
    rewrite He. unfold edited. rewrite Ht. reflexivity.
  - cbn [app WaterTracker.edit_first].
    destruct (entry_timestamp_stamped x Hx) as (t & -> & Ht). cbn [bind].
    pose proof (Hno x (or_introl eq_refl)) as H0. unfold stamped in H0. rewrite Ht in H0.
    rewrite H0, IH by (intros; apply Hno; simpl; auto). reflexivity.
Qed.

Lemma first_stamped_split (es : list entry) (ts : string) :
  (exists e, In e es /\ stamped ts e = true) ->
  exists pre e post,
    es = (pre ++ e :: post)%list
    /\ (forall x, In x pre -> stamped ts x = false) /\ stamped ts e = true.
Proof.
  induction es as [|x es IH]; intros (e & He & Hs); [destruct He|].
  destruct (stamped ts x) eqn:Hx.
  - exists [], x, es. repeat split; [intros ? []|assumption].
  - destruct IH as (pre & e' & post & -> & Hno & He').
    + destruct He as [<-|He]; [congruence | eauto].
    + exists (x :: pre), e', post. repeat split; [|assumption].
      intros y [<-|Hy]; auto.
Qed.

Lemma stamped_false_iff (ts : string) (e : entry) :
  stamped ts e = false <-> timestamp e <> Some ts.
Proof.
  rewrite <- stamped_iff. destruct (stamped ts e); split; congruence.
Qed.

(** X7.  [edit_entry_for_date] on a date whose entries all carry a time stamp:
    it reports whether an entry with the time stamp was there; if not, the
    store is as before; if so, exactly the first such entry gets the new
    amount (and the new note when one is given), the entries before and
    after it and the other dates are as before, and the total of the date
    moves by the difference of the amounts.  [edit_water_intake_entry] is
    the same on today's date, without a note. *)
Theorem edit_entry_for_date_spec (date_str ts : string) (a : Z) (n : option string)
  (st : store) (data : DailyLog) :
  WaterTracker.load_water_log st = Ok data ->
  all_stamped (entries_of data date_str) ->
  exists b st',
    WaterTracker.edit_entry_for_date date_str ts a n st = Ok (b, st')
    /\ (n = None -> WaterTracker.edit_water_intake_entry ts a date_str st = Ok (b, st'))
    /\ (b = true <-> exists e, In e (entries_of data date_str) /\ timestamp e = Some ts)
    /\ (b = false -> st' = st)
    /\ (b = true ->
        exists data' pre e post,
          entries_of data date_str = (pre ++ e :: post)%list
          /\ (forall x, In x pre -> timestamp x <> Some ts)
          /\ timestamp e = Some ts
          /\ WaterTracker.load_water_log st' = Ok data'
          /\ csv_files st' = csv_files st
          /\ entries_of data' date_str = (pre ++ edited a n e :: post)%list
          /\ (forall k, k <> date_str -> entries_of data' k = entries_of data k)
          /\ Dict.keys data' = Dict.keys data
          /\ daily_total data' date_str
             = daily_total data date_str - amount_ml e + a).
Proof.
  intros Hload Hall.
  unfold WaterTracker.edit_entry_for_date, WaterTracker.edit_water_intake_entry.
  rewrite Hload; cbn [bind].
  destruct (Dict.contains data date_str) eqn:Hc.
  - rewrite (log_getitem_contains _ _ Hc); cbn [bind].
    destruct (existsb (stamped ts) (entries_of data date_str)) eqn:Hex.
    + apply existsb_exists in Hex.
      destruct (first_stamped_split _ _ Hex) as (pre & e & post & Hes & Hno & He).
      rewrite Hes in Hall |- *.
      assert (Hpre : all_stamped pre) by (apply Forall_app in Hall; apply Hall).
      rewrite (edit_first_some pre post e ts a n Hpre Hno He); cbn [bind].
      do 2 eexists. split; [reflexivity|].
      split; [intros ->; rewrite (edit_first_some pre post e ts a None Hpre Hno He);
              reflexivity|].
      split; [split; [intros _|reflexivity]|].
      { exists e. split; [apply in_elt | apply stamped_iff; assumption]. }
      split; [discriminate|]. intros _.
      exists (Dict.set data date_str (pre ++ edited a n e :: post)%list), pre, e, post.
      split; [reflexivity|].
      split; [intros x Hx; apply stamped_false_iff, Hno; assumption|].
      split; [apply stamped_iff; assumption|].
      split; [reflexivity|]. split; [reflexivity|].
      split; [apply entries_of_set_eq|].
      split; [intros k Hk; apply entries_of_set_ne; congruence|].
      split; [apply dict_set_keys, dict_contains_keys; assumption|].
      unfold daily_total. rewrite entries_of_set_eq, Hes, !sum_amounts_app,
        !sum_amounts_cons. unfold edited; cbn [amount_ml]. lia.
    + assert (Hno : forall e, In e (entries_of data date_str) -> stamped ts e = false).
      { intros e He. destruct (stamped ts e) eqn:E; [|reflexivity].
        assert (existsb (stamped ts) (entries_of data date_str) = true)
          by (apply existsb_exists; eauto). congruence. }
      rewrite !(edit_first_none _ ts a _ Hall Hno); cbn [bind].
      do 2 eexists. split; [reflexivity|]. split; [reflexivity|].
      split; [split; [discriminate|]|].
      * intros (e & He & Hts). apply stamped_iff in Hts. rewrite Hno in Hts by assumption.
        discriminate.
      * split; [reflexivity | discriminate].
  - do 2 eexists. split; [reflexivity|]. split; [reflexivity|].
    split; [split; [discriminate|]|].
    + intros (e & He & _).
      rewrite (entries_of_not_contains _ _ Hc) in He. destruct He.
    + split; [reflexivity | discriminate].
Qed.

Lemma edit_entry_for_date_witness :
  exists st',
    WaterTracker.edit_entry_for_date "2024-01-02" "2024-01-02T13:30:00" 900 None
      (Samples.store_of Samples.two_days) = Ok (true, st').
Proof.
  destruct (edit_entry_for_date_spec "2024-01-02" "2024-01-02T13:30:00" 900 None
              (Samples.store_of Samples.two_days) Samples.two_days eq_refl)
    as (b & st' & H1 & _ & H3 & _).
  - repeat constructor; discriminate.
  - exists st'. rewrite H1. f_equal. f_equal. apply H3.
    eexists. split; [right; left; reflexivity | reflexivity].
Defined.

(** *** Logging an intake *)

Lemma append_entry_keys_in (data : DailyLog) (k : string) (e : entry) :
  In k (Dict.keys (WaterTracker.append_entry data k e)).
Proof.
  apply dict_contains_keys. unfold Dict.contains, WaterTracker.append_entry; cbv zeta.
  rewrite dict_get_set_eq. reflexivity.
Qed.

(** X3.  [log_water_intake] and [log_water_intake_with_note] add one entry at
    the end of today's entries, stamped with the current instant: today's
    total grows by the amount, the log has one entry more, the other dates
    are as before, and [get_today_total] reads the new total back.  A first
    entry creates the document. *)
Theorem log_water_intake_spec (amount : Z) (nt today now : string) (st : store)
  (data : DailyLog) :
  WaterTracker.load_water_log st = Ok data ->
  exists st1 st2 data1 data2,
    WaterTracker.log_water_intake amount today now st = Ok st1
    /\ WaterTracker.log_water_intake_with_note amount nt today now st = Ok st2
    /\ WaterTracker.load_water_log st1 = Ok data1
    /\ WaterTracker.load_water_log st2 = Ok data2
    /\ csv_files st1 = csv_files st /\ csv_files st2 = csv_files st
    /\ entries_of data1 today
       = (entries_of data today ++ [mkEntry amount (Some now) None])%list
    /\ entries_of data2 today
       = (entries_of data today ++ [mkEntry amount (Some now) (Some nt)])%list
    /\ (forall k, k <> today ->
          entries_of data1 k = entries_of data k /\ entries_of data2 k = entries_of data k)
    /\ entry_count data1 = S (entry_count data)
    /\ entry_count data2 = S (entry_count data)
    /\ WaterTracker.get_today_total today st1 = Ok (daily_total data today + amount)
    /\ WaterTracker.get_today_total today st2 = Ok (daily_total data today + amount).
Proof.
  intros Hload.
  unfold WaterTracker.log_water_intake, WaterTracker.log_water_intake_with_note.
  rewrite Hload; cbn [bind].
  do 4 eexists. split; [reflexivity|]. split; [reflexivity|].
  split; [apply load_save|]. split; [apply load_save|].
  split; [reflexivity|]. split; [reflexivity|].
  split; [apply entries_of_append_eq|]. split; [apply entries_of_append_eq|].
  split; [intros k Hk; split; apply entries_of_append_ne; congruence|].
  split; [apply entry_count_append|]. split; [apply entry_count_append|].
  split.
  - rewrite (get_today_total_spec today _ _ (load_save _ st)).
    rewrite daily_total_append_eq. reflexivity.
  - rewrite (get_today_total_spec today _ _ (load_save _ st)).
    rewrite daily_total_append_eq. reflexivity.
Qed.

Lemma log_water_intake_witness :
  exists st1,
    WaterTracker.log_water_intake 300 "2024-01-02" "2024-01-02T20:00:00"
      (Samples.store_of Samples.two_days) = Ok st1
    /\ WaterTracker.get_today_total "2024-01-02" st1 = Ok 1500.
Proof.
  destruct (log_water_intake_spec 300 "evening" "2024-01-02" "2024-01-02T20:00:00"
              (Samples.store_of Samples.two_days) Samples.two_days eq_refl)
    as (st1 & st2 & d1 & d2 & H1 & _ & _ & _ & _ & _ & _ & _ & _ & _ & _ & H12 & _).
  exists st1. split; assumption.
Defined.

Lemma filter_all_false {A : Type} (f : A -> bool) (l : list A) :
  (forall a, In a l -> f a = true) -> filter f l = l.
Proof.
  intros H. apply forallb_filter_id, forallb_forall. assumption.
Qed.

(** X8.  Logging an intake and then deleting the entry with the time stamp it
    was given puts every date's entries back, provided no earlier entry of
    today has that time stamp. *)
Theorem log_then_delete (amount : Z) (today now : string) (st st1 : store)
  (data : DailyLog) :
  WaterTracker.load_water_log st = Ok data ->
  all_stamped (entries_of data today) ->
  (forall e, In e (entries_of data today) -> timestamp e <> Some now) ->
  WaterTracker.log_water_intake amount today now st = Ok st1 ->
  exists st2 data2,
    WaterTracker.delete_water_intake_entry now today st1 = Ok (true, st2)
    /\ WaterTracker.load_water_log st2 = Ok data2
    /\ forall k, entries_of data2 k = entries_of data k.
Proof.
  intros Hload Hall Hfresh Hlog.
  unfold WaterTracker.log_water_intake in Hlog. rewrite Hload in Hlog; cbn [bind] in Hlog.
  injection Hlog as <-.
  set (e := mkEntry amount (Some now) None).
  set (data1 := WaterTracker.append_entry data today e).
  unfold WaterTracker.delete_water_intake_entry. rewrite load_save; cbn [bind].
  assert (Hc : Dict.contains data1 today = true)
    by (apply dict_contains_keys, append_entry_keys_in).
  rewrite Hc, (log_getitem_contains _ _ Hc); cbn [bind].
  unfold data1 at 1 2. rewrite entries_of_append_eq.
  assert (Hall1 : all_stamped (entries_of data today ++ [e]))
    by (apply Forall_app; split; [assumption | repeat constructor; discriminate]).
  rewrite (without_timestamp_filter _ now Hall1); cbn [bind].
  rewrite filter_app. cbn [filter].
  assert (He : stamped now e = true) by (unfold stamped, e; simpl; apply String.eqb_refl).
  rewrite He. cbn [negb]. rewrite app_nil_r.
  rewrite filter_all_false
    by (intros x Hx; apply negb_true_iff, stamped_false_iff, Hfresh; assumption).
  rewrite length_app. cbn [List.length].
  replace (Nat.ltb _ _) with true by (symmetry; apply Nat.ltb_lt; lia).
  do 2 eexists. split; [reflexivity|]. split; [apply load_save|].
  intros k. destruct (String.eqb_spec today k) as [<-|Hne].
  - apply entries_of_set_eq.
  - rewrite entries_of_set_ne by assumption. unfold data1.
    apply entries_of_append_ne; assumption.
Qed.

Lemma log_then_delete_witness :
  exists st1 st2,
    WaterTracker.log_water_intake 300 "2024-01-02" "2024-01-02T20:00:00"
      (Samples.store_of Samples.two_days) = Ok st1
    /\ WaterTracker.delete_water_intake_entry "2024-01-02T20:00:00" "2024-01-02" st1
       = Ok (true, st2)
    /\ WaterTracker.get_today_total "2024-01-02" st2 = Ok 1200.
Proof.
  exists (WaterTracker.save_water_log
            (WaterTracker.append_entry Samples.two_days "2024-01-02"
               (mkEntry 300 (Some "2024-01-02T20:00:00") None))
            (Samples.store_of Samples.two_days)).
  destruct (log_then_delete 300 "2024-01-02" "2024-01-02T20:00:00"
              (Samples.store_of Samples.two_days)
              (WaterTracker.save_water_log
                 (WaterTracker.append_entry Samples.two_days "2024-01-02"
                    (mkEntry 300 (Some "2024-01-02T20:00:00") None))
                 (Samples.store_of Samples.two_days))
              Samples.two_days eq_refl)
    as (st2 & data2 & H1 & H2 & H3).
  - repeat constructor; discriminate.
  - intros e [<-|[<-|[]]]; discriminate.
  - reflexivity.
  - exists st2. split; [reflexivity|]. split; [exact H1|].
    rewrite (get_today_total_spec _ _ _ H2). unfold daily_total. rewrite H3. reflexivity.
Defined.

(** *** Backdated entries *)

(** X4.  [log_water_intake_for_date] returns [False] and leaves the store as it
    is when the date string is rejected, and also when the document is
    malformed: the decoder's error is a [ValueError], which the function
    catches, where [log_water_intake] lets it through.  With a date that is
    accepted and a document that loads, it appends the entry to that date
    and returns [True]. *)
Theorem log_water_intake_for_date_spec
  (date_fromisoformat : string -> result Calendar.date)
  (amount : Z) (date_str nt now : string) (st : store) :
  (date_fromisoformat date_str = Raise ValueError ->
   WaterTracker.log_water_intake_for_date date_fromisoformat amount date_str nt now st
   = Ok (false, st))
  /\ (forall d raw,
        date_fromisoformat date_str = Ok d ->
        log_file st = Some (Malformed raw) ->
        WaterTracker.log_water_intake_for_date date_fromisoformat amount date_str nt now st
        = Ok (false, st)
        /\ WaterTracker.log_water_intake_with_note amount nt date_str now st
           = Raise JSONDecodeError)
  /\ (forall d data,
        date_fromisoformat date_str = Ok d ->
        WaterTracker.load_water_log st = Ok data ->
        exists st' data',
          WaterTracker.log_water_intake_for_date date_fromisoformat amount date_str nt now st
          = Ok (true, st')
          /\ WaterTracker.log_water_intake_with_note amount nt date_str now st = Ok st'
          /\ WaterTracker.load_water_log st' = Ok data'
          /\ daily_total data' date_str = daily_total data date_str + amount
          /\ forall k, k <> date_str -> entries_of data' k = entries_of data k).
Proof.
  unfold WaterTracker.log_water_intake_for_date, WaterTracker.log_water_intake_with_note.
  split; [|split].
  - intros ->. reflexivity.
  - intros d raw -> Hraw. unfold WaterTracker.load_water_log. rewrite Hraw.
    split; reflexivity.
  - intros d data -> Hload. rewrite Hload; cbn [bind].
    do 2 eexists. split; [reflexivity|]. split; [reflexivity|].
    split; [apply load_save|]. split; [apply daily_total_append_eq|].
    intros k Hk. apply entries_of_append_ne; congruence.
Qed.

(** *** Pruning old dates *)

Lemma filter_twice {A : Type} (f g : A -> bool) (l : list A) :
  filter g (filter f l) = filter (fun x => f x && g x) l.
Proof.
  induction l as [|x l IH]; simpl; [reflexivity|].
  destruct (f x); simpl; [destruct (g x)|]; rewrite IH; reflexivity.
Qed.

Lemma fold_del_filter (ks : list string) (data : DailyLog) :
  Dict.wf data ->
  fold_left (fun d date => Dict.del d date) ks data
  = filter (fun item => negb (existsb (String.eqb (fst item)) ks)) data.
Proof.
  revert data; induction ks as [|k ks IH]; intros data Hwf.
  - simpl. symmetry. apply forallb_filter_id, forallb_forall. reflexivity.
  - cbn [fold_left]. rewrite dict_del_filter by assumption.
    rewrite IH by (apply keys_filter_NoDup; assumption).
    rewrite filter_twice. apply filter_ext. intros [k0 v0]. cbn [existsb fst].
    rewrite negb_orb. reflexivity.
Qed.

Lemma existsb_eqb_filter (p : string -> bool) (l : list string) (k : string) :
  In k l -> existsb (String.eqb k) (filter p l) = p k.
Proof.
  intros Hin. destruct (p k) eqn:Hp.
  - apply existsb_exists. exists k. split; [apply filter_In; auto | apply String.eqb_refl].
  - destruct (existsb (String.eqb k) (filter p l)) eqn:E; [|reflexivity].
    apply existsb_exists in E as (x & Hx & Hk). apply String.eqb_eq in Hk; subst x.
    apply filter_In in Hx as [_ Hx]. congruence.
Qed.

(** X9.  [clear_old_data(days_to_keep)] removes exactly the dates whose key is
    below the ISO text of the cut-off day, in the order of strings: the
    dates from the cut-off on are kept with their entries and in their
    order, and the number returned is the number of dates removed.  When
    nothing is to be removed the document is not written. *)
Theorem clear_old_data_spec (days_to_keep : Z) (today cutoff : Calendar.date)
  (st : store) (data : DailyLog) :
  WaterTracker.load_water_log st = Ok data ->
  Dict.wf data ->
  Calendar.minus_timedelta today days_to_keep = Ok cutoff ->
  exists n st',
    WaterTracker.clear_old_data days_to_keep today st = Ok (n, st')
    /\ n = List.length (filter (fun item => PyStr.lt (fst item) (Calendar.isoformat cutoff))
                               data)
    /\ (n = O -> st' = st)
    /\ csv_files st' = csv_files st
    /\ WaterTracker.load_water_log st'
       = Ok (filter (fun item => negb (PyStr.lt (fst item) (Calendar.isoformat cutoff)))
                    data)
    /\ (n + List.length (filter (fun item =>
                           negb (PyStr.lt (fst item) (Calendar.isoformat cutoff))) data)
        = List.length data)%nat.
Proof.
  intros Hload Hwf Hcut. unfold WaterTracker.clear_old_data.
  rewrite Hload, Hcut; cbn [bind].
  set (c := Calendar.isoformat cutoff).
  assert (Hlen : List.length (filter (fun date => PyStr.lt date c) (Dict.keys data))
                 = List.length (filter (fun item : string * list entry =>
                                          PyStr.lt (fst item) c) data)).
  { unfold Dict.keys. clear. induction data as [|[k v] d IH]; simpl; [reflexivity|].
    destruct (PyStr.lt k c); simpl; rewrite IH; reflexivity. }
  assert (Hfold : fold_left (fun d date => Dict.del d date)
                    (filter (fun date => PyStr.lt date c) (Dict.keys data)) data
                  = filter (fun item => negb (PyStr.lt (fst item) c)) data).
  { rewrite fold_del_filter by assumption. apply filter_ext_in. intros [k v] Hin.
    cbn [fst]. rewrite existsb_eqb_filter; [reflexivity|].
    change k with (fst (k, v)). apply in_map; assumption. }
  assert (Hsum : (List.length (filter (fun item : string * list entry =>
                                         PyStr.lt (fst item) c) data)
                  + List.length (filter (fun item => negb (PyStr.lt (fst item) c)) data)
                  = List.length data)%nat).
  { clear. induction data as [|[k v] d IH]; simpl; [reflexivity|].
    destruct (PyStr.lt k c); simpl; lia. }
  destruct (filter (fun date => PyStr.lt date c) (Dict.keys data)) as [|k ks] eqn:Hdel.
  - exists O, st. split; [reflexivity|]. split; [exact Hlen|].
    split; [reflexivity|]. split; [reflexivity|].
    split; [|rewrite <- Hlen in Hsum; exact Hsum].
    rewrite Hload. f_equal. cbn [fold_left] in Hfold. exact Hfold.
  - do 2 eexists. split; [reflexivity|]. split; [exact Hlen|].
    split; [discriminate|]. split; [reflexivity|].
    split; [rewrite load_save, Hfold; reflexivity|].
    rewrite Hlen. exact Hsum.
Qed.

Lemma clear_old_data_witness :
  exists st',
    WaterTracker.clear_old_data 0 (Calendar.mkDate 2024 1 2)
      (Samples.store_of Samples.two_days) = Ok (1%nat, st').
Proof.
  destruct (clear_old_data_spec 0 (Calendar.mkDate 2024 1 2) (Calendar.mkDate 2024 1 2)
              (Samples.store_of Samples.two_days) Samples.two_days eq_refl)
    as (n & st' & H1 & H2 & _).
  - repeat constructor; simpl; intuition discriminate.
  - reflexivity.
  - exists st'. rewrite H1, H2. reflexivity.
Defined.

Lemma log_water_intake_for_date_witness :
  exists st',
    WaterTracker.log_water_intake_for_date
      (fun s => if String.eqb s "2024-01-02" then Ok (Calendar.mkDate 2024 1 2)
                else Raise ValueError)
      300 "2024-01-02" "tea" "2024-01-05T08:00:00" (Samples.store_of Samples.two_days)
    = Ok (true, st').
Proof.
  destruct (log_water_intake_for_date_spec
              (fun s => if String.eqb s "2024-01-02" then Ok (Calendar.mkDate 2024 1 2)
                        else Raise ValueError)
              300 "2024-01-02" "tea" "2024-01-05T08:00:00"
              (Samples.store_of Samples.two_days)) as (_ & _ & H).
  destruct (H (Calendar.mkDate 2024 1 2) Samples.two_days eq_refl eq_refl)
    as (st' & data' & H1 & _).
  exists st'. exact H1.
Defined.

(** *** Averages and the weekly summary *)


Lemma last_n_days_empty (n : Z) (today : Calendar.date) (st : store) (data : DailyLog) :
  WaterTracker.load_water_log st = Ok data -> n <= 0 ->
  WaterTracker.get_last_n_days_totals n today st = Ok [].
Proof.
  intros Hload Hn. unfold WaterTracker.get_last_n_days_totals, range_down.
  rewrite Hload; cbn [bind].
  replace (Z.to_nat n) with O by lia. reflexivity.
Qed.

Lemma count_pos_bound (l : list Z) :
  (List.length (filter (fun amount => amount >? 0) l) <= List.length l)%nat.
Proof.
  induction l as [|a l IH]; simpl; [lia|]. destruct (a >? 0); simpl; lia.
Qed.

Lemma count_pos_full (l : list Z) :
  List.length (filter (fun amount => amount >? 0) l) = List.length l ->
  forall a, In a l -> 0 < a.
Proof.
  induction l as [|a l IH]; simpl; intros Hlen x Hx; [contradiction|].
  pose proof (count_pos_bound l) as Hb.
  destruct (a >? 0) eqn:Ha; simpl in Hlen; [|lia].
  destruct Hx as [<-|Hx]; [lia | apply IH; [lia | assumption]].
Qed.




(** *** Goal, streak and percentage *)

Lemma streak_loop_ge (data : DailyLog) (goal : Z) (today : Calendar.date)
  (idxs : list nat) (s k : nat) :
  WaterTracker.streak_loop data goal today idxs s = Ok k -> (s <= k)%nat.
Proof.
  revert s; induction idxs as [|i rest IH]; intros s; cbn [WaterTracker.streak_loop].
  - intros [= <-]. lia.
  - destruct (Calendar.minus_days today i) as [d|e]; cbn [bind]; [|discriminate].
    destruct (daily_total data (Calendar.isoformat d) >=? goal).
    + intros H. apply IH in H. lia.
    + intros [= <-]. lia.
Qed.

(** X12.  Today's goal is achieved exactly when the current streak is not zero:
    [is_goal_achieved(g)] and [get_streak_count(g) >= 1] agree. *)
Theorem is_goal_achieved_streak (goal : Z) (today : Calendar.date) (st : store)
  (k : nat) :
  WaterTracker.get_streak_count goal today st = Ok k ->
  WaterTracker.is_goal_achieved goal (Calendar.isoformat today) st = Ok (0 <? k)%nat.
Proof.
  unfold WaterTracker.get_streak_count, WaterTracker.is_goal_achieved.
  destruct (WaterTracker.load_water_log st) as [data|e] eqn:Hload; cbn [bind];
    [|discriminate].
  rewrite (get_today_total_spec _ _ _ Hload); cbn [bind].
  change (seq 0 365) with (O :: seq 1 364).
  cbn [WaterTracker.streak_loop Calendar.minus_days bind].
  destruct (daily_total data (Calendar.isoformat today) >=? goal).
  - intros H. apply streak_loop_ge in H. f_equal. symmetry. apply Nat.ltb_lt. lia.
  - intros [= <-]. reflexivity.
Qed.

Lemma is_goal_achieved_streak_witness :
  WaterTracker.is_goal_achieved 100 "2024-01-02" (Samples.store_of Samples.two_days)
  = Ok true.
Proof.
  exact (is_goal_achieved_streak 100 (Calendar.mkDate 2024 1 2)
           (Samples.store_of Samples.two_days) 2 eq_refl).
Defined.

Lemma round_half_even_ge (z : Z) (q : Q) :
  (inject_Z z <= q)%Q -> z <= round_half_even q.
Proof.
  intros H. unfold round_half_even.
  assert (Hf : z <= Qfloor q).
  { rewrite <- (Qfloor_Z z). apply Qfloor_resp_le. exact H. }
  destruct (Qcompare (q - inject_Z (Qfloor q)) (1 # 2)); [destruct (Z.even (Qfloor q))| |]; lia.
Qed.

Lemma round_half_even_le (z : Z) (q : Q) :
  (q <= inject_Z z)%Q -> round_half_even q <= z.
Proof.
  intros H. unfold round_half_even.
  pose proof (Qfloor_le q) as Hlo.
  assert (Hf : Qfloor q <= z).
  { rewrite <- (Qfloor_Z z). apply Qfloor_resp_le. exact H. }
  destruct (Z.eq_dec (Qfloor q) z) as [Heq|Hne].
  - assert (Hq : (q - inject_Z (Qfloor q) == 0)%Q).
    { rewrite Heq in *. apply Qle_antisym.
      - apply (Qplus_le_l _ _ (inject_Z z)). ring_simplify. exact H.
      - apply (Qplus_le_l _ _ (inject_Z z)). ring_simplify. exact Hlo. }
    rewrite Hq. cbn. lia.
  - destruct (Qcompare (q - inject_Z (Qfloor q)) (1 # 2));
      [destruct (Z.even (Qfloor q))| |]; lia.
Qed.

(** *** Intake by time of day *)

Lemma period_fold (parse : string -> result Z) (es : list entry) (p : WaterTracker.periods) :
  let p' := fold_left (WaterTracker.period_step parse) es p in
  WaterTracker.morning p' = WaterTracker.morning p + sum_amounts (filter (in_hours parse 5 12) es)
  /\ WaterTracker.afternoon p'
     = WaterTracker.afternoon p + sum_amounts (filter (in_hours parse 12 17) es)
  /\ WaterTracker.evening p'
     = WaterTracker.evening p + sum_amounts (filter (in_hours parse 17 21) es)
  /\ WaterTracker.night p'
     = WaterTracker.night p + sum_amounts (filter (out_of_hours parse 5 21) es).
Proof.
  revert p; induction es as [|e es IH]; intros p; cbn [fold_left filter].
  - rewrite sum_amounts_nil. cbv zeta. lia.
  - specialize (IH (WaterTracker.period_step parse p e)). cbv zeta in IH |- *.
    destruct IH as (Hm & Ha & He & Hn). rewrite Hm, Ha, He, Hn. clear Hm Ha He Hn.
    unfold WaterTracker.period_step, WaterTracker.entry_timestamp,
      in_hours, out_of_hours, entry_hour.
    destruct (timestamp e) as [t|]; cbn [bind]; [|lia].
    destruct (parse t) as [h|x]; [|lia].
    destruct (5 <=? h) eqn:E5; destruct (h <? 12) eqn:E12;
      destruct (12 <=? h) eqn:E12'; destruct (h <? 17) eqn:E17;
      destruct (17 <=? h) eqn:E17'; destruct (h <? 21) eqn:E21;
      try lia;
      cbn [andb negb WaterTracker.morning WaterTracker.afternoon WaterTracker.evening
           WaterTracker.night];
      rewrite ?sum_amounts_cons; lia.
Qed.

Lemma timed_split (parse : string -> result Z) (es : list entry) :
  sum_amounts (filter (timed parse) es)
  = sum_amounts (filter (in_hours parse 5 12) es)
    + sum_amounts (filter (in_hours parse 12 17) es)
    + sum_amounts (filter (in_hours parse 17 21) es)
    + sum_amounts (filter (out_of_hours parse 5 21) es).
Proof.
  induction es as [|e es IH]; [reflexivity|]. cbn [filter].
  unfold timed, in_hours, out_of_hours in *.
  destruct (entry_hour parse e) as [h|]; [|exact IH].
  rewrite sum_amounts_cons, IH.
  destruct (5 <=? h) eqn:E5; destruct (h <? 12) eqn:E12;
    destruct (12 <=? h) eqn:E12'; destruct (h <? 17) eqn:E17;
    destruct (17 <=? h) eqn:E17'; destruct (h <? 21) eqn:E21;
    try lia; cbn [andb negb]; rewrite ?sum_amounts_cons; lia.
Qed.

(** X14.  [get_intake_by_time_of_day()] puts each of today's entries whose time
    stamp is read into exactly one of the four periods: 5-12 morning, 12-17
    afternoon, 17-21 evening, every other hour night.  An entry whose time
    stamp is missing or unreadable is dropped without an error, so the four
    periods add up to the amounts of the timed entries, and to today's
    total when every entry is timed. *)
Theorem get_intake_by_time_of_day_spec (parse : string -> result Z) (today : string)
  (st : store) (data : DailyLog) :
  WaterTracker.load_water_log st = Ok data ->
  exists p,
    WaterTracker.get_intake_by_time_of_day parse today st = Ok p
    /\ WaterTracker.morning p
       = sum_amounts (filter (in_hours parse 5 12) (entries_of data today))
    /\ WaterTracker.afternoon p
       = sum_amounts (filter (in_hours parse 12 17) (entries_of data today))
    /\ WaterTracker.evening p
       = sum_amounts (filter (in_hours parse 17 21) (entries_of data today))
    /\ WaterTracker.night p
       = sum_amounts (filter (out_of_hours parse 5 21) (entries_of data today))
    /\ WaterTracker.morning p + WaterTracker.afternoon p + WaterTracker.evening p
       + WaterTracker.night p
       = sum_amounts (filter (timed parse) (entries_of data today))
    /\ (forallb (timed parse) (entries_of data today) = true ->
        WaterTracker.get_today_total today st
        = Ok (WaterTracker.morning p + WaterTracker.afternoon p + WaterTracker.evening p
              + WaterTracker.night p)).
Proof.
  intros Hload.
  unfold WaterTracker.get_intake_by_time_of_day, WaterTracker.get_today_entries.
  rewrite Hload; cbn [bind]. eexists. split; [reflexivity|].
  destruct (period_fold parse (entries_of data today) (WaterTracker.mkPeriods 0 0 0 0))
    as (Hm & Ha & He & Hn).
  cbn [WaterTracker.morning WaterTracker.afternoon WaterTracker.evening WaterTracker.night]
    in Hm, Ha, He, Hn.
  rewrite Hm, Ha, He, Hn, !Z.add_0_l.
  split; [reflexivity|]. split; [reflexivity|]. split; [reflexivity|].
  split; [reflexivity|]. split; [symmetry; apply timed_split|].
  intros Hall. rewrite (get_today_total_spec _ _ _ Hload). f_equal.
  rewrite <- timed_split, (forallb_filter_id _ _ Hall). reflexivity.
Qed.

Lemma get_intake_by_time_of_day_witness :
  exists p,
    WaterTracker.get_intake_by_time_of_day (fun _ => Ok 8) "2024-01-02"
      (Samples.store_of Samples.two_days) = Ok p
    /\ WaterTracker.morning p = daily_total Samples.two_days "2024-01-02".
Proof.
  destruct (get_intake_by_time_of_day_spec (fun _ => Ok 8) "2024-01-02"
              (Samples.store_of Samples.two_days) Samples.two_days eq_refl)
    as (p & Hp & Hm & _).
  exists p. split; [exact Hp | rewrite Hm; reflexivity].
Defined.

(** *** Reminder times *)

Lemma reminder_loop_steps (interval sleep_dt : Z) (n : nat) :
  0 < interval ->
  forall (fuel : nat) (cur : Z) (acc : list string),
    (n < fuel)%nat ->
    0 <= cur ->
    (forall k, (k < n)%nat -> cur + 60 * (interval * Z.of_nat k) < sleep_dt) ->
    sleep_dt <= cur + 60 * (interval * Z.of_nat n) ->
    cur + 60 * (interval * Z.of_nat n) < WaterTracker.datetime_range ->
    WaterTracker.reminder_loop fuel cur sleep_dt interval acc
    = Some (Ok (acc ++ map (fun k => WaterTracker.strftime_HM
                                       (cur + 60 * (interval * Z.of_nat k)))
                           (seq 0 n))%list).
Proof.
  intros Hpos. induction n as [|n IH]; intros fuel cur acc Hfuel Hcur Hbelow Hreach Hrange.
  - destruct fuel as [|fuel]; [lia|]. cbn [WaterTracker.reminder_loop].
    assert (Hge : (cur <? sleep_dt) = false) by lia.
    rewrite Hge. cbn [seq map]. rewrite app_nil_r. reflexivity.
  - destruct fuel as [|fuel]; [lia|]. cbn [WaterTracker.reminder_loop].
    assert (Hlt : (cur <? sleep_dt) = true).
    { specialize (Hbelow O ltac:(lia)). lia. }
    rewrite Hlt. unfold WaterTracker.add_hours.
    assert (Hin : ((0 <=? cur + 60 * interval)
                   && (cur + 60 * interval <? WaterTracker.datetime_range))%bool = true).
    { apply andb_true_iff. split; [lia|]. apply Z.ltb_lt. nia. }
    rewrite Hin.
    rewrite (IH fuel (cur + 60 * interval) (acc ++ [WaterTracker.strftime_HM cur])%list).
    + rewrite <- app_assoc. cbn [app seq map].
      replace (cur + 60 * (interval * Z.of_nat 0)) with cur by lia.
      rewrite <- seq_shift, map_map.
      rewrite (map_ext (fun k => WaterTracker.strftime_HM
                                   (cur + 60 * interval + 60 * (interval * Z.of_nat k)))
                       (fun k => WaterTracker.strftime_HM
                                   (cur + 60 * (interval * Z.of_nat (S k)))));
        [reflexivity|].
      intros k. f_equal. lia.
    + lia.
    + lia.
    + intros k Hk. specialize (Hbelow (S k) ltac:(lia)). lia.
    + lia.
    + lia.
Qed.

Lemma strftime_HM_same_day (base hour minute : Z) :
  0 <= hour -> 0 <= minute < 60 -> hour * 60 + minute < 1440 ->
  WaterTracker.strftime_HM (base * 1440 + hour * 60 + minute)
  = PyStr.fmt2 hour ++ ":" ++ PyStr.fmt2 minute.
Proof.
  intros Hh Hm Hday. unfold WaterTracker.strftime_HM.
  assert (H1 : (base * 1440 + hour * 60 + minute) mod 1440 / 60 = hour)
    by (Z.to_euclidean_division_equations; lia).
  assert (H2 : (base * 1440 + hour * 60 + minute) mod 60 = minute)
    by (Z.to_euclidean_division_equations; lia).
  rewrite H1, H2. reflexivity.
Qed.

(** X15.  With a positive interval, [get_hydration_reminder_times] returns the
    wake time moved forward by 0, 1, ..., n-1 intervals, where [n] is the
    least count whose time is not before the sleep time: every reminder is
    before the sleep time, all carry the minutes of the wake time, and a
    sleep time that is not after the wake time gives the empty list. *)
Theorem get_hydration_reminder_times_spec (py_int : string -> result Z)
  (wake_time sleep_time : string) (interval_hours today_ordinal : Z)
  (wh wm sh sm : Z) (n : nat) :
  WaterTracker.parse_hour_minute py_int wake_time = Ok (wh, wm) ->
  WaterTracker.parse_hour_minute py_int sleep_time = Ok (sh, sm) ->
  0 <= wh < 24 -> 0 <= wm < 60 -> 0 <= sh < 24 -> 0 <= sm < 60 ->
  1 <= today_ordinal ->
  today_ordinal * 1440 + 60 * interval_hours <= WaterTracker.datetime_range ->
  0 < interval_hours ->
  (forall k, (k < n)%nat ->
     (wh + interval_hours * Z.of_nat k) * 60 + wm < sh * 60 + sm) ->
  sh * 60 + sm <= (wh + interval_hours * Z.of_nat n) * 60 + wm ->
  forall fuel, (n < fuel)%nat ->
    WaterTracker.get_hydration_reminder_times py_int fuel wake_time sleep_time
      interval_hours today_ordinal
    = Some (Ok (map (fun k => PyStr.fmt2 (wh + interval_hours * Z.of_nat k)
                              ++ ":" ++ PyStr.fmt2 wm)
                    (seq 0 n))).
Proof.
  intros Hw Hs Hwh Hwm Hsh Hsm Hord Hmax Hpos Hbelow Hreach fuel Hfuel.
  unfold WaterTracker.get_hydration_reminder_times, WaterTracker.combine.
  rewrite Hw, Hs.
  assert (Hcw : ((0 <=? wh) && (wh <? 24) && (0 <=? wm) && (wm <? 60))%bool = true).
  { rewrite !andb_true_iff. lia. }
  assert (Hcs : ((0 <=? sh) && (sh <? 24) && (0 <=? sm) && (sm <? 60))%bool = true).
  { rewrite !andb_true_iff. lia. }
  rewrite Hcw, Hcs.
  rewrite (reminder_loop_steps interval_hours _ n Hpos fuel _ [] Hfuel).
  - cbn [app]. do 2 f_equal. apply map_ext_in. intros k Hk.
    apply in_seq in Hk. specialize (Hbelow k ltac:(lia)).
    replace ((today_ordinal - 1) * 1440 + wh * 60 + wm
             + 60 * (interval_hours * Z.of_nat k))
      with ((today_ordinal - 1) * 1440 + (wh + interval_hours * Z.of_nat k) * 60 + wm)
      by lia.
    apply strftime_HM_same_day; nia.
  - nia.
  - intros k Hk. specialize (Hbelow k Hk). lia.
  - lia.
  - destruct n as [|n].
    + unfold WaterTracker.datetime_range in *. nia.
    + specialize (Hbelow n ltac:(lia)). unfold WaterTracker.datetime_range in *. nia.
Qed.

Lemma get_hydration_reminder_times_witness :
  WaterTracker.get_hydration_reminder_times
    (fun s => WaterTracker.int_text_float (Some s)) 20 "07:00" "23:00" 2 738886
  = Some (Ok ["07:00"; "09:00"; "11:00"; "13:00"; "15:00"; "17:00"; "19:00"; "21:00"]).
Proof.
  rewrite (get_hydration_reminder_times_spec
             (fun s => WaterTracker.int_text_float (Some s))
             "07:00" "23:00" 2 738886 7 0 23 0 8).
  - reflexivity.
  - reflexivity.
  - reflexivity.
  - lia.
  - lia.
  - lia.
  - lia.
  - lia.
  - vm_compute. discriminate.
  - lia.
  - intros k Hk. lia.
  - lia.
  - lia.
Defined.

Lemma reminder_loop_stuck (sleep_dt : Z) (fuel : nat) :
  forall (cur : Z) (acc : list string),
    0 <= cur < WaterTracker.datetime_range -> cur < sleep_dt ->
    WaterTracker.reminder_loop fuel cur sleep_dt 0 acc = None.
Proof.
  induction fuel as [|fuel IH]; intros cur acc Hcur Hlt; [reflexivity|].
  cbn [WaterTracker.reminder_loop].
  assert (Hb : (cur <? sleep_dt) = true) by lia. rewrite Hb.
  unfold WaterTracker.add_hours.
  assert (Hin : ((0 <=? cur + 60 * 0)
                 && (cur + 60 * 0 <? WaterTracker.datetime_range))%bool = true).
  { apply andb_true_iff. split; lia. }
  rewrite Hin. apply IH; lia.
Qed.

(** X16.  With [interval_hours = 0] and a wake time before the sleep time the
    loop of [get_hydration_reminder_times] never ends: the current time
    stays at the wake time, so no number of iterations lets the call
    return (or raise). *)
Theorem get_hydration_reminder_times_zero_interval (py_int : string -> result Z)
  (wake_time sleep_time : string) (today_ordinal : Z) (wh wm sh sm : Z) :
  WaterTracker.parse_hour_minute py_int wake_time = Ok (wh, wm) ->
  WaterTracker.parse_hour_minute py_int sleep_time = Ok (sh, sm) ->
  0 <= wh < 24 -> 0 <= wm < 60 -> 0 <= sh < 24 -> 0 <= sm < 60 ->
  1 <= today_ordinal <= 3652059 ->
  wh * 60 + wm < sh * 60 + sm ->
  forall fuel,
    WaterTracker.get_hydration_reminder_times py_int fuel wake_time sleep_time
      0 today_ordinal = None.
Proof.
  intros Hw Hs Hwh Hwm Hsh Hsm Hord Hlt fuel.
  unfold WaterTracker.get_hydration_reminder_times, WaterTracker.combine.
  rewrite Hw, Hs.
  assert (Hcw : ((0 <=? wh) && (wh <? 24) && (0 <=? wm) && (wm <? 60))%bool = true).
  { rewrite !andb_true_iff. lia. }
  assert (Hcs : ((0 <=? sh) && (sh <? 24) && (0 <=? sm) && (sm <? 60))%bool = true).
  { rewrite !andb_true_iff. lia. }
  rewrite Hcw, Hcs.
  apply reminder_loop_stuck; unfold WaterTracker.datetime_range; lia.
Qed.

Lemma get_hydration_reminder_times_zero_interval_witness :
  WaterTracker.get_hydration_reminder_times
    (fun s => WaterTracker.int_text_float (Some s)) 1000 "07:00" "23:00" 0 738886 = None.
Proof.
  apply (get_hydration_reminder_times_zero_interval
           (fun s => WaterTracker.int_text_float (Some s))
           "07:00" "23:00" 738886 7 0 23 0); try reflexivity; lia.
Defined.

(** *** All-time counts *)




(** *** What the export writes and what the import adds *)

Lemma import_row_appends (py_float : option string -> result Z) (data data' : DailyLog)
  (row : Csv.dict_row) :
  WaterTracker.import_row py_float data row = Ok data' ->
  exists k e, data' = WaterTracker.append_entry data k e.
Proof.
  unfold WaterTracker.import_row.
  destruct (Csv.getitem row "Date") as [dc|]; cbn [bind]; [|discriminate].
  destruct (Csv.getitem row "Amount (ml)") as [ac|]; cbn [bind]; [|discriminate].
  destruct (py_float ac) as [a|]; cbn [bind]; [|discriminate].
  destruct (Csv.getitem row "Timestamp") as [ts|]; cbn [bind]; [|discriminate].
  intros [= <-]. eauto.
Qed.

Lemma import_rows_appends (py_float : option string -> result Z)
  (rows : list Csv.dict_row) :
  forall data data',
    WaterTracker.import_rows py_float data rows = Ok data' ->
    entry_count data' = (entry_count data + List.length rows)%nat
    /\ forall k, exists added,
         entries_of data' k = (entries_of data k ++ added)%list.
Proof.
  induction rows as [|row rows IH]; intros data data'; cbn [WaterTracker.import_rows].
  - intros [= <-]. split; [cbn; lia|]. intros k. exists []. rewrite app_nil_r. reflexivity.
  - destruct (WaterTracker.import_row py_float data row) as [d1|] eqn:Hrow; cbn [bind];
      [|discriminate].
    intros Hrest. destruct (IH _ _ Hrest) as [Hcnt Hpre].
    apply import_row_appends in Hrow as (k0 & e & ->).
    rewrite entry_count_append in Hcnt.
    split; [rewrite Hcnt; cbn [List.length]; lia|].
    intros k. destruct (Hpre k) as [added Hadded]. rewrite Hadded.
    destruct (String.eqb_spec k0 k) as [->|Hne].
    + rewrite entries_of_append_eq, <- app_assoc. eauto.
    + rewrite entries_of_append_ne by assumption. eauto.
Qed.

(** *** The keys of the monthly data *)

Lemma forallb_py_range (p : Z -> bool) (lo hi z : Z) :
  forallb p (py_range lo hi) = true -> lo <= z < hi -> p z = true.
Proof.
  intros H Hz. rewrite forallb_forall in H. apply H, in_py_range, Hz.
Qed.

Lemma str_fmt4 (y : Z) : 1000 <= y <= 9999 -> PyStr.str y = PyStr.fmt4 y.
Proof.
  intros Hy. apply String.eqb_eq.
  apply (forallb_py_range (fun z => String.eqb (PyStr.str z) (PyStr.fmt4 z)) 1000 10000);
    [vm_compute; reflexivity | lia].
Qed.

Lemma format_02d_fmt2 (z : Z) : 0 <= z <= 99 -> PyStr.format_02d z = PyStr.fmt2 z.
Proof.
  intros Hz. apply String.eqb_eq.
  apply (forallb_py_range (fun z => String.eqb (PyStr.format_02d z) (PyStr.fmt2 z)) 0 100);
    [vm_compute; reflexivity | lia].
Qed.

(** From the year 1000 on, the key that [get_monthly_data] builds for a day
    is the ISO text of the date, that is the key under which the logging
    functions file the day. *)
Lemma month_key_isoformat (d : Calendar.date) :
  Calendar.valid d = true -> 1000 <= Calendar.year d ->
  WaterTracker.month_key (Calendar.year d) (Calendar.month d) (Calendar.day d)
  = Calendar.isoformat d.
Proof.
  intros Hv Hy. apply valid_iff in Hv as (Hyr & Hm & Hd).
  destruct (monthrange_ndays_valid (Calendar.year d) (Calendar.month d) Hm) as (_ & Hb & _).
  unfold WaterTracker.month_key, Calendar.isoformat.
  rewrite str_fmt4, !format_02d_fmt2 by lia. reflexivity.
Qed.

Lemma dict_get_map_key (key : Z -> string) (val : string -> Z) (l : list Z) (z : Z) :
  In z l ->
  Dict.get (map (fun d => (key d, val (key d))) l) (key z) = Some (val (key z)).
Proof.
  induction l as [|a l IH]; [intros []|]. intros Hin. cbn [map Dict.get].
  destruct (String.eqb_spec (key a) (key z)) as [E|E].
  - rewrite E. reflexivity.
  - destruct Hin as [->|Hin]; [congruence | apply IH; assumption].
Qed.

(** X20.  [get_monthly_data] and [get_monthly_statistics] raise
    [calendar.IllegalMonthError] for a month outside 1..12.  For a date
    from the year 1000 on, the monthly data of its month holds, under the
    ISO text of the date, the total that [get_total_for_date] reports for
    it. *)
Theorem get_monthly_data_keys (st : store) (data : DailyLog) :
  WaterTracker.load_water_log st = Ok data ->
  (forall y m, ~ 1 <= m <= 12 ->
     WaterTracker.get_monthly_data y m st = Raise IllegalMonthError
     /\ WaterTracker.get_monthly_statistics y m st = Raise IllegalMonthError)
  /\ (forall d, Calendar.valid d = true -> 1000 <= Calendar.year d ->
        exists month_data,
          WaterTracker.get_monthly_data (Calendar.year d) (Calendar.month d) st
          = Ok month_data
          /\ Dict.get month_data (Calendar.isoformat d)
             = Some (daily_total data (Calendar.isoformat d))
          /\ WaterTracker.get_total_for_date (Calendar.isoformat d) st
             = Ok (daily_total data (Calendar.isoformat d))).
Proof.
  intros Hload. split.
  - intros y m Hm.
    assert (Hr : Calendar.monthrange_ndays y m = Raise IllegalMonthError).
    { unfold Calendar.monthrange_ndays.
      destruct ((1 <=? m) && (m <=? 12))%bool eqn:E; [|reflexivity].
      apply andb_true_iff in E. lia. }
    unfold WaterTracker.get_monthly_statistics, WaterTracker.get_monthly_data.
    rewrite Hload, Hr. split; reflexivity.
  - intros d Hv Hy. pose proof Hv as Hv'.
    apply valid_iff in Hv' as (Hyr & Hm & Hd).
    rewrite (get_monthly_data_spec _ _ st data Hload Hm).
    eexists. split; [reflexivity|].
    rewrite <- (month_key_isoformat d Hv Hy).
    split.
    + apply (dict_get_map_key
               (WaterTracker.month_key (Calendar.year d) (Calendar.month d))
               (daily_total data)).
      apply in_py_range. lia.
    + apply (get_today_total_spec _ st data Hload).
Qed.

Lemma get_monthly_data_keys_witness :
  exists month_data,
    WaterTracker.get_monthly_data 2024 1 (Samples.store_of Samples.two_days) = Ok month_data
    /\ Dict.get month_data "2024-01-02" = Some (daily_total Samples.two_days "2024-01-02").
Proof.
  destruct (proj2 (get_monthly_data_keys (Samples.store_of Samples.two_days)
                     Samples.two_days eq_refl) (Calendar.mkDate 2024 1 2) eq_refl ltac:(cbn; lia))
    as (md & H1 & H2 & _).
  exists md. split; [exact H1 | exact H2].
Defined.

(** ** Rounding to a double

    Bounds on [Float64.round]: it moves a rational by at most half a unit in
    the last place and never across an integer of magnitude below [2^53]. *)

Section Float64Facts.

Local Open Scope Q_scope.

Lemma pow2_pos (e : Z) : 0 < Float64.pow2 e.
Proof. apply Qpower_0_lt. reflexivity. Qed.

Lemma pow2_add (a b : Z) : Float64.pow2 (a + b) == Float64.pow2 a * Float64.pow2 b.
Proof. apply Qpower_plus. discriminate. Qed.

Lemma pow2_le (a b : Z) : (a <= b)%Z -> Float64.pow2 a <= Float64.pow2 b.
Proof. intros H. apply Qpower_le_compat_l; [exact H | discriminate]. Qed.

Lemma pow2_lt (a b : Z) : (a < b)%Z -> Float64.pow2 a < Float64.pow2 b.
Proof. intros H. apply Qpower_lt_compat_l; [exact H | reflexivity]. Qed.

Lemma pow2_le_inv (a b : Z) : Float64.pow2 a <= Float64.pow2 b -> (a <= b)%Z.
Proof. intros H. apply (Qpower_le_compat_l_inv 2); [exact H | reflexivity]. Qed.

Lemma pow2_lt_inv (a b : Z) : Float64.pow2 a < Float64.pow2 b -> (a < b)%Z.
Proof. intros H. apply (Qpower_lt_compat_l_inv 2); [exact H | reflexivity]. Qed.

Lemma pow2_Z (k : Z) : (0 <= k)%Z -> Float64.pow2 k == inject_Z (2 ^ k).
Proof. intros H. unfold Float64.pow2. rewrite (Zpower_Qpower 2 k H). reflexivity. Qed.

Lemma pow2_succ (a : Z) : Float64.pow2 (a + 1) == 2 * Float64.pow2 a.
Proof. rewrite pow2_add. change (Float64.pow2 1) with 2. ring. Qed.

Lemma ilog2_window (K A B N D q : Q) :
  K * B == A -> q * D == N -> A <= N -> N < 2 * A -> B <= D -> D < 2 * B ->
  0 < K -> 0 < B -> 0 < D ->
  (K <= q -> q < 2 * K) /\ (q < K -> K <= 2 * q).
Proof.
  intros HK Hqd HA1 HA2 HB1 HB2 HKpos HBpos HD. split; intros E.
  - apply Qnot_le_lt. intros Hc.
    assert (H1 : 2 * K * D <= q * D) by (apply Qmult_le_compat_r; [exact Hc | lra]).
    assert (H2 : K * B <= K * D) by (rewrite !(Qmult_comm K); apply Qmult_le_compat_r; lra).
    lra.
  - apply Qnot_lt_le. intros Hc.
    assert (H1 : 2 * q * D <= K * D) by (apply Qmult_le_compat_r; lra).
    assert (H2 : K * D <= K * (2 * B)) by (rewrite !(Qmult_comm K); apply Qmult_le_compat_r; lra).
    assert (H3 : K * D < K * (2 * B)).
    { rewrite !(Qmult_comm K). apply Qmult_lt_compat_r; lra. }
    lra.
Qed.

Lemma ilog2_spec (q : Q) :
  0 < q -> Float64.pow2 (Float64.ilog2 q) <= q /\ q < Float64.pow2 (Float64.ilog2 q + 1).
Proof.
  intros Hq. destruct q as [n d]. unfold Float64.ilog2. cbn [Qnum Qden].
  assert (Hn : (0 < n)%Z) by (unfold Qlt in Hq; simpl in Hq; lia).
  set (a := Z.log2 n). set (b := Z.log2 (Z.pos d)).
  destruct (Z.log2_spec n Hn) as [Ha1 Ha2]. fold a in Ha1, Ha2.
  destruct (Z.log2_spec (Z.pos d) (Pos2Z.is_pos d)) as [Hb1 Hb2]. fold b in Hb1, Hb2.
  assert (Ha0 : (0 <= a)%Z) by apply Z.log2_nonneg.
  assert (Hb0 : (0 <= b)%Z) by apply Z.log2_nonneg.
  pose proof (pow2_Z a Ha0) as EA. pose proof (pow2_Z b Hb0) as EB.
  assert (HA1 : Float64.pow2 a <= inject_Z n) by (rewrite EA, <- Zle_Qle; exact Ha1).
  assert (HA2 : inject_Z n < 2 * Float64.pow2 a).
  { rewrite <- pow2_succ, pow2_Z by lia. rewrite <- Zlt_Qlt. exact Ha2. }
  assert (HB1 : Float64.pow2 b <= inject_Z (Z.pos d)) by (rewrite EB, <- Zle_Qle; exact Hb1).
  assert (HB2 : inject_Z (Z.pos d) < 2 * Float64.pow2 b).
  { rewrite <- pow2_succ, pow2_Z by lia. rewrite <- Zlt_Qlt. exact Hb2. }
  assert (HK : Float64.pow2 (a - b) * Float64.pow2 b == Float64.pow2 a).
  { rewrite <- pow2_add. replace (a - b + b)%Z with a by lia. reflexivity. }
  assert (Hqd : (n # d) * inject_Z (Z.pos d) == inject_Z n).
  { unfold Qeq, Qmult, inject_Z. simpl. lia. }
  assert (HD : 0 < inject_Z (Z.pos d)) by (unfold Qlt; simpl; lia).
  destruct (ilog2_window _ _ _ _ _ _ HK Hqd HA1 HA2 HB1 HB2 (pow2_pos _) (pow2_pos _) HD)
    as [Hup Hdown].
  destruct (Qle_bool (Float64.pow2 (a - b)) (n # d)) eqn:E.
  - apply Qle_bool_iff in E. split; [exact E|].
    rewrite pow2_succ. apply Hup. exact E.
  - assert (E' : n # d < Float64.pow2 (a - b)).
    { apply Qnot_le_lt. intros Hc. apply Qle_bool_iff in Hc. congruence. }
    replace (a - b - 1 + 1)%Z with (a - b)%Z by lia. split; [|exact E'].
    specialize (Hdown E').
    assert (HK2 : 2 * Float64.pow2 (a - b - 1) == Float64.pow2 (a - b)).
    { rewrite <- pow2_succ. replace (a - b - 1 + 1)%Z with (a - b)%Z by lia. reflexivity. }
    lra.
Qed.

Lemma round_half_even_near (q : Q) :
  inject_Z (round_half_even q) - q <= 1 # 2 /\ q - inject_Z (round_half_even q) <= 1 # 2.
Proof.
  unfold round_half_even.
  pose proof (Qfloor_le q) as Hlo. pose proof (Qlt_floor q) as Hhi.
  rewrite inject_Z_plus in Hhi. change (inject_Z 1) with 1 in Hhi.
  destruct (Qcompare (q - inject_Z (Qfloor q)) (1 # 2)) eqn:E.
  - apply Qeq_alt in E.
    destruct (Z.even (Qfloor q)); [|rewrite inject_Z_plus; change (inject_Z 1) with 1]; lra.
  - apply Qlt_alt in E. lra.
  - apply Qgt_alt in E. rewrite inject_Z_plus. change (inject_Z 1) with 1. lra.
Qed.


Ltac qcompare_in H :=
  first [apply Qeq_alt in H | apply Qlt_alt in H | apply Qgt_alt in H].

Lemma round_half_even_mono (p q : Q) : p <= q -> (round_half_even p <= round_half_even q)%Z.
Proof.
  intros H. pose proof (Qfloor_resp_le _ _ H) as Hf.
  destruct (Z.eq_dec (Qfloor p) (Qfloor q)) as [Heq|Hne].
  - unfold round_half_even. rewrite Heq.
    destruct (Qcompare (p - inject_Z (Qfloor q)) (1 # 2)) eqn:Ep;
      destruct (Qcompare (q - inject_Z (Qfloor q)) (1 # 2)) eqn:Eq;
      try (destruct (Z.even (Qfloor q))); try lia;
      qcompare_in Ep; qcompare_in Eq; exfalso; lra.
  - assert (Hp : (round_half_even p <= Qfloor p + 1)%Z).
    { unfold round_half_even.
      destruct (Qcompare _ _); [destruct (Z.even _)| |]; lia. }
    assert (Hq : (Qfloor q <= round_half_even q)%Z).
    { unfold round_half_even.
      destruct (Qcompare _ _); [destruct (Z.even _)| |]; lia. }
    lia.
Qed.

Lemma quantum_ge (q : Q) : (-1074 <= Float64.quantum q)%Z.
Proof. unfold Float64.quantum. lia. Qed.

Lemma scaled_pow2 (q : Q) (e : Z) : q / Float64.pow2 e * Float64.pow2 e == q.
Proof. field. pose proof (pow2_pos e). lra. Qed.

(** The rounding error is at most half a quantum. *)
Lemma round_pos_near (q : Q) :
  Qabs (Float64.round_pos q - q) <= (1 # 2) * Float64.pow2 (Float64.quantum q).
Proof.
  unfold Float64.round_pos. set (u := Float64.pow2 (Float64.quantum q)).
  assert (Hu : 0 < u) by apply pow2_pos.
  destruct (round_half_even_near (q / u)) as [H1 H2].
  set (m := inject_Z (round_half_even (q / u))) in *.
  assert (E : q == q / u * u) by (field; lra).
  clearbody m u. set (s := q / u) in *. clearbody s.
  apply Qabs_Qle_condition. split.
  - assert (H : (s - m) * u <= (1 # 2) * u) by (apply Qmult_le_compat_r; lra).
    lra.
  - assert (H : (m - s) * u <= (1 # 2) * u) by (apply Qmult_le_compat_r; lra).
    lra.
Qed.

Lemma quantum_small (q : Q) :
  0 < q -> Float64.pow2 (Float64.quantum q) <= q * Float64.pow2 (-52) + Float64.pow2 (-1074).
Proof.
  intros Hq. unfold Float64.quantum.
  destruct (ilog2_spec q Hq) as [Hlo _].
  pose proof (pow2_pos (-1074)) as H1. pose proof (pow2_pos (-52)) as H2.
  destruct (Z.max_spec (Float64.ilog2 q - 52) (-1074)) as [[_ ->]|[_ ->]].
  - assert (0 <= q * Float64.pow2 (-52)) by (apply Qmult_le_0_compat; lra). lra.
  - replace (Float64.ilog2 q - 52)%Z with (Float64.ilog2 q + -52)%Z by lia.
    rewrite pow2_add.
    assert (Float64.pow2 (Float64.ilog2 q) * Float64.pow2 (-52) <= q * Float64.pow2 (-52))
      by (apply Qmult_le_compat_r; lra).
    lra.
Qed.

Lemma round_pos_nonneg (q : Q) : 0 < q -> 0 <= Float64.round_pos q.
Proof.
  intros Hq. unfold Float64.round_pos.
  pose proof (pow2_pos (Float64.quantum q)) as Hu.
  apply Qmult_le_0_compat; [|lra].
  change 0 with (inject_Z 0). rewrite <- Zle_Qle. apply round_half_even_ge.
  apply Qle_shift_div_l; [exact Hu|]. change (inject_Z 0) with 0. lra.
Qed.

(** A positive value below a power of two is rounded to at most that power. *)
Lemma round_pos_le_pow2 (q : Q) (k : Z) :
  0 < q -> q <= Float64.pow2 k -> (-1074 <= k)%Z -> Float64.round_pos q <= Float64.pow2 k.
Proof.
  intros Hq Hk Hmin. destruct (ilog2_spec q Hq) as [Hlo _].
  assert (Hi : (Float64.ilog2 q <= k)%Z) by (apply pow2_le_inv; lra).
  assert (He : (Float64.quantum q <= k)%Z) by (unfold Float64.quantum; lia).
  unfold Float64.round_pos. set (e := Float64.quantum q) in *.
  pose proof (pow2_pos e) as Hu.
  assert (Hs : q / Float64.pow2 e <= inject_Z (2 ^ (k - e))).
  { rewrite <- pow2_Z by lia. apply Qle_shift_div_r; [exact Hu|].
    rewrite <- pow2_add. replace (k - e + e)%Z with k by lia. exact Hk. }
  apply round_half_even_le in Hs. rewrite Zle_Qle, <- pow2_Z in Hs by lia.
  assert (H : inject_Z (round_half_even (q / Float64.pow2 e)) * Float64.pow2 e
              <= Float64.pow2 (k - e) * Float64.pow2 e)
    by (apply Qmult_le_compat_r; lra).
  rewrite <- pow2_add in H. replace (k - e + e)%Z with k in H by lia. exact H.
Qed.

(** A value at or above a power of two is rounded to at least that power. *)
Lemma round_pos_ge_pow2 (q : Q) (k : Z) :
  Float64.pow2 k <= q -> (-1074 <= k)%Z -> Float64.pow2 k <= Float64.round_pos q.
Proof.
  intros Hk Hmin. pose proof (pow2_pos k) as Hkp.
  assert (Hq : 0 < q) by lra.
  destruct (ilog2_spec q Hq) as [Hlo Hhi].
  unfold Float64.round_pos. set (e := Float64.quantum q).
  pose proof (pow2_pos e) as Hu.
  destruct (Z_le_gt_dec e k) as [Hek|Hek].
  - assert (Hs : inject_Z (2 ^ (k - e)) <= q / Float64.pow2 e).
    { rewrite <- pow2_Z by lia. apply Qle_shift_div_l; [exact Hu|].
      rewrite <- pow2_add. replace (k - e + e)%Z with k by lia. exact Hk. }
    apply round_half_even_ge in Hs. rewrite Zle_Qle, <- pow2_Z in Hs by lia.
    assert (H : Float64.pow2 (k - e) * Float64.pow2 e
                <= inject_Z (round_half_even (q / Float64.pow2 e)) * Float64.pow2 e)
      by (apply Qmult_le_compat_r; lra).
    rewrite <- pow2_add in H. replace (k - e + e)%Z with k in H by lia. exact H.
  - assert (Ee : e = (Float64.ilog2 q - 52)%Z) by (unfold e, Float64.quantum in *; lia).
    assert (Hs : inject_Z (2 ^ 52) <= q / Float64.pow2 e).
    { rewrite <- pow2_Z by lia. apply Qle_shift_div_l; [exact Hu|].
      rewrite <- pow2_add. replace (52 + e)%Z with (Float64.ilog2 q) by lia. exact Hlo. }
    apply round_half_even_ge in Hs. rewrite Zle_Qle, <- pow2_Z in Hs by lia.
    assert (H : Float64.pow2 52 * Float64.pow2 e
                <= inject_Z (round_half_even (q / Float64.pow2 e)) * Float64.pow2 e)
      by (apply Qmult_le_compat_r; lra).
    rewrite <- pow2_add in H.
    assert (Float64.pow2 k <= Float64.pow2 (52 + e)) by (apply pow2_le; lia).
    lra.
Qed.

Lemma pow2_inv_scale (e : Z) : Float64.pow2 (- e) * Float64.pow2 e == 1.
Proof. rewrite <- pow2_add. replace (- e + e)%Z with 0%Z by lia. reflexivity. Qed.

Lemma quantum_le_0 (q : Q) : 0 < q -> q < Float64.pow2 53 -> (Float64.quantum q <= 0)%Z.
Proof.
  intros Hq Hlt. destruct (ilog2_spec q Hq) as [Hlo _].
  assert (Float64.ilog2 q < 53)%Z by (apply pow2_lt_inv; lra).
  unfold Float64.quantum. lia.
Qed.

(** Integers below 2^53 are doubles: rounding does not cross them. *)
Lemma round_pos_ge_int (q : Q) (z : Z) :
  (0 < z <= 2 ^ 53)%Z -> inject_Z z <= q -> inject_Z z <= Float64.round_pos q.
Proof.
  intros Hz Hq.
  assert (Hz0 : 0 < inject_Z z) by (change 0 with (inject_Z 0); rewrite <- Zlt_Qlt; lia).
  assert (Hq0 : 0 < q) by lra.
  destruct (ilog2_spec q Hq0) as [Hlo _].
  unfold Float64.round_pos. set (e := Float64.quantum q).
  pose proof (pow2_pos e) as Hu.
  destruct (Z_le_gt_dec e 0) as [He|He].
  - assert (Hs : inject_Z (z * 2 ^ (- e)) <= q / Float64.pow2 e).
    { apply Qle_shift_div_l; [exact Hu|].
      rewrite inject_Z_mult, <- pow2_Z by lia.
      rewrite <- Qmult_assoc, pow2_inv_scale. lra. }
    apply round_half_even_ge in Hs. rewrite Zle_Qle, inject_Z_mult, <- pow2_Z in Hs by lia.
    assert (H : inject_Z z * Float64.pow2 (- e) * Float64.pow2 e
                <= inject_Z (round_half_even (q / Float64.pow2 e)) * Float64.pow2 e)
      by (apply Qmult_le_compat_r; lra).
    rewrite <- Qmult_assoc, pow2_inv_scale in H. lra.
  - assert (Ee : e = (Float64.ilog2 q - 52)%Z) by (unfold e, Float64.quantum in *; lia).
    assert (Hs : inject_Z (2 ^ 52) <= q / Float64.pow2 e).
    { rewrite <- pow2_Z by lia. apply Qle_shift_div_l; [exact Hu|].
      rewrite <- pow2_add. replace (52 + e)%Z with (Float64.ilog2 q) by lia. exact Hlo. }
    apply round_half_even_ge in Hs. rewrite Zle_Qle, <- pow2_Z in Hs by lia.
    assert (H : Float64.pow2 52 * Float64.pow2 e
                <= inject_Z (round_half_even (q / Float64.pow2 e)) * Float64.pow2 e)
      by (apply Qmult_le_compat_r; lra).
    rewrite <- pow2_add in H.
    assert (H53 : Float64.pow2 53 <= Float64.pow2 (52 + e)) by (apply pow2_le; lia).
    assert (Hz53 : inject_Z z <= Float64.pow2 53).
    { rewrite pow2_Z by lia. rewrite <- Zle_Qle. lia. }
    lra.
Qed.

Lemma round_pos_le_int (q : Q) (z : Z) :
  (z < 2 ^ 53)%Z -> 0 < q -> q <= inject_Z z -> Float64.round_pos q <= inject_Z z.
Proof.
  intros Hz Hq0 Hq.
  assert (Hz53 : inject_Z z < Float64.pow2 53).
  { rewrite pow2_Z by lia. rewrite <- Zlt_Qlt. lia. }
  assert (He : (Float64.quantum q <= 0)%Z) by (apply quantum_le_0; lra).
  unfold Float64.round_pos. set (e := Float64.quantum q) in *.
  pose proof (pow2_pos e) as Hu.
  assert (Hs : q / Float64.pow2 e <= inject_Z (z * 2 ^ (- e))).
  { apply Qle_shift_div_r; [exact Hu|].
    rewrite inject_Z_mult, <- pow2_Z by lia.
    rewrite <- Qmult_assoc, pow2_inv_scale. lra. }
  apply round_half_even_le in Hs. rewrite Zle_Qle, inject_Z_mult, <- pow2_Z in Hs by lia.
  assert (H : inject_Z (round_half_even (q / Float64.pow2 e)) * Float64.pow2 e
              <= inject_Z z * Float64.pow2 (- e) * Float64.pow2 e)
    by (apply Qmult_le_compat_r; lra).
  rewrite <- Qmult_assoc, pow2_inv_scale in H. lra.
Qed.

(** *** Rounding of signed values *)

Lemma round_cases (q : Q) :
  (q == 0 /\ Float64.round q = 0)
  \/ (0 < q /\ Float64.round q = Float64.round_pos q)
  \/ (q < 0 /\ Float64.round q = - Float64.round_pos (- q)).
Proof.
  unfold Float64.round. destruct (q ?= 0) eqn:E.
  - left. apply Qeq_alt in E. auto.
  - right. right. apply Qlt_alt in E. auto.
  - right. left. apply Qgt_alt in E. auto.
Qed.

Lemma round_le_int (q : Q) (z : Z) :
  (Z.abs z < 2 ^ 53)%Z -> q <= inject_Z z -> Float64.round q <= inject_Z z.
Proof.
  intros Hz Hq.
  destruct (round_cases q) as [[H0 ->]|[[Hp ->]|[Hn ->]]].
  - lra.
  - apply round_pos_le_int; [lia | exact Hp | exact Hq].
  - destruct (Z_le_gt_dec 0 z) as [Hz0|Hz0].
    + assert (0 <= inject_Z z) by (change 0 with (inject_Z 0); rewrite <- Zle_Qle; lia).
      assert (0 <= Float64.round_pos (- q)) by (apply round_pos_nonneg; lra).
      lra.
    + assert (H : inject_Z (- z) <= Float64.round_pos (- q)).
      { apply round_pos_ge_int; [lia|]. rewrite inject_Z_opp. lra. }
      rewrite inject_Z_opp in H. lra.
Qed.

Lemma round_ge_int (q : Q) (z : Z) :
  (Z.abs z < 2 ^ 53)%Z -> inject_Z z <= q -> inject_Z z <= Float64.round q.
Proof.
  intros Hz Hq.
  destruct (round_cases q) as [[H0 ->]|[[Hp ->]|[Hn ->]]].
  - lra.
  - destruct (Z_le_gt_dec z 0) as [Hz0|Hz0].
    + assert (inject_Z z <= 0) by (change 0 with (inject_Z 0); rewrite <- Zle_Qle; lia).
      assert (0 <= Float64.round_pos q) by (apply round_pos_nonneg; lra).
      lra.
    + apply round_pos_ge_int; [lia | exact Hq].
  - assert (H : Float64.round_pos (- q) <= inject_Z (- z)).
    { apply round_pos_le_int; [lia | lra |]. rewrite inject_Z_opp. lra. }
    rewrite inject_Z_opp in H. lra.
Qed.

Lemma round_abs_le_pow2 (q : Q) (k : Z) :
  Qabs q <= Float64.pow2 k -> (-1074 <= k)%Z -> Qabs (Float64.round q) <= Float64.pow2 k.
Proof.
  intros Hq Hk. apply Qabs_Qle_condition in Hq as [Hq1 Hq2].
  pose proof (pow2_pos k) as Hkp.
  apply Qabs_Qle_condition.
  destruct (round_cases q) as [[H0 ->]|[[Hp ->]|[Hn ->]]].
  - lra.
  - pose proof (round_pos_nonneg q Hp). pose proof (round_pos_le_pow2 q k Hp Hq2 Hk). lra.
  - assert (Hp : 0 < - q) by lra.
    pose proof (round_pos_nonneg _ Hp).
    assert (Hle : - q <= Float64.pow2 k) by lra.
    pose proof (round_pos_le_pow2 _ k Hp Hle Hk). lra.
Qed.

(** The rounding error: a relative error of 2^-53, or half the smallest
    subnormal. *)
Lemma round_near (q : Q) :
  Qabs (Float64.round q - q) <= Qabs q * Float64.pow2 (-53) + Float64.pow2 (-1075).
Proof.
  assert (Hpos : forall p, 0 < p ->
            Qabs (Float64.round_pos p - p) <= p * Float64.pow2 (-53) + Float64.pow2 (-1075)).
  { intros p Hp. pose proof (round_pos_near p) as H1. pose proof (quantum_small p Hp) as H2.
    assert (E1 : Float64.pow2 (-52) == 2 * Float64.pow2 (-53))
      by (rewrite <- pow2_succ; reflexivity).
    assert (E2 : Float64.pow2 (-1074) == 2 * Float64.pow2 (-1075))
      by (rewrite <- pow2_succ; reflexivity).
    rewrite E1, E2 in H2.
    set (a := Float64.pow2 (-53)) in *. set (b := Float64.pow2 (-1075)) in *.
    set (u := Float64.pow2 (Float64.quantum p)) in *.
    set (r := Qabs (Float64.round_pos p - p)) in *.
    clearbody a b u r. lra. }
  destruct (round_cases q) as [[H0 ->]|[[Hp ->]|[Hn ->]]].
  - pose proof (pow2_pos (-1075)). pose proof (pow2_pos (-53)).
    pose proof (Qabs_nonneg q).
    assert (E : Qabs (0 - q) == 0).
    { rewrite H0. reflexivity. }
    rewrite E.
    assert (0 <= Qabs q * Float64.pow2 (-53)) by (apply Qmult_le_0_compat; lra). lra.
  - rewrite (Qabs_pos q) by lra. apply Hpos. exact Hp.
  - rewrite (Qabs_neg q) by lra.
    assert (E : - Float64.round_pos (- q) - q == - (Float64.round_pos (- q) - (- q))) by ring.
    rewrite E, Qabs_opp. apply Hpos. lra.
Qed.

Lemma of_Q_finite (q : Q) (k : Z) :
  Qabs q <= Float64.pow2 k -> (-1074 <= k <= 1023)%Z ->
  Float64.of_Q q = Float64.Finite (Qred (Float64.round q)).
Proof.
  intros Hq Hk. unfold Float64.of_Q.
  pose proof (round_abs_le_pow2 q k Hq (proj1 Hk)) as Hr.
  destruct (Qle_bool (Float64.pow2 1024) (Qabs (Qred (Float64.round q)))) eqn:E;
    [|reflexivity].
  apply Qle_bool_iff in E. rewrite Qred_correct in E.
  assert (Float64.pow2 k < Float64.pow2 1024) by (apply pow2_lt; lia).
  lra.
Qed.

End Float64Facts.

(** *** Operations that stay finite *)

Lemma int_truediv_finite (a b k : Z) :
  b <> 0 -> (Qabs (inject_Z a / inject_Z b) <= Float64.pow2 k)%Q -> -1074 <= k <= 1023 ->
  Float64.int_truediv a b
  = Ok (Float64.Finite (Qred (Float64.round (inject_Z a / inject_Z b)))).
Proof.
  intros Hb Hq Hk. unfold Float64.int_truediv.
  assert (E : (b =? 0) = false) by lia. rewrite E.
  rewrite (of_Q_finite _ k Hq Hk). reflexivity.
Qed.

Lemma mul_finite (a b : Q) (k : Z) :
  (Qabs (a * b) <= Float64.pow2 k)%Q -> -1074 <= k <= 1023 ->
  Float64.mul (Float64.Finite a) (Float64.Finite b)
  = Float64.Finite (Qred (Float64.round (a * b))).
Proof. intros Hq Hk. cbn [Float64.mul]. apply (of_Q_finite _ k Hq Hk). Qed.

Lemma round_ndigits_finite (q : Q) (ndigits : nat) (k : Z) :
  (Qabs (inject_Z (round_half_even (q * inject_Z (10 ^ Z.of_nat ndigits)))
         / inject_Z (10 ^ Z.of_nat ndigits)) <= Float64.pow2 k)%Q ->
  -1074 <= k <= 1023 ->
  Float64.round_ndigits (Float64.Finite q) ndigits
  = Ok (Float64.Finite
          (Qred (Float64.round
                   (inject_Z (round_half_even (q * inject_Z (10 ^ Z.of_nat ndigits)))
                    / inject_Z (10 ^ Z.of_nat ndigits))))).
Proof.
  intros Hq Hk. cbn [Float64.round_ndigits]. cbv zeta.
  rewrite (of_Q_finite _ k Hq Hk). reflexivity.
Qed.

Lemma of_int_100 : Float64.of_int 100 = Ok (Float64.Finite 100).
Proof. vm_compute. reflexivity. Qed.

Lemma ratio_bound (t g k : Z) :
  0 < g -> 0 <= k -> Z.abs t <= 2 ^ k * g ->
  (Qabs (inject_Z t / inject_Z g) <= Float64.pow2 k)%Q.
Proof.
  intros Hg Hk Ht.
  assert (Hgq : (0 < inject_Z g)%Q) by (unfold Qlt; simpl; lia).
  rewrite pow2_Z by exact Hk.
  apply Qabs_Qle_condition. split.
  - apply Qle_shift_div_l; [exact Hgq|].
    rewrite <- inject_Z_opp, <- inject_Z_mult, <- Zle_Qle. lia.
  - apply Qle_shift_div_r; [exact Hgq|].
    rewrite <- inject_Z_mult, <- Zle_Qle. lia.
Qed.

(** *** Totals *)

Lemma sum_amounts_fold_right (es : list entry) :
  sum_amounts es = fold_right Z.add 0 (map amount_ml es).
Proof.
  induction es as [|e es IH]; [reflexivity|].
  rewrite sum_amounts_cons, IH. reflexivity.
Qed.

Lemma total_under_daily_total (data : DailyLog) (k : string) :
  total_under data k (daily_total data k).
Proof.
  unfold total_under, daily_total, entries_of. split.
  - intros es ->. apply sum_amounts_fold_right.
  - intros ->. reflexivity.
Qed.

Lemma total_under_unique (data : DailyLog) (k : string) (total : Z) :
  total_under data k total -> total = daily_total data k.
Proof.
  intros [Hsome Hnone]. unfold daily_total, entries_of.
  destruct (Dict.get data k) as [es|].
  - rewrite (Hsome es eq_refl). symmetry. apply sum_amounts_fold_right.
  - apply Hnone. reflexivity.
Qed.

Lemma Qabs_bounds (q : Q) : (q <= Qabs q /\ - q <= Qabs q /\ 0 <= Qabs q)%Q.
Proof.
  split; [apply Qle_Qabs|]. split; [|apply Qabs_nonneg].
  rewrite <- (Qabs_opp q). apply Qle_Qabs.
Qed.

(** Two roundings in a row: the double computed for [100 * e] from the
    double computed for [e]. *)
Lemma percent_error (e r x : Q) :
  (Qabs (r - e) <= Qabs e * Float64.pow2 (-53) + Float64.pow2 (-1075) ->
   Qabs (x - r * 100) <= Qabs (r * 100) * Float64.pow2 (-53) + Float64.pow2 (-1075) ->
   Qabs (x - 100 * e) <= Qabs (100 * e) * Float64.pow2 (-51) + Float64.pow2 (-1000))%Q.
Proof.
  intros H1 H2.
  assert (E100 : (Qabs (100 * e) == 100 * Qabs e)%Q) by (rewrite Qabs_Qmult; reflexivity).
  assert (R100 : (Qabs (r * 100) == 100 * Qabs r)%Q)
    by (rewrite Qabs_Qmult, Qmult_comm; reflexivity).
  rewrite E100. rewrite R100 in H2.
  destruct (Qabs_bounds e) as (Te1 & Te2 & Te3).
  destruct (Qabs_bounds r) as (Tr1 & Tr2 & Tr3).
  assert (Hr : (Qabs r <= Qabs e + (Qabs e * Float64.pow2 (-53) + Float64.pow2 (-1075)))%Q).
  { apply Qabs_Qle_condition in H1 as [H1a H1b].
    apply Qabs_Qle_condition. split; lra. }
  apply Qabs_Qle_condition in H1 as [H1a H1b].
  apply Qabs_Qle_condition in H2 as [H2a H2b].
  set (T := Qabs e) in *. set (R := Qabs r) in *. clearbody T R.
  assert (Ea : (Float64.pow2 (-51) == 4 * Float64.pow2 (-53))%Q) by reflexivity.
  assert (Eb : (Float64.pow2 (-1000) == 2 ^ 75 * Float64.pow2 (-1075))%Q) by reflexivity.
  assert (Ha : (0 < Float64.pow2 (-53))%Q) by apply pow2_pos.
  assert (Hb : (0 < Float64.pow2 (-1075))%Q) by apply pow2_pos.
  assert (Ha1 : (Float64.pow2 (-53) <= 1 # 1000)%Q) by (apply Qle_bool_iff; reflexivity).
  rewrite Ea, Eb. change (2 ^ 75)%Q with 37778931862957161709568%Q.
  set (a := Float64.pow2 (-53)) in *. set (b := Float64.pow2 (-1075)) in *. clearbody a b.
  assert (HTa : (0 <= T * a)%Q) by (apply Qmult_le_0_compat; lra).
  assert (HRa : (R * a <= (T + (T * a + b)) * a)%Q) by (apply Qmult_le_compat_r; lra).
  assert (HTaa : (T * a * a <= T * a * (1 # 1000))%Q).
  { rewrite !(Qmult_comm (T * a)). apply Qmult_le_compat_r; lra. }
  assert (Hba : (b * a <= b * (1 # 1000))%Q).
  { rewrite !(Qmult_comm b). apply Qmult_le_compat_r; lra. }
  apply Qabs_Qle_condition. split; lra.
Qed.

(** ** Goal percentage *)

(** C7.  With a positive goal and a total whose ratio to the goal a [float]
    can hold, the result is a [float] [p] obtained in three steps: the
    percentage is computed in binary floating point, giving a double [x]
    within a relative error of [2^-51] of [100 * total / goal]; [x] is
    rounded to the nearest tenth [k / 10]; and [p] is the double nearest to
    that tenth.  With a goal that is zero or negative the result is the
    integer 0 and no division takes place, so [ZeroDivisionError] is never
    raised. *)
Theorem get_hydration_percentage_spec (goal : Z) (today : string) (st : store)
  (data : DailyLog) (total : Z) :
  WaterTracker.load_water_log st = Ok data ->
  total_under data today total ->
  (0 < goal -> Z.abs total <= 2 ^ 1000 * goal ->
   exists (x p : Q) (k : Z),
     WaterTracker.get_hydration_percentage goal today st
     = Ok (PyFloat (Float64.Finite p))
     /\ (Qabs (x - exact_percentage total goal)
         <= Qabs (exact_percentage total goal) * Float64.pow2 (-51)
            + Float64.pow2 (-1000))%Q
     /\ (Qabs (10 * x - inject_Z k) <= 1 # 2)%Q
     /\ (p == Float64.round (inject_Z k / 10))%Q)
  /\ (goal <= 0 ->
      WaterTracker.get_hydration_percentage goal today st = Ok (PyInt 0))
  /\ WaterTracker.get_hydration_percentage goal today st <> Raise ZeroDivisionError.
Proof.
  intros Hload Htotal. apply total_under_unique in Htotal. subst total.
  unfold WaterTracker.get_hydration_percentage.
  rewrite (get_today_total_spec today st data Hload); cbn [bind].
  set (total := daily_total data today).
  split; [|split].
  - intros Hg Hbound.
    assert (Hpos : (goal >? 0) = true) by lia. rewrite Hpos.
    set (e := (inject_Z total / inject_Z goal)%Q).
    assert (He : (Qabs e <= Float64.pow2 1000)%Q) by (apply ratio_bound; lia).
    rewrite (int_truediv_finite total goal 1000) by (try exact He; lia).
    fold e. cbn [bind]. unfold Float64.mul_int. rewrite of_int_100. cbn [bind].
    set (r := Qred (Float64.round e)).
    assert (Er : (r == Float64.round e)%Q) by apply Qred_correct.
    assert (Hr : (Qabs r <= Float64.pow2 1000)%Q)
      by (rewrite Er; apply round_abs_le_pow2; [exact He | lia]).
    assert (Hr100 : (Qabs (r * 100) <= Float64.pow2 1007)%Q).
    { rewrite Qabs_Qmult. change (Qabs 100) with 100%Q.
      assert (E : (Float64.pow2 1007 == Float64.pow2 1000 * 128)%Q) by reflexivity.
      rewrite E. pose proof (Qabs_nonneg r).
      set (R := Qabs r) in *. set (B := Float64.pow2 1000) in *. clearbody R B. lra. }
    rewrite (mul_finite r 100 1007) by (try exact Hr100; lia).
    set (x := Qred (Float64.round (r * 100))).
    assert (Ex : (x == Float64.round (r * 100))%Q) by apply Qred_correct.
    assert (Hx : (Qabs x <= Float64.pow2 1007)%Q)
      by (rewrite Ex; apply round_abs_le_pow2; [exact Hr100 | lia]).
    cbn [bind].
    change (inject_Z (10 ^ Z.of_nat 1)) with 10%Q.
    destruct (round_half_even_near (x * 10)) as [Hk1 Hk2].
    set (k := round_half_even (x * 10)) in *.
    assert (Hk : (Qabs (inject_Z k / 10) <= Float64.pow2 1008)%Q).
    { assert (E : (Float64.pow2 1008 == Float64.pow2 1007 * 2)%Q) by reflexivity.
      assert (B1 : (1 <= Float64.pow2 1007)%Q) by (apply Qle_bool_iff; reflexivity).
      rewrite E. apply Qabs_Qle_condition in Hx as [Hx1 Hx2].
      assert (Ek : (inject_Z k / 10 == inject_Z k * (1 # 10))%Q) by (field).
      rewrite Ek.
      set (K := inject_Z k) in *. set (B := Float64.pow2 1007) in *. clearbody K B.
      apply Qabs_Qle_condition. split; lra. }
    rewrite (round_ndigits_finite x 1 1008);
      change (inject_Z (10 ^ Z.of_nat 1)) with 10%Q; fold k; [|exact Hk | lia].
    cbn [bind].
    exists x, (Qred (Float64.round (inject_Z k / 10))), k.
    split; [reflexivity|]. split; [|split].
    + unfold exact_percentage. fold e. apply (percent_error e r x).
      * rewrite Er. apply round_near.
      * rewrite Ex. apply round_near.
    + set (K := inject_Z k) in *. clearbody K. apply Qabs_Qle_condition. split; lra.
    + apply Qred_correct.
  - intros Hg. assert (Hneg : (goal >? 0) = false) by lia. rewrite Hneg. reflexivity.
  - destruct (goal >? 0) eqn:Hg; [|discriminate].
    unfold Float64.int_truediv. assert (E : (goal =? 0) = false) by lia. rewrite E.
    destruct (Float64.of_Q (inject_Z total / inject_Z goal)); cbn [bind]; try discriminate.
    unfold Float64.mul_int. rewrite of_int_100. cbn [bind].
    destruct (Float64.round_ndigits _ 1) as [y|err] eqn:Hround; cbn [bind]; [discriminate|].
    unfold Float64.round_ndigits in Hround.
    destruct (Float64.mul (Float64.Finite q) (Float64.Finite 100)); try discriminate.
    destruct (Float64.of_Q _) in Hround; try discriminate; congruence.
Qed.

Lemma get_hydration_percentage_witness :
  WaterTracker.get_hydration_percentage 2000 "2024-01-02"
    (Samples.store_of Samples.sips_log)
  = Ok (PyFloat (Float64.Finite (3602879701896397 # 36028797018963968)))
  /\ WaterTracker.get_hydration_percentage 2000 "2024-01-01"
       (Samples.store_of Samples.sips_log)
     = Ok (PyFloat (Float64.Finite (3602879701896397 # 36028797018963968)))
  /\ WaterTracker.get_hydration_percentage 2000 "2024-01-02"
       (Samples.store_of Samples.two_days)
     = Ok (PyFloat (Float64.Finite 60))
  /\ WaterTracker.get_hydration_percentage 1000 "2024-01-01"
       (Samples.store_of Samples.two_days)
     = Ok (PyFloat (Float64.Finite 200))
  /\ WaterTracker.get_hydration_percentage 0 "2024-01-02"
       (Samples.store_of Samples.two_days)
     = Ok (PyInt 0).
Proof.
  split; [|split; [|split; [|split]]].
  - destruct (proj1 (get_hydration_percentage_spec 2000 "2024-01-02"
                       (Samples.store_of Samples.sips_log) Samples.sips_log _ eq_refl
                       (total_under_daily_total _ _)))
      as (x & p & k & H & _); [lia | vm_compute; discriminate |].
    assert (Hc : WaterTracker.get_hydration_percentage 2000 "2024-01-02"
                   (Samples.store_of Samples.sips_log)
                 = Ok (PyFloat (Float64.Finite (3602879701896397 # 36028797018963968))))
      by (vm_compute; reflexivity).
    rewrite H in Hc |- *. exact Hc.
  - destruct (proj1 (get_hydration_percentage_spec 2000 "2024-01-01"
                       (Samples.store_of Samples.sips_log) Samples.sips_log _ eq_refl
                       (total_under_daily_total _ _)))
      as (x & p & k & H & _); [lia | vm_compute; discriminate |].
    assert (Hc : WaterTracker.get_hydration_percentage 2000 "2024-01-01"
                   (Samples.store_of Samples.sips_log)
                 = Ok (PyFloat (Float64.Finite (3602879701896397 # 36028797018963968))))
      by (vm_compute; reflexivity).
    rewrite H in Hc |- *. exact Hc.
  - destruct (proj1 (get_hydration_percentage_spec 2000 "2024-01-02"
                       (Samples.store_of Samples.two_days) Samples.two_days _ eq_refl
                       (total_under_daily_total _ _)))
      as (x & p & k & H & _); [lia | vm_compute; discriminate |].
    assert (Hc : WaterTracker.get_hydration_percentage 2000 "2024-01-02"
                   (Samples.store_of Samples.two_days)
                 = Ok (PyFloat (Float64.Finite 60)))
      by (vm_compute; reflexivity).
    rewrite H in Hc |- *. exact Hc.
  - destruct (proj1 (get_hydration_percentage_spec 1000 "2024-01-01"
                       (Samples.store_of Samples.two_days) Samples.two_days _ eq_refl
                       (total_under_daily_total _ _)))
      as (x & p & k & H & _); [lia | vm_compute; discriminate |].
    assert (Hc : WaterTracker.get_hydration_percentage 1000 "2024-01-01"
                   (Samples.store_of Samples.two_days)
                 = Ok (PyFloat (Float64.Finite 200)))
      by (vm_compute; reflexivity).
    rewrite H in Hc |- *. exact Hc.
  - apply (proj1 (proj2 (get_hydration_percentage_spec 0 "2024-01-02"
                           (Samples.store_of Samples.two_days) Samples.two_days _ eq_refl
                           (total_under_daily_total _ _)))).
    lia.
Defined.

(** C7 as stated does not hold for every positive goal: a total beyond the
    range of a [float] makes the division raise [OverflowError]. *)
Lemma get_hydration_percentage_overflow :
  0 < 2000
  /\ WaterTracker.load_water_log (Samples.store_of Samples.huge_log) = Ok Samples.huge_log
  /\ WaterTracker.get_hydration_percentage 2000 "2024-01-01"
       (Samples.store_of Samples.huge_log)
     = Raise OverflowError.
Proof. split; [lia|]. split; [reflexivity|]. vm_compute. reflexivity. Qed.

(** ** Goal and percentage *)

Lemma of_Q_ge_int (q : Q) (z : Z) :
  Z.abs z < 2 ^ 53 -> (inject_Z z <= q)%Q -> float_ge (Float64.of_Q q) (inject_Z z).
Proof.
  intros Hz Hq. pose proof (round_ge_int q z Hz Hq) as Hr.
  unfold Float64.of_Q.
  destruct (Qle_bool (Float64.pow2 1024) (Qabs (Qred (Float64.round q)))) eqn:E;
    cbn [float_ge].
  - apply Qle_bool_iff in E. rewrite Qred_correct in E.
    assert (Hv : (0 <= Qred (Float64.round q))%Q).
    { rewrite Qred_correct.
      assert (Hz' : (- Float64.pow2 53 <= inject_Z z)%Q).
      { rewrite pow2_Z by lia. rewrite <- inject_Z_opp, <- Zle_Qle. lia. }
      assert (H53 : (Float64.pow2 53 < Float64.pow2 1024)%Q) by (apply pow2_lt; lia).
      apply Qnot_lt_le. intros Hneg.
      rewrite Qabs_neg in E by lra. lra. }
    apply Qle_bool_iff in Hv. rewrite Hv. reflexivity.
  - rewrite Qred_correct. exact Hr.
Qed.

Lemma of_Q_le_int (q : Q) (z : Z) :
  Z.abs z < 2 ^ 53 -> (q <= inject_Z z)%Q -> float_le (Float64.of_Q q) (inject_Z z).
Proof.
  intros Hz Hq. pose proof (round_le_int q z Hz Hq) as Hr.
  unfold Float64.of_Q.
  destruct (Qle_bool (Float64.pow2 1024) (Qabs (Qred (Float64.round q)))) eqn:E;
    cbn [float_le].
  - apply Qle_bool_iff in E. rewrite Qred_correct in E.
    assert (Hv : Qle_bool 0 (Qred (Float64.round q)) = false).
    { destruct (Qle_bool 0 (Qred (Float64.round q))) eqn:E0; [|reflexivity].
      apply Qle_bool_iff in E0. rewrite Qred_correct in E0.
      assert (Hz' : (inject_Z z <= Float64.pow2 53)%Q).
      { rewrite pow2_Z by lia. rewrite <- Zle_Qle. lia. }
      assert (H53 : (Float64.pow2 53 < Float64.pow2 1024)%Q) by (apply pow2_lt; lia).
      rewrite Qabs_pos in E by lra. lra. }
    rewrite Hv. reflexivity.
  - rewrite Qred_correct. exact Hr.
Qed.

Lemma percentage_steps (t goal : Z) (p : number) :
  0 < goal ->
  (let* ratio := Float64.int_truediv t goal in
   let* percent := Float64.mul_int ratio 100 in
   let* rounded := Float64.round_ndigits percent 1 in
   Ok (PyFloat rounded)) = Ok p ->
  exists r x y,
    p = PyFloat y
    /\ Float64.of_Q (inject_Z t / inject_Z goal) = Float64.Finite r
    /\ Float64.of_Q (r * 100) = x
    /\ Float64.round_ndigits x 1 = Ok y.
Proof.
  intros Hg. unfold Float64.int_truediv.
  assert (E : (goal =? 0) = false) by lia. rewrite E.
  destruct (Float64.of_Q (inject_Z t / inject_Z goal)) as [r| |] eqn:Hr; cbn [bind];
    try discriminate.
  unfold Float64.mul_int. rewrite of_int_100. cbn [bind Float64.mul].
  destruct (Float64.round_ndigits (Float64.of_Q (r * 100)) 1) as [y|] eqn:Hy; cbn [bind];
    [|discriminate].
  intros [= <-]. exists r, (Float64.of_Q (r * 100)), y. auto.
Qed.

Lemma round_ndigits_1_ge (x y : Float64.float) :
  float_ge x 100 -> Float64.round_ndigits x 1 = Ok y -> float_ge y 100.
Proof.
  intros Hx. destruct x as [q|s|]; cbn [float_ge] in Hx; [| |contradiction].
  - cbn [Float64.round_ndigits]. cbv zeta. change (inject_Z (10 ^ Z.of_nat 1)) with 10%Q.
    assert (Hk : 1000 <= round_half_even (q * 10)).
    { apply round_half_even_ge. change (inject_Z 1000) with 1000%Q. lra. }
    assert (Hq : (inject_Z 100 <= inject_Z (round_half_even (q * 10)) / 10)%Q).
    { apply Qle_shift_div_l; [reflexivity|]. change (inject_Z 100 * 10)%Q with (inject_Z 1000).
      rewrite <- Zle_Qle. exact Hk. }
    pose proof (of_Q_ge_int _ 100 ltac:(vm_compute; reflexivity) Hq) as H.
    destruct (Float64.of_Q _); try discriminate. intros [= <-]. exact H.
  - cbn [Float64.round_ndigits]. intros [= <-]. exact Hx.
Qed.

Lemma round_ndigits_1_le (x y : Float64.float) :
  float_le x 100 -> Float64.round_ndigits x 1 = Ok y -> float_le y 100.
Proof.
  intros Hx. destruct x as [q|s|]; cbn [float_le] in Hx; [| |contradiction].
  - cbn [Float64.round_ndigits]. cbv zeta. change (inject_Z (10 ^ Z.of_nat 1)) with 10%Q.
    assert (Hk : round_half_even (q * 10) <= 1000).
    { apply round_half_even_le. change (inject_Z 1000) with 1000%Q. lra. }
    assert (Hq : (inject_Z (round_half_even (q * 10)) / 10 <= inject_Z 100)%Q).
    { apply Qle_shift_div_r; [reflexivity|]. change (inject_Z 100 * 10)%Q with (inject_Z 1000).
      rewrite <- Zle_Qle. exact Hk. }
    pose proof (of_Q_le_int _ 100 ltac:(vm_compute; reflexivity) Hq) as H.
    destruct (Float64.of_Q _); try discriminate. intros [= <-]. exact H.
  - cbn [Float64.round_ndigits]. intros [= <-]. exact Hx.
Qed.

(** X13.  For a positive goal the two reports on today agree on which side
    of the goal the day is: whenever [get_hydration_percentage] returns a
    value, it is at least 100 when [is_goal_achieved] answers [True] and
    at most 100 when it answers [False].  The roundings of the floating
    point computation can lift a day just below the goal to 100.0, never
    above, and an overflow of the product gives the infinity of the right
    sign. *)
Theorem is_goal_achieved_percentage (goal : Z) (today : string) (st : store)
  (b : bool) (p : number) :
  0 < goal ->
  WaterTracker.is_goal_achieved goal today st = Ok b ->
  WaterTracker.get_hydration_percentage goal today st = Ok p ->
  (b = true -> number_ge p 100) /\ (b = false -> number_le p 100).
Proof.
  intros Hg. unfold WaterTracker.is_goal_achieved, WaterTracker.get_hydration_percentage.
  destruct (WaterTracker.get_today_total today st) as [t|e]; cbn [bind]; [|discriminate].
  intros [= <-].
  assert (Hpos : (goal >? 0) = true) by lia. rewrite Hpos.
  intros Hp. destruct (percentage_steps t goal p Hg Hp) as (r & x & y & -> & Hr & Hx & Hy).
  assert (Hgq : (0 < inject_Z goal)%Q) by (unfold Qlt; simpl; lia).
  cbn [number_ge number_le]. split; intros Hb.
  - assert (He : (inject_Z 1 <= inject_Z t / inject_Z goal)%Q).
    { apply Qle_shift_div_l; [exact Hgq|]. rewrite <- inject_Z_mult, <- Zle_Qle. lia. }
    pose proof (of_Q_ge_int _ 1 ltac:(vm_compute; reflexivity) He) as H1.
    rewrite Hr in H1. cbn [float_ge] in H1. change (inject_Z 1) with 1%Q in H1.
    assert (H100 : (inject_Z 100 <= r * 100)%Q) by (change (inject_Z 100) with 100%Q; lra).
    pose proof (of_Q_ge_int _ 100 ltac:(vm_compute; reflexivity) H100) as H2.
    rewrite Hx in H2. exact (round_ndigits_1_ge x y H2 Hy).
  - assert (He : (inject_Z t / inject_Z goal <= inject_Z 1)%Q).
    { apply Qle_shift_div_r; [exact Hgq|]. rewrite <- inject_Z_mult, <- Zle_Qle. lia. }
    pose proof (of_Q_le_int _ 1 ltac:(vm_compute; reflexivity) He) as H1.
    rewrite Hr in H1. cbn [float_le] in H1. change (inject_Z 1) with 1%Q in H1.
    assert (H100 : (r * 100 <= inject_Z 100)%Q) by (change (inject_Z 100) with 100%Q; lra).
    pose proof (of_Q_le_int _ 100 ltac:(vm_compute; reflexivity) H100) as H2.
    rewrite Hx in H2. exact (round_ndigits_1_le x y H2 Hy).
Qed.

Lemma is_goal_achieved_percentage_witness :
  number_ge (PyFloat (Float64.Finite 200)) 100
  /\ number_le (PyFloat (Float64.Finite (3602879701896397 # 36028797018963968))) 100.
Proof.
  split.
  - apply (proj1 (is_goal_achieved_percentage 1000 "2024-01-01"
                    (Samples.store_of Samples.two_days) true _ ltac:(lia) eq_refl
                    ltac:(vm_compute; reflexivity))).
    reflexivity.
  - apply (proj2 (is_goal_achieved_percentage 2000 "2024-01-02"
                    (Samples.store_of Samples.sips_log) false _ ltac:(lia) eq_refl
                    ltac:(vm_compute; reflexivity))).
    reflexivity.
Defined.

(** ** Calendar days and their ordinals *)

Lemma month_cases (m : Z) :
  1 <= m <= 12 ->
  m = 1 \/ m = 2 \/ m = 3 \/ m = 4 \/ m = 5 \/ m = 6 \/ m = 7 \/ m = 8 \/ m = 9
  \/ m = 10 \/ m = 11 \/ m = 12.
Proof. lia. Qed.

Lemma days_before_month_succ (y m : Z) :
  1 <= m <= 11 ->
  days_before_month y (m + 1) = days_before_month y m + Calendar.days_in_month y m.
Proof.
  intros Hm. destruct (month_cases m ltac:(lia)) as [H|H]; repeat (destruct H as [H|H]);
    subst m; try lia;
    unfold days_before_month, Calendar.days_in_month, Calendar.monthrange_ndays;
    cbn; destruct (Calendar.isleap y); reflexivity.
Qed.

Lemma days_before_year_succ (y : Z) :
  1 <= y ->
  days_before_year (y + 1)
  = days_before_year y + 365 + (if Calendar.isleap y then 1 else 0).
Proof.
  intros Hy. unfold days_before_year, Calendar.isleap. cbv zeta.
  replace (y + 1 - 1) with y by lia.
  destruct (Z.eqb_spec (y mod 4) 0) as [H4|H4];
    destruct (Z.eqb_spec (y mod 100) 0) as [H100|H100];
    destruct (Z.eqb_spec (y mod 400) 0) as [H400|H400]; cbn [andb orb negb];
    Z.to_euclidean_division_equations; lia.
Qed.

Lemma days_before_year_nonneg (y : Z) : 1 <= y -> 0 <= days_before_year y.
Proof.
  intros Hy. unfold days_before_year. cbv zeta.
  Z.to_euclidean_division_equations; lia.
Qed.

Lemma days_before_month_nonneg (y m : Z) : 1 <= m <= 12 -> 0 <= days_before_month y m.
Proof.
  intros Hm. destruct (month_cases m Hm) as [H|H]; repeat (destruct H as [H|H]);
    subst m; unfold days_before_month;
    change (Z.to_nat 1) with 1%nat; change (Z.to_nat 2) with 2%nat;
    change (Z.to_nat 3) with 3%nat; change (Z.to_nat 4) with 4%nat;
    change (Z.to_nat 5) with 5%nat; change (Z.to_nat 6) with 6%nat;
    change (Z.to_nat 7) with 7%nat; change (Z.to_nat 8) with 8%nat;
    change (Z.to_nat 9) with 9%nat; change (Z.to_nat 10) with 10%nat;
    change (Z.to_nat 11) with 11%nat; change (Z.to_nat 12) with 12%nat;
    cbn [nth]; destruct ((2 <? _) && Calendar.isleap y)%bool; lia.
Qed.

Lemma toordinal_pos (d : Calendar.date) : Calendar.valid d = true -> 1 <= toordinal d.
Proof.
  rewrite valid_iff. intros (Hy & Hm & Hd). unfold toordinal.
  pose proof (days_before_year_nonneg (Calendar.year d) ltac:(lia)).
  pose proof (days_before_month_nonneg (Calendar.year d) (Calendar.month d) Hm). lia.
Qed.

(** The day before has the ordinal before. *)
Lemma prev_day_toordinal (d d' : Calendar.date) :
  Calendar.valid d = true -> Calendar.prev_day d = Ok d' -> toordinal d' = toordinal d - 1.
Proof.
  rewrite valid_iff. intros (Hy & Hm & Hd). unfold Calendar.prev_day, toordinal.
  destruct (Z.ltb_spec 1 (Calendar.day d)).
  - intros [= <-]. cbn [Calendar.year Calendar.month Calendar.day]. lia.
  - destruct (Z.ltb_spec 1 (Calendar.month d)).
    + intros [= <-]. cbn [Calendar.year Calendar.month Calendar.day].
      pose proof (days_before_month_succ (Calendar.year d) (Calendar.month d - 1)
                    ltac:(lia)) as E.
      replace (Calendar.month d - 1 + 1) with (Calendar.month d) in E by lia. lia.
    + unfold Calendar.MINYEAR. destruct (Z.ltb_spec 1 (Calendar.year d)); [|discriminate].
      intros [= <-]. cbn [Calendar.year Calendar.month Calendar.day].
      pose proof (days_before_year_succ (Calendar.year d - 1) ltac:(lia)) as E.
      replace (Calendar.year d - 1 + 1) with (Calendar.year d) in E by lia.
      assert (Em : Calendar.month d = 1) by lia. rewrite Em.
      change (days_before_month (Calendar.year d) 1) with 0.
      change (days_before_month (Calendar.year d - 1) 12)
        with (334 + (if Calendar.isleap (Calendar.year d - 1) then 1 else 0)).
      destruct (Calendar.isleap (Calendar.year d - 1)); lia.
Qed.

(** Only the first day of the calendar has no day before it. *)
Lemma prev_day_defined (d : Calendar.date) :
  Calendar.valid d = true ->
  (1 < toordinal d -> exists d', Calendar.prev_day d = Ok d')
  /\ (toordinal d <= 1 -> Calendar.prev_day d = Raise OverflowError).
Proof.
  intros Hv. pose proof Hv as Hv'. rewrite valid_iff in Hv'. destruct Hv' as (Hy & Hm & Hd).
  unfold Calendar.prev_day, Calendar.MINYEAR.
  destruct (Z.ltb_spec 1 (Calendar.day d)) as [H1|H1].
  - split; [eauto|]. intros Ho. exfalso.
    unfold toordinal in Ho.
    pose proof (days_before_year_nonneg (Calendar.year d) ltac:(lia)).
    pose proof (days_before_month_nonneg (Calendar.year d) (Calendar.month d) Hm). lia.
  - destruct (Z.ltb_spec 1 (Calendar.month d)) as [H2|H2].
    + split; [eauto|]. intros Ho. exfalso.
      unfold toordinal in Ho.
      pose proof (days_before_year_nonneg (Calendar.year d) ltac:(lia)).
      pose proof (days_before_month_succ (Calendar.year d) (Calendar.month d - 1)
                    ltac:(lia)) as E.
      replace (Calendar.month d - 1 + 1) with (Calendar.month d) in E by lia.
      pose proof (days_before_month_nonneg (Calendar.year d) (Calendar.month d - 1)
                    ltac:(lia)).
      pose proof (days_in_month_bounds (Calendar.year d) (Calendar.month d - 1) ltac:(lia)).
      lia.
    + destruct (Z.ltb_spec 1 (Calendar.year d)) as [H3|H3].
      * split; [eauto|]. intros Ho. exfalso.
        unfold toordinal in Ho.
        pose proof (days_before_year_succ (Calendar.year d - 1) ltac:(lia)) as E.
        replace (Calendar.year d - 1 + 1) with (Calendar.year d) in E by lia.
        pose proof (days_before_year_nonneg (Calendar.year d - 1) ltac:(lia)).
        pose proof (days_before_month_nonneg (Calendar.year d) (Calendar.month d) Hm).
        destruct (Calendar.isleap (Calendar.year d - 1)); lia.
      * split; [|reflexivity]. intros Ho. exfalso.
        assert (Ey : Calendar.year d = 1) by lia.
        assert (Em : Calendar.month d = 1) by lia.
        assert (Ed : Calendar.day d = 1) by lia.
        unfold toordinal in Ho. rewrite Ey, Em, Ed in Ho. vm_compute in Ho. discriminate.
Qed.

Lemma minus_days_toordinal (d d' : Calendar.date) (i : nat) :
  Calendar.valid d = true -> Calendar.minus_days d i = Ok d' ->
  Calendar.valid d' = true /\ toordinal d' = toordinal d - Z.of_nat i.
Proof.
  intros Hv. revert d'. induction i as [|i IH]; intros d'.
  - cbn [Calendar.minus_days]. intros [= <-]. split; [exact Hv | lia].
  - rewrite minus_days_S.
    destruct (Calendar.minus_days d i) as [di|] eqn:Hi; cbn [bind]; [|discriminate].
    intros Hp. destruct (IH di eq_refl) as [Hvi Hoi].
    split; [apply (prev_day_valid di d' Hvi Hp)|].
    rewrite (prev_day_toordinal di d' Hvi Hp). lia.
Qed.

Lemma minus_days_defined (d : Calendar.date) (i : nat) :
  Calendar.valid d = true -> Z.of_nat i < toordinal d ->
  exists d', Calendar.minus_days d i = Ok d'.
Proof.
  intros Hv. induction i as [|i IH]; intros Hi; [cbn; eauto|].
  destruct IH as [di Hdi]; [lia|].
  destruct (minus_days_toordinal d di i Hv Hdi) as [Hvi Hoi].
  rewrite minus_days_S, Hdi. cbn [bind].
  apply (proj1 (prev_day_defined di Hvi)). lia.
Qed.

Lemma minus_days_overflow (d : Calendar.date) (i : nat) :
  Calendar.valid d = true -> toordinal d <= Z.of_nat i ->
  Calendar.minus_days d i = Raise OverflowError.
Proof.
  intros Hv. induction i as [|i IH]; intros Hi.
  - pose proof (toordinal_pos d Hv). lia.
  - rewrite minus_days_S.
    destruct (Z_lt_le_dec (Z.of_nat i) (toordinal d)) as [Hlt|Hge].
    + destruct (minus_days_defined d i Hv Hlt) as [di Hdi]. rewrite Hdi. cbn [bind].
      destruct (minus_days_toordinal d di i Hv Hdi) as [Hvi Hoi].
      apply (proj2 (prev_day_defined di Hvi)). lia.
    + rewrite IH by exact Hge. reflexivity.
Qed.

(** ** The last [n] days *)

Lemma range_down_cons (n : Z) :
  0 < n -> range_down n = (Z.to_nat n - 1)%nat :: range_down (n - 1).
Proof.
  intros Hn. unfold range_down.
  replace (Z.to_nat n) with (S (Z.to_nat (n - 1))) by lia.
  rewrite seq_S, rev_app_distr. cbn [rev app Nat.add].
  replace (S (Z.to_nat (n - 1)) - 1)%nat with (Z.to_nat (n - 1)) by lia. reflexivity.
Qed.

(** A window that reaches below the first day of the calendar. *)
Lemma last_n_days_overflow (n : Z) (today : Calendar.date) (st : store) (data : DailyLog) :
  WaterTracker.load_water_log st = Ok data ->
  Calendar.valid today = true -> toordinal today < n ->
  WaterTracker.get_last_n_days_totals n today st = Raise OverflowError.
Proof.
  intros Hload Hv Hn. pose proof (toordinal_pos today Hv) as Hpos.
  unfold WaterTracker.get_last_n_days_totals. rewrite Hload. cbn [bind].
  rewrite range_down_cons by lia. cbn [mapM].
  rewrite minus_days_overflow by (try exact Hv; lia). reflexivity.
Qed.

(** The rows of a window that stays within the calendar, day by day. *)
Lemma last_n_days_nth (n : Z) (today : Calendar.date) (st : store) (data : DailyLog) :
  WaterTracker.load_water_log st = Ok data ->
  Calendar.valid today = true -> 0 <= n <= toordinal today ->
  exists rows,
    WaterTracker.get_last_n_days_totals n today st = Ok rows
    /\ List.length rows = Z.to_nat n
    /\ forall i, (i < Z.to_nat n)%nat ->
         exists d,
           Calendar.minus_days today (Z.to_nat n - 1 - i) = Ok d
           /\ nth i rows (EmptyString, 0)
              = (Calendar.isoformat d, daily_total data (Calendar.isoformat d)).
Proof.
  intros Hload Hv Hn. unfold WaterTracker.get_last_n_days_totals.
  rewrite Hload; cbn [bind].
  set (f := fun i : nat => let* d := Calendar.minus_days today i in
                           Ok (Calendar.isoformat d)).
  assert (Hdef : forall j, (j < Z.to_nat n)%nat ->
                 exists dj, Calendar.minus_days today j = Ok dj)
    by (intros j Hj; apply minus_days_defined; [exact Hv | lia]).
  destruct (mapM_all_Ok f (range_down n)) as [days Hdays].
  { intros a Ha. apply In_nth with (d := O) in Ha as (i & Hi & <-).
    rewrite range_down_length in Hi. rewrite range_down_nth by assumption.
    destruct (Hdef (Z.to_nat n - 1 - i)%nat) as [dj Hdj]; [lia|].
    unfold f; rewrite Hdj; cbn [bind]; eauto. }
  rewrite Hdays; cbn [bind]. eexists; split; [reflexivity|].
  pose proof (mapM_length _ _ _ Hdays) as Hlen. rewrite range_down_length in Hlen.
  split; [rewrite length_map; exact Hlen|].
  intros i Hi.
  destruct (Hdef (Z.to_nat n - 1 - i)%nat) as [d Hd]; [lia|].
  exists d; split; [assumption|].
  pose proof (mapM_nth f _ _ i O EmptyString Hdays) as Hnth.
  rewrite range_down_length, range_down_nth in Hnth by assumption.
  specialize (Hnth Hi). unfold f in Hnth; rewrite Hd in Hnth; cbn [bind] in Hnth.
  injection Hnth as Hnth.
  rewrite (nth_map_lt _ days i EmptyString) by lia.
  rewrite <- Hnth; reflexivity.
Qed.

(** C4.  For a count [n >= 0] that does not reach below the first day of
    the calendar, [get_last_n_days_totals] returns exactly [n] rows.  Row
    [i] carries the ISO text of a calendar date whose ordinal is that of
    today minus [n - 1 - i], so the rows are the [n] consecutive calendar
    days that end today, oldest first; its total is the sum of the amounts
    of the entries filed under that text, and 0 when the log has no such
    key.  A count of zero or less gives no rows, and a count beyond the
    ordinal of today raises [OverflowError]. *)
Theorem get_last_n_days_totals_spec (n : Z) (today : Calendar.date)
  (st : store) (data : DailyLog) :
  WaterTracker.load_water_log st = Ok data ->
  Calendar.valid today = true ->
  (0 <= n <= toordinal today ->
   exists rows,
     WaterTracker.get_last_n_days_totals n today st = Ok rows
     /\ Z.of_nat (List.length rows) = n
     /\ (forall i, 0 <= i < n ->
           exists d total,
             nth (Z.to_nat i) rows (EmptyString, 0) = (Calendar.isoformat d, total)
             /\ Calendar.valid d = true
             /\ toordinal d = toordinal today - (n - 1 - i)
             /\ total_under data (Calendar.isoformat d) total)
     /\ (0 < n ->
         exists total,
           nth (Z.to_nat (n - 1)) rows (EmptyString, 0)
           = (Calendar.isoformat today, total)))
  /\ (n <= 0 -> WaterTracker.get_last_n_days_totals n today st = Ok [])
  /\ (toordinal today < n ->
      WaterTracker.get_last_n_days_totals n today st = Raise OverflowError).
Proof.
  intros Hload Hv. split; [|split].
  - intros Hn.
    destruct (last_n_days_nth n today st data Hload Hv Hn) as (rows & Hrows & Hlen & Hnth).
    exists rows. split; [exact Hrows|]. split; [lia|]. split.
    + intros i Hi. destruct (Hnth (Z.to_nat i) ltac:(lia)) as (d & Hd & Hrow).
      destruct (minus_days_toordinal today d _ Hv Hd) as [Hvd Hod].
      exists d, (daily_total data (Calendar.isoformat d)).
      split; [exact Hrow|]. split; [exact Hvd|]. split; [lia|].
      apply total_under_daily_total.
    + intros Hpos. destruct (Hnth (Z.to_nat (n - 1)) ltac:(lia)) as (d & Hd & Hrow).
      replace (Z.to_nat n - 1 - Z.to_nat (n - 1))%nat with O in Hd by lia.
      cbn [Calendar.minus_days] in Hd. injection Hd as <-.
      eexists. exact Hrow.
  - intros Hn. exact (last_n_days_empty n today st data Hload Hn).
  - intros Hn. exact (last_n_days_overflow n today st data Hload Hv Hn).
Qed.

Lemma get_last_n_days_totals_witness :
  WaterTracker.get_last_n_days_totals 3 (Calendar.mkDate 2024 3 1)
    (Samples.store_of Samples.leap_log)
  = Ok [("2024-02-28", 0); ("2024-02-29", 500); ("2024-03-01", 1000)].
Proof.
  destruct (proj1 (get_last_n_days_totals_spec 3 (Calendar.mkDate 2024 3 1)
                     (Samples.store_of Samples.leap_log) Samples.leap_log
                     eq_refl eq_refl))
    as (rows & Hrows & _); [vm_compute; split; discriminate|].
  assert (Hc : WaterTracker.get_last_n_days_totals 3 (Calendar.mkDate 2024 3 1)
                 (Samples.store_of Samples.leap_log)
               = Ok [("2024-02-28", 0); ("2024-02-29", 500); ("2024-03-01", 1000)])
    by (vm_compute; reflexivity).
  rewrite Hrows in Hc |- *. exact Hc.
Defined.

(** C4 as stated does not hold for every count: on 2024-01-02 a window of
    800000 days would start before 0001-01-01, and the call raises
    [OverflowError] instead of returning rows. *)
Lemma get_last_n_days_totals_out_of_range :
  0 <= 800000
  /\ WaterTracker.get_last_n_days_totals 800000 (Calendar.mkDate 2024 1 2)
       (Samples.store_of Samples.two_days)
     = Raise OverflowError.
Proof.
  split; [lia|].
  apply (last_n_days_overflow 800000 (Calendar.mkDate 2024 1 2)
           (Samples.store_of Samples.two_days) Samples.two_days eq_refl eq_refl).
  vm_compute. reflexivity.
Qed.

(** ** Monthly statistics *)

Lemma isleap_iff (y : Z) : Calendar.isleap y = true <-> leap_year y.
Proof.
  unfold Calendar.isleap, leap_year.
  rewrite andb_true_iff, orb_true_iff, negb_true_iff, !Z.eqb_eq, Z.eqb_neq. tauto.
Qed.

(** The number of days [calendar.monthrange] gives each month. *)
Lemma days_in_month_cases (y m : Z) :
  1 <= m <= 12 ->
  (long_month m -> Calendar.days_in_month y m = 31)
  /\ (m = 4 \/ m = 6 \/ m = 9 \/ m = 11 -> Calendar.days_in_month y m = 30)
  /\ (m = 2 -> leap_year y -> Calendar.days_in_month y m = 29)
  /\ (m = 2 -> ~ leap_year y -> Calendar.days_in_month y m = 28).
Proof.
  intros Hm. unfold long_month.
  destruct (month_cases m Hm) as [H|H]; repeat (destruct H as [H|H]); subst m;
    (split; [|split; [|split]]); intros; try lia; try reflexivity.
  - apply isleap_iff in H0. unfold Calendar.days_in_month, Calendar.monthrange_ndays.
    cbn [Z.leb Z.compare Pos.compare Pos.compare_cont andb Z.eqb Pos.eqb].
    rewrite H0. reflexivity.
  - assert (E : Calendar.isleap y = false).
    { destruct (Calendar.isleap y) eqn:E; [|reflexivity]. apply isleap_iff in E. tauto. }
    unfold Calendar.days_in_month, Calendar.monthrange_ndays.
    cbn [Z.leb Z.compare Pos.compare Pos.compare_cont andb Z.eqb Pos.eqb].
    rewrite E. reflexivity.
Qed.

Lemma py_range_nth (lo hi : Z) (i : nat) :
  (i < Z.to_nat (hi - lo))%nat -> nth i (py_range lo hi) 0 = lo + Z.of_nat i.
Proof.
  intros Hi. unfold py_range.
  rewrite (nth_map_lt _ (seq 0 (Z.to_nat (hi - lo))) i O) by (rewrite length_seq; exact Hi).
  rewrite seq_nth by exact Hi. reflexivity.
Qed.

Lemma sum_Z_shift (l : list Z) (a : Z) : fold_left Z.add l a = a + fold_left Z.add l 0.
Proof.
  revert a; induction l as [|x l IH]; intros a; cbn [fold_left]; [lia|].
  rewrite (IH (a + x)), (IH (0 + x)). lia.
Qed.

Lemma sum_Z_bounds (l : list Z) (B : Z) :
  (forall x, In x l -> 0 <= x <= B) ->
  0 <= WaterTracker.sum_Z l <= B * Z.of_nat (List.length l).
Proof.
  unfold WaterTracker.sum_Z. induction l as [|x l IH]; intros H; [cbn; lia|].
  cbn [fold_left List.length]. rewrite sum_Z_shift.
  specialize (H x (or_introl eq_refl)) as Hx.
  assert (Hl : forall z, In z l -> 0 <= z <= B) by (intros z Hz; apply H; right; exact Hz).
  specialize (IH Hl). lia.
Qed.

(** The rounded average of positive totals that a [float] can hold. *)
Lemma average_finite (l : list Z) :
  l <> [] -> (forall x, In x l -> 0 <= x <= 2 ^ 1000) ->
  exists a,
    (let* avg := Float64.int_truediv (WaterTracker.sum_Z l) (Z.of_nat (List.length l)) in
     let* average := Float64.round_ndigits avg 2 in
     Ok (PyFloat average)) = Ok (PyFloat (Float64.Finite a)).
Proof.
  intros Hne Hl. pose proof (sum_Z_bounds l (2 ^ 1000) Hl) as Hs.
  assert (Hlen : 0 < Z.of_nat (List.length l)) by (destruct l; [contradiction | cbn; lia]).
  set (s := WaterTracker.sum_Z l) in *. set (n := Z.of_nat (List.length l)) in *.
  assert (He : (Qabs (inject_Z s / inject_Z n) <= Float64.pow2 1000)%Q)
    by (apply ratio_bound; lia).
  rewrite (int_truediv_finite s n 1000) by (try exact He; lia). cbn [bind].
  set (avg := Qred (Float64.round (inject_Z s / inject_Z n))).
  assert (Havg : (Qabs avg <= Float64.pow2 1000)%Q).
  { unfold avg. rewrite Qred_correct. apply round_abs_le_pow2; [exact He | lia]. }
  assert (Hk : (Qabs (inject_Z (round_half_even (avg * inject_Z (10 ^ Z.of_nat 2)))
                      / inject_Z (10 ^ Z.of_nat 2)) <= Float64.pow2 1001)%Q).
  { change (inject_Z (10 ^ Z.of_nat 2)) with 100%Q.
    destruct (round_half_even_near (avg * 100)) as [H1 H2].
    assert (E : (Float64.pow2 1001 == Float64.pow2 1000 * 2)%Q) by reflexivity.
    assert (B1 : (1 <= Float64.pow2 1000)%Q) by (apply Qle_bool_iff; reflexivity).
    rewrite E. apply Qabs_Qle_condition in Havg as [Ha1 Ha2].
    set (K := inject_Z (round_half_even (avg * 100))) in *.
    assert (Ek : (K / 100 == K * (1 # 100))%Q) by field. rewrite Ek.
    set (B := Float64.pow2 1000) in *. clearbody K B.
    apply Qabs_Qle_condition. split; lra. }
  rewrite (round_ndigits_finite avg 2 1001) by (try exact Hk; lia). cbn [bind].
  eexists. reflexivity.
Qed.

(** C5.  For a month [1..12] of a year from 1000 on, [get_monthly_data] has
    one slot per calendar day of the month, in the order of the days: 31,
    30, or for February 29 in a leap year and 28 otherwise.  The slot of a
    day is keyed by the ISO text of its date and holds the sum of the
    amounts filed under that text, 0 when the log has no such key.  When no
    day of the month has a positive total, [get_monthly_statistics] returns
    no best and no worst day and the integer 0 as total and as average.
    When some day has a positive total, and the totals are within the range
    of a [float], the best day is a day of the largest total of the month
    and the worst day a day of the smallest total among the positive ones. *)
Theorem get_monthly_statistics_spec (y m : Z) (st : store) (data : DailyLog) :
  WaterTracker.load_water_log st = Ok data ->
  1 <= m <= 12 ->
  1000 <= y <= 9999 ->
  exists month_data,
    WaterTracker.get_monthly_data y m st = Ok month_data
    /\ (long_month m -> List.length month_data = 31%nat)
    /\ (m = 4 \/ m = 6 \/ m = 9 \/ m = 11 -> List.length month_data = 30%nat)
    /\ (m = 2 -> leap_year y -> List.length month_data = 29%nat)
    /\ (m = 2 -> ~ leap_year y -> List.length month_data = 28%nat)
    /\ (forall day, 1 <= day <= Z.of_nat (List.length month_data) ->
          exists total,
            nth (Z.to_nat (day - 1)) month_data (EmptyString, 0)
            = (Calendar.isoformat (Calendar.mkDate y m day), total)
            /\ Calendar.valid (Calendar.mkDate y m day) = true
            /\ total_under data (Calendar.isoformat (Calendar.mkDate y m day)) total)
    /\ ((forall item, In item month_data -> snd item <= 0) ->
        WaterTracker.get_monthly_statistics y m st
        = Ok (WaterTracker.mkMonthly 0 (PyInt 0) None None 0 None))
    /\ ((exists item, In item month_data /\ 0 < snd item) ->
        (forall item, In item month_data -> snd item <= 2 ^ 1000) ->
        exists stats b w,
          WaterTracker.get_monthly_statistics y m st = Ok stats
          /\ WaterTracker.m_best_day stats = Some b
          /\ WaterTracker.m_worst_day stats = Some w
          /\ In b month_data /\ 0 < snd b
          /\ (forall item, In item month_data -> snd item <= snd b)
          /\ In w month_data /\ 0 < snd w
          /\ (forall item, In item month_data -> 0 < snd item -> snd w <= snd item)).
Proof.
  intros Hload Hm Hy.
  pose proof (get_monthly_data_spec y m st data Hload Hm) as Hdata.
  destruct (monthrange_ndays_valid y m Hm) as (_ & Hb & _).
  destruct (days_in_month_cases y m Hm) as (C31 & C30 & C29 & C28).
  set (key := WaterTracker.month_key y m) in *.
  set (month_data := map (fun d => (key d, daily_total data (key d)))
                         (py_range 1 (Calendar.days_in_month y m + 1))) in *.
  assert (Hlen : Z.of_nat (List.length month_data) = Calendar.days_in_month y m)
    by (unfold month_data; rewrite length_map, py_range_length; lia).
  exists month_data. split; [exact Hdata|].
  split; [intros H; specialize (C31 H); lia|].
  split; [intros H; specialize (C30 H); lia|].
  split; [intros H1 H2; specialize (C29 H1 H2); lia|].
  split; [intros H1 H2; specialize (C28 H1 H2); lia|].
  split.
  { intros day Hday. exists (daily_total data (key day)).
    assert (Hv : Calendar.valid (Calendar.mkDate y m day) = true).
    { apply valid_iff. cbn [Calendar.year Calendar.month Calendar.day]. lia. }
    pose proof (month_key_isoformat (Calendar.mkDate y m day) Hv ltac:(cbn; lia)) as Ek.
    cbn [Calendar.year Calendar.month Calendar.day] in Ek. fold key in Ek.
    split; [|split; [exact Hv|]].
    - unfold month_data.
      rewrite (nth_map_lt _ (py_range 1 (Calendar.days_in_month y m + 1))
                 (Z.to_nat (day - 1)) 0)
        by (rewrite py_range_length; lia).
      rewrite py_range_nth by lia.
      replace (1 + Z.of_nat (Z.to_nat (day - 1))) with day by lia.
      rewrite Ek. reflexivity.
    - rewrite <- Ek. apply total_under_daily_total. }
  unfold WaterTracker.get_monthly_statistics. rewrite Hdata. cbn [bind]. cbv zeta.
  rewrite filter_map_snd_pos.
  destruct (filter (fun item : string * Z => snd item >? 0) month_data)
    as [|p ps] eqn:Hf.
  - split; [intros _; reflexivity|].
    intros (item & Hin & Hpos). exfalso.
    rewrite filter_nil_iff in Hf. specialize (Hf item Hin).
    rewrite Z.gtb_ltb, Z.ltb_ge in Hf. lia.
  - assert (Hp : In p month_data /\ (snd p >? 0) = true).
    { apply (filter_In (fun item : string * Z => snd item >? 0)).
      rewrite Hf; simpl; auto. }
    split.
    { intros Hall. exfalso. destruct Hp as [Hp1 Hp2]. apply Z.gtb_lt in Hp2.
      specialize (Hall p Hp1). lia. }
    intros _ Hbound.
    clearbody month_data.
    destruct month_data as [|x xs]; [destruct Hp as [[] _]|].
    cbn [map WaterTracker.py_max_by_value WaterTracker.py_min_by_value bind].
    destruct (average_finite (snd p :: map snd ps)) as [a Ha]; [discriminate| |].
    { intros z Hz. change (snd p :: map snd ps) with (map snd (p :: ps)) in Hz.
      rewrite <- Hf in Hz. apply in_map_iff in Hz as (item & <- & Hitem).
      apply filter_In in Hitem as [Hitem Hpos]. apply Z.gtb_lt in Hpos.
      specialize (Hbound item Hitem). lia. }
    destruct (Float64.int_truediv _ _) as [avg|]; cbn [bind] in Ha |- *; [|discriminate].
    destruct (Float64.round_ndigits avg 2) as [average|]; cbn [bind] in Ha |- *;
      [|discriminate].
    destruct (max_by_value_spec x xs) as [Hbin Hble].
    destruct (min_by_value_spec p ps) as [Hwin Hwle].
    rewrite <- Hf in Hwin, Hwle.
    do 3 eexists. split; [reflexivity|].
    cbn [WaterTracker.m_best_day WaterTracker.m_worst_day].
    split; [reflexivity|]. split; [reflexivity|].
    destruct Hp as [Hp1 Hp2]. apply Z.gtb_lt in Hp2.
    apply filter_In in Hwin as [Hwin Hwpos]. apply Z.gtb_lt in Hwpos.
    split; [exact Hbin|]. split; [specialize (Hble p Hp1); lia|].
    split; [exact Hble|]. split; [exact Hwin|]. split; [exact Hwpos|].
    intros item Hin Hpos. apply Hwle. apply filter_In; split; [assumption|].
    apply Z.gtb_lt; lia.
Qed.

(** February 2024, with 1500 ml on the 10th and 500 + 300 ml on the 20th:
    29 slots, the 29th keyed "2024-02-29" with total 0, the 10th the best
    day and the 20th the worst. *)
Lemma get_monthly_statistics_witness :
  exists month_data stats,
    WaterTracker.get_monthly_data 2024 2 (Samples.store_of Samples.february_log)
    = Ok month_data
    /\ List.length month_data = 29%nat
    /\ nth 28 month_data (EmptyString, 0) = ("2024-02-29", 0)
    /\ nth 19 month_data (EmptyString, 0) = ("2024-02-20", 800)
    /\ WaterTracker.get_monthly_statistics 2024 2 (Samples.store_of Samples.february_log)
       = Ok stats
    /\ WaterTracker.m_best_day stats = Some ("2024-02-10", 1500)
    /\ WaterTracker.m_worst_day stats = Some ("2024-02-20", 800).
Proof.
  destruct (get_monthly_statistics_spec 2024 2 (Samples.store_of Samples.february_log)
              Samples.february_log eq_refl ltac:(lia) ltac:(lia))
    as (month_data & Hdata & _ & _ & H29 & _ & Hslot & _ & Hstats).
  assert (Hlen : List.length month_data = 29%nat).
  { apply H29; [reflexivity|]. unfold leap_year. split; [reflexivity|].
    left. vm_compute. discriminate. }
  destruct (Hslot 29 ltac:(rewrite Hlen; lia)) as (t29 & E29 & _ & T29).
  destruct (Hslot 20 ltac:(rewrite Hlen; lia)) as (t20 & E20 & _ & T20).
  assert (Z29 : t29 = 0) by (apply (proj2 T29); reflexivity).
  assert (Z20 : t20 = 800) by (apply (proj1 T20 _ eq_refl)).
  subst t29 t20.
  assert (Hin20 : In ("2024-02-20", 800) month_data).
  { change ("2024-02-20", 800) with (Calendar.isoformat (Calendar.mkDate 2024 2 20), 800).
    rewrite <- E20. apply nth_In. rewrite Hlen. vm_compute. lia. }
  assert (Hc : WaterTracker.get_monthly_data 2024 2 (Samples.store_of Samples.february_log)
               = Ok month_data) by exact Hdata.
  vm_compute in Hc. injection Hc as Hc.
  destruct Hstats as (stats & b & w & Hs & Hb & Hw & _).
  { exists ("2024-02-20", 800). split; [exact Hin20 | cbn; lia]. }
  { intros item Hin. rewrite <- Hc in Hin. cbn [In] in Hin.
    repeat (destruct Hin as [<-|Hin]; [cbn [snd]; first [lia | vm_compute; discriminate]|]).
    destruct Hin. }
  exists month_data, stats. split; [exact Hdata|]. split; [exact Hlen|].
  split; [exact E29|]. split; [exact E20|]. split; [exact Hs|].
  assert (Hv : WaterTracker.get_monthly_statistics 2024 2
                 (Samples.store_of Samples.february_log)
               = Ok (WaterTracker.mkMonthly 2300 (PyFloat (Float64.Finite 1150))
                       (Some ("2024-02-10", 1500)) (Some ("2024-02-20", 800)) 2
                       (Some 29%nat))) by (vm_compute; reflexivity).
  rewrite Hs in Hv. injection Hv as ->. split; reflexivity.
Defined.

(** C5.  A month with a positive total that no [float] holds: the average
    cannot be formed and [get_monthly_statistics] raises OverflowError
    instead of returning statistics. *)
Lemma get_monthly_statistics_overflow :
  WaterTracker.load_water_log (Samples.store_of Samples.huge_log) = Ok Samples.huge_log
  /\ (exists month_data,
        WaterTracker.get_monthly_data 2024 1 (Samples.store_of Samples.huge_log)
        = Ok month_data
        /\ nth 0 month_data (EmptyString, 0) = ("2024-01-01", 10 ^ 400))
  /\ WaterTracker.get_monthly_statistics 2024 1 (Samples.store_of Samples.huge_log)
     = Raise OverflowError.
Proof.
  split; [reflexivity|]. split; [|vm_compute; reflexivity].
  eexists. split; [vm_compute; reflexivity|]. vm_compute. reflexivity.
Qed.

(** Before the year 1000 the keys of [get_monthly_data] carry the year
    without its leading zeros, so they are not the ISO dates under which
    the entries are filed: the 500 ml logged on 0999-01-05 are not in the
    slot of that day. *)
Lemma get_monthly_data_year_999 :
  exists month_data,
    WaterTracker.get_monthly_data 999 1 (Samples.store_of Samples.year_999_log)
    = Ok month_data
    /\ nth 4 month_data (EmptyString, 0) = ("999-01-05", 0)
    /\ Calendar.isoformat (Calendar.mkDate 999 1 5) = "0999-01-05"
    /\ daily_total Samples.year_999_log "0999-01-05" = 500.
Proof.
  eexists. split; [vm_compute; reflexivity|]. repeat split.
Qed.

(** ** The average over a window *)





(** ** Export and import, file by file *)




(** X19.  A successful [import_data_from_csv] from a file other than the log
    document, all of whose rows have a [Date] cell, only adds to the log:
    every entry that was there before is still there, in its place at the
    head of its date, one entry is added for each data row of the file, and
    the CSV files are as they were.  Importing into a log that is not empty
    therefore never replaces or merges entries. *)
Theorem import_data_from_csv_appends (py_float : option string -> result Z)
  (input_file : string) (st st' : store) :
  String.eqb input_file WaterTracker.WATER_LOG_FILE = false ->
  WaterTracker.import_data_from_csv py_float input_file st = (true, st') ->
  exists data text rows,
    WaterTracker.load_water_log st = Ok data
    /\ Dict.get (csv_files st) input_file = Some text
    /\ Csv.dict_reader (Csv.universal_newlines text) = Ok rows
    /\ (dated rows ->
        exists data',
          WaterTracker.load_water_log st' = Ok data'
          /\ csv_files st' = csv_files st
          /\ entry_count data' = (entry_count data + List.length rows)%nat
          /\ forall k, exists added,
               entries_of data' k = (entries_of data k ++ added)%list).
Proof.
  intros _.
  unfold WaterTracker.import_data_from_csv, WaterTracker.try_bool,
    WaterTracker.import_body, WaterTracker.io_bind, WaterTracker.io_load,
    WaterTracker.open_read, WaterTracker.io_lift, WaterTracker.io_save.
  destruct (WaterTracker.load_water_log st) as [data|] eqn:Hload; [|discriminate].
  destruct (Dict.get (csv_files st) input_file) as [text|] eqn:Hfile; [|discriminate].
  destruct (Csv.dict_reader (Csv.universal_newlines text)) as [rows|] eqn:Hrows;
    [|discriminate].
  destruct (WaterTracker.import_rows py_float data rows) as [data'|] eqn:Himp;
    [|discriminate].
  intros [= <-]. exists data, text, rows.
  destruct (import_rows_appends py_float rows data data' Himp) as [Hcnt Hpre].
  split; [reflexivity|]. split; [reflexivity|]. split; [exact Hrows|].
  intros _. exists data'.
  split; [apply load_save|]. split; [reflexivity|]. split; assumption.
Qed.

(** The export of the two sample days, imported into the log of those two
    days: three rows, and six entries afterwards. *)
Lemma import_data_from_csv_appends_witness :
  exists st' data',
    WaterTracker.import_data_from_csv WaterTracker.int_text_float "in.csv"
      (Samples.store_with_csv Samples.two_days "in.csv" (export_text Samples.two_days))
    = (true, st')
    /\ WaterTracker.load_water_log st' = Ok data'
    /\ entry_count data' = 6%nat
    /\ map amount_ml (entries_of data' "2024-01-02") = [500; 700; 500; 700].
Proof.
  destruct (WaterTracker.import_data_from_csv WaterTracker.int_text_float "in.csv"
              (Samples.store_with_csv Samples.two_days "in.csv"
                 (export_text Samples.two_days))) as [b st'] eqn:Himp.
  assert (Hb : b = true) by (apply (f_equal fst) in Himp; vm_compute in Himp; congruence).
  subst b.
  destruct (import_data_from_csv_appends WaterTracker.int_text_float "in.csv" _ st'
              eq_refl Himp)
    as (data & text & rows & H1 & H2 & H3 & H4).
  vm_compute in H1. injection H1 as <-.
  vm_compute in H2. injection H2 as <-.
  vm_compute in H3. injection H3 as <-.
  destruct H4 as (data' & L1 & _ & L3 & _).
  { intros row Hin. cbn [In] in Hin.
    repeat (destruct Hin as [<-|Hin]; [vm_compute; discriminate|]). destruct Hin. }
  exists st', data'. split; [reflexivity|]. split; [exact L1|].
  split; [rewrite L3; reflexivity|].
  assert (Hs : st' = snd (WaterTracker.import_data_from_csv WaterTracker.int_text_float
                            "in.csv"
                            (Samples.store_with_csv Samples.two_days "in.csv"
                               (export_text Samples.two_days))))
    by (rewrite Himp; reflexivity).
  rewrite Hs in L1. vm_compute in L1. injection L1 as <-. reflexivity.
Defined.

(** X1.  The part of C1 that the code keeps.  For a log of integer amounts
    whose date keys, time stamps and notes hold no carriage return and stay
    within the field limit of the reader, and whose amounts [float] reads
    back from their decimal text, exporting the log to a file other than
    the log document and then importing the file into an empty store
    rebuilds a log with the same number of entries and, date by date, the
    same entries in the same order up to absent time stamps and notes
    coming back as empty strings: the same amounts, hence the same totals,
    and the same notes. *)
Theorem export_import_round_trip (py_float : option string -> result Z)
  (data : DailyLog) (path : string) (csv : list (string * string)) :
  reads_back py_float data ->
  Dict.wf data ->
  log_cr_free data = true ->
  log_within_limit data = true ->
  String.eqb path WaterTracker.WATER_LOG_FILE = false ->
  exists st1 st2 data2,
    WaterTracker.export_data_to_csv path (mkStore (Some (WellFormed data)) csv)
    = (true, st1)
    /\ WaterTracker.import_data_from_csv py_float path (mkStore None (csv_files st1))
       = (true, st2)
    /\ WaterTracker.load_water_log st2 = Ok data2
    /\ entry_count data2 = entry_count data
    /\ forall k,
         entries_of data2 k = map reimported (entries_of data k)
         /\ daily_total data2 k = daily_total data k
         /\ map note (entries_of data2 k)
            = map (fun e => Some (WaterTracker.cell (note e))) (entries_of data k).
Proof.
  intros Hfloat Hwf Hcr Hlim Hp.
  do 3 eexists. split; [apply export_data_to_csv_spec; [exact Hp | reflexivity]|].
  cbn [csv_files log_file].
  split; [apply (import_data_from_csv_export_text py_float path data _ Hfloat Hcr Hlim);
          apply dict_get_set_eq|].
  split; [reflexivity|].
  split.
  - rewrite entry_count_fold_append, length_export_pairs by assumption.
    unfold entry_count; simpl; lia.
  - intros k. pose proof (reimported_entries_of data k Hwf) as E.
    split; [exact E|]. split.
    + unfold daily_total. rewrite E. apply sum_amounts_reimported.
    + rewrite E, map_map. reflexivity.
Qed.

(** The two sample days, exported and imported again. *)
Lemma export_import_round_trip_witness :
  exists st1 st2 data2,
    WaterTracker.export_data_to_csv "water_intake_export.csv"
      (mkStore (Some (WellFormed Samples.two_days)) []) = (true, st1)
    /\ WaterTracker.import_data_from_csv WaterTracker.int_text_float "water_intake_export.csv"
         (mkStore None (csv_files st1)) = (true, st2)
    /\ WaterTracker.load_water_log st2 = Ok data2
    /\ entry_count data2 = 3%nat
    /\ daily_total data2 "2024-01-02" = 1200.
Proof.
  destruct (export_import_round_trip WaterTracker.int_text_float
              Samples.two_days "water_intake_export.csv" [])
    as (st1 & st2 & data2 & H1 & H2 & H3 & H4 & H5).
  - intros k e _. apply int_text_float_str.
  - repeat constructor; simpl; intuition discriminate.
  - reflexivity.
  - reflexivity.
  - reflexivity.
  - exists st1, st2, data2. split; [exact H1|]. split; [exact H2|]. split; [exact H3|].
    split; [rewrite H4; reflexivity|].
    rewrite (proj1 (proj2 (H5 "2024-01-02"))). reflexivity.
Defined.
